(** * SHT15 temperature / humidity sensor driver (drivers/hwmon/sht15.c)

    A shallow embedding of the driver: the pure helpers (byte reversal,
    CRC-8, calibration) are Rocq functions over [Z] with the C integer
    conversions written out; the stateful protocol code is written in a
    state monad over a machine that carries the driver's [sht15_data], the
    levels the data line will show, the interrupts the device will raise and
    the log of everything the driver did to its two GPIO lines. *)

From Stdlib Require Import ZArith List Bool Lia.
Import ListNotations.
Local Open Scope Z_scope.

(** ** C integer conversions *)

(** Conversion to [u8]. *)
Definition u8 (x : Z) : Z := x mod 256.

(** Conversion to [uint16_t]. *)
Definition u16 (x : Z) : Z := x mod 65536.

(** Conversion to a 32-bit [int]; the kernel is built with wrapping signed
    arithmetic. *)
Definition int32 (x : Z) : Z := (x + 2147483648) mod 4294967296 - 2147483648.

(** The C idiom [!!x]. *)
Definition notnot (x : Z) : Z := if x =? 0 then 0 else 1.

(** ** Commands, timings, status bits, error numbers *)

Definition SHT15_MEASURE_TEMP : Z := 0x03.
Definition SHT15_MEASURE_RH : Z := 0x05.
Definition SHT15_WRITE_STATUS : Z := 0x06.
Definition SHT15_READ_STATUS : Z := 0x07.
Definition SHT15_SOFT_RESET : Z := 0x1E.

Definition SHT15_TSCKL : Z := 100.
Definition SHT15_TSCKH : Z := 100.
Definition SHT15_TSU : Z := 150.
Definition SHT15_TSRST : Z := 11.

Definition SHT15_STATUS_LOW_RESOLUTION : Z := 0x01.
Definition SHT15_STATUS_NO_OTP_RELOAD : Z := 0x02.
Definition SHT15_STATUS_HEATER : Z := 0x04.
Definition SHT15_STATUS_LOW_BATTERY : Z := 0x40.

Definition EIO : Z := 5.
Definition EAGAIN : Z := 11.
Definition EINVAL : Z := 22.
Definition ETIME : Z := 62.

(** Actions the driver may be doing. *)
Inductive sht15_state : Type :=
| SHT15_READING_NOTHING
| SHT15_READING_TEMP
| SHT15_READING_HUMID.

Definition sht15_state_eqb (a b : sht15_state) : bool :=
  match a, b with
  | SHT15_READING_NOTHING, SHT15_READING_NOTHING => true
  | SHT15_READING_TEMP, SHT15_READING_TEMP => true
  | SHT15_READING_HUMID, SHT15_READING_HUMID => true
  | _, _ => false
  end.

(** ** Calibration and checksum tables *)

Record sht15_temppair : Type := mk_temppair { vdd : Z; d1 : Z }.

(** Table 9 from the datasheet. *)
Definition temppoints : list sht15_temppair :=
  [ mk_temppair 2500000 (-39400);
    mk_temppair 3000000 (-39600);
    mk_temppair 3500000 (-39700);
    mk_temppair 4000000 (-39800);
    mk_temppair 5000000 (-40100) ].

Definition temppoint (i : nat) : sht15_temppair :=
  nth i temppoints (mk_temppair 0 0).

Definition sht15_crc8_table : list Z :=
  [ 0; 49; 98; 83; 196; 245; 166; 151;
    185; 136; 219; 234; 125; 76; 31; 46;
    67; 114; 33; 16; 135; 182; 229; 212;
    250; 203; 152; 169; 62; 15; 92; 109;
    134; 183; 228; 213; 66; 115; 32; 17;
    63; 14; 93; 108; 251; 202; 153; 168;
    197; 244; 167; 150; 1; 48; 99; 82;
    124; 77; 30; 47; 184; 137; 218; 235;
    61; 12; 95; 110; 249; 200; 155; 170;
    132; 181; 230; 215; 64; 113; 34; 19;
    126; 79; 28; 45; 186; 139; 216; 233;
    199; 246; 165; 148; 3; 50; 97; 80;
    187; 138; 217; 232; 127; 78; 29; 44;
    2; 51; 96; 81; 198; 247; 164; 149;
    248; 201; 154; 171; 60; 13; 94; 111;
    65; 112; 35; 18; 133; 180; 231; 214;
    122; 75; 24; 41; 190; 143; 220; 237;
    195; 242; 161; 144; 7; 54; 101; 84;
    57; 8; 91; 106; 253; 204; 159; 174;
    128; 177; 226; 211; 68; 117; 38; 23;
    252; 205; 158; 175; 56; 9; 90; 107;
    69; 116; 39; 22; 129; 176; 227; 210;
    191; 142; 221; 236; 123; 74; 25; 40;
    6; 55; 100; 85; 194; 243; 160; 145;
    71; 118; 37; 20; 131; 178; 225; 208;
    254; 207; 156; 173; 58; 11; 88; 105;
    4; 53; 102; 87; 192; 241; 162; 147;
    189; 140; 223; 238; 121; 72; 27; 42;
    193; 240; 163; 146; 5; 52; 103; 86;
    120; 73; 26; 43; 188; 141; 222; 239;
    130; 179; 224; 209; 70; 119; 36; 21;
    59; 10; 89; 104; 255; 206; 157; 172 ].

(** ** Device instance data *)

Record sht15_data : Type := mk_data {
  val_temp : Z;
  val_humid : Z;
  val_status : Z;
  checksum_ok : bool;
  checksumming : bool;
  state : sht15_state;
  measurements_valid : bool;
  status_valid : bool;
  last_measurement : Z;
  last_status : Z;
  supply_uV : Z;
  supply_uV_valid : bool;
  interrupt_handled : Z
}.

(** ** Byte reversal and CRC-8 *)

(** The body of the loop of [sht15_reverse], [n] iterations from index [i]. *)
Fixpoint sht15_reverse_loop (n : nat) (i : Z) (byte c : Z) : Z :=
  match n with
  | O => c
  | S n' =>
      sht15_reverse_loop n' (i + 1) byte
        (u8 (Z.lor c (Z.shiftl (notnot (Z.land byte (Z.shiftl 1 i))) (7 - i))))
  end.

Definition sht15_reverse (byte : Z) : Z :=
  sht15_reverse_loop 8 0 (u8 byte) 0.

(** [while (len--) { crc = table[*value ^ crc]; value++; }] *)
Fixpoint sht15_crc8_loop (len : nat) (value : list Z) (crc : Z) : Z :=
  match len with
  | O => crc
  | S len' =>
      sht15_crc8_loop len' (tl value)
        (nth (Z.to_nat (Z.lxor (hd 0 value) crc)) sht15_crc8_table 0)
  end.

Definition sht15_crc8 (data : sht15_data) (value : list Z) (len : nat) : Z :=
  sht15_crc8_loop len value (sht15_reverse (Z.land (val_status data) 0x0F)).

(** *** Reference CRC-8, written from the description of the validator *)

(** The eight bits of a byte, least significant first. *)
Definition byte_bits (b : Z) : list bool :=
  map (fun i => Z.testbit b (Z.of_nat i)) (seq 0 8).

(** The value of a list of bits, most significant first. *)
Definition bits_value (l : list bool) : Z :=
  fold_left (fun acc (b : bool) => 2 * acc + (if b then 1 else 0)) l 0.

(** Bit reversal of a byte: its bits read in the opposite order. *)
Definition bitrev8 (b : Z) : Z := bits_value (byte_bits b).

(** One step of the CRC-8 shift register with generator x^8 + x^5 + x^4 + 1. *)
Definition crc8_shift (crc : Z) : Z :=
  if Z.testbit crc 7
  then Z.lxor (Z.shiftl crc 1 mod 256) 0x31
  else Z.shiftl crc 1 mod 256.

Definition crc8_table_entry (i : nat) : Z :=
  Nat.iter 8 crc8_shift (Z.of_nat i).

(** The table of the generator, computed rather than tabulated. *)
Definition crc8_reference_table : list Z := map crc8_table_entry (seq 0 256).

(** Table-driven CRC-8 seeded with the reversed low nibble of [seed]. *)
Definition crc8_reference (seed : Z) (bytes : list Z) : Z :=
  fold_left
    (fun crc b => nth (Z.to_nat (Z.lxor b crc)) crc8_reference_table 0)
    bytes (bitrev8 (Z.land seed 15)).

(** ** Calibration *)

(** The interpolation formula of [sht15_calc_temp] between two table points,
    in [int] arithmetic with truncating division. *)
Definition interpolate (lo hi : sht15_temppair) (supply : Z) : Z :=
  int32 (Z.quot (int32 (int32 (supply - vdd lo) * int32 (d1 hi - d1 lo)))
                (int32 (vdd hi - vdd lo))
         + d1 lo).

(** [for (i = ARRAY_SIZE(temppoints) - 1; i > 0; i--)], entered at index [i]
    with the current value [d] of [d1]. *)
Fixpoint sht15_calc_temp_loop (i : nat) (supply d : Z) : Z :=
  match i with
  | O => d
  | S j =>
      if supply >? vdd (temppoint j)
      then interpolate (temppoint j) (temppoint i) supply
      else sht15_calc_temp_loop j supply d
  end.

(** The value of [d1] at the end of [sht15_calc_temp]. *)
Definition sht15_temp_offset (supply : Z) : Z :=
  sht15_calc_temp_loop (length temppoints - 1) supply (d1 (temppoint 0)).

(** The slope [d2] selected by the resolution bit. *)
Definition sht15_temp_slope (status : Z) : Z :=
  if Z.land status SHT15_STATUS_LOW_RESOLUTION =? 0 then 10 else 40.

Definition sht15_calc_temp (data : sht15_data) : Z :=
  int32 (int32 (val_temp data * sht15_temp_slope (val_status data))
         + sht15_temp_offset (supply_uV data)).

Definition sht15_calc_humid (data : sht15_data) : Z :=
  let temp := sht15_calc_temp data in
  let c1 := -4 in
  let low := negb (Z.land (val_status data) SHT15_STATUS_LOW_RESOLUTION =? 0) in
  let c2 := if low then 648000 else 40500 in
  let c3 := if low then -7200 else -28 in
  let t2 := if low then 1280 else 80 in
  let rh_linear :=
    int32 (int32 (int32 (c1 * 1000)
                  + Z.quot (int32 (c2 * val_humid data)) 1000)
           + Z.quot (int32 (int32 (val_humid data * val_humid data) * c3)) 10000) in
  int32 (Z.quot (int32 (int32 (temp - 25000)
                        * int32 (10000 + int32 (t2 * val_humid data))))
                1000000
         + rh_linear).

(** ** The machine the protocol code runs on *)

Inductive gpio_line : Type := gpio_sck | gpio_data.

(** What the driver does to the outside world, in program order. *)
Inductive event : Type :=
| EvDirOut (l : gpio_line) (v : bool)  (* gpio_direction_output *)
| EvDirIn (l : gpio_line)              (* gpio_direction_input *)
| EvSet (l : gpio_line) (v : bool)     (* gpio_set_value *)
| EvGet (l : gpio_line) (v : bool)     (* gpio_get_value and the level it saw *)
| EvNdelay (ns : Z)
| EvMsleep (ms : Z)
| EvEnableIrq
| EvDisableIrq
| EvScheduleWork
| EvWait (timeout : Z)                 (* wait_event_timeout, in jiffies *)
| EvWakeUp
| EvLock
| EvUnlock
| EvDevErr.

(** What the driver takes from the kernel configuration. *)
Record kernel : Type := mk_kernel {
  HZ : Z;                      (* ticks per second *)
  msecs_to_jiffies : Z -> Z
}.

Record machine : Type := mk_machine {
  kern : kernel;
  dat : sht15_data;        (* the driver's instance data *)
  jiffies : Z;             (* the kernel's tick counter *)
  data_in : list bool;     (* levels of the data line at the coming reads;
                              once exhausted the pull-up shows: high *)
  irq_in : list bool;      (* at the coming points where the falling-edge
                              interrupt can be delivered: is it raised? *)
  irq_enabled : bool;
  work_pending : bool;     (* read_work is queued *)
  trace : list event
}.

Definition set_dat (d : sht15_data) (s : machine) : machine :=
  mk_machine (kern s) d (jiffies s) (data_in s) (irq_in s) (irq_enabled s)
             (work_pending s) (trace s).
Definition set_data_in (l : list bool) (s : machine) : machine :=
  mk_machine (kern s) (dat s) (jiffies s) l (irq_in s) (irq_enabled s)
             (work_pending s) (trace s).
Definition set_irq_in (l : list bool) (s : machine) : machine :=
  mk_machine (kern s) (dat s) (jiffies s) (data_in s) l (irq_enabled s)
             (work_pending s) (trace s).
Definition set_irq_enabled (b : bool) (s : machine) : machine :=
  mk_machine (kern s) (dat s) (jiffies s) (data_in s) (irq_in s) b
             (work_pending s) (trace s).
Definition set_work_pending (b : bool) (s : machine) : machine :=
  mk_machine (kern s) (dat s) (jiffies s) (data_in s) (irq_in s) (irq_enabled s)
             b (trace s).
Definition set_trace (t : list event) (s : machine) : machine :=
  mk_machine (kern s) (dat s) (jiffies s) (data_in s) (irq_in s) (irq_enabled s)
             (work_pending s) t.

Definition set_val_temp (v : Z) (d : sht15_data) : sht15_data :=
  mk_data v (val_humid d) (val_status d) (checksum_ok d) (checksumming d)
          (state d) (measurements_valid d) (status_valid d)
          (last_measurement d) (last_status d) (supply_uV d)
          (supply_uV_valid d) (interrupt_handled d).
Definition set_val_humid (v : Z) (d : sht15_data) : sht15_data :=
  mk_data (val_temp d) v (val_status d) (checksum_ok d) (checksumming d)
          (state d) (measurements_valid d) (status_valid d)
          (last_measurement d) (last_status d) (supply_uV d)
          (supply_uV_valid d) (interrupt_handled d).
Definition set_val_status (v : Z) (d : sht15_data) : sht15_data :=
  mk_data (val_temp d) (val_humid d) v (checksum_ok d) (checksumming d)
          (state d) (measurements_valid d) (status_valid d)
          (last_measurement d) (last_status d) (supply_uV d)
          (supply_uV_valid d) (interrupt_handled d).
Definition set_checksum_ok (b : bool) (d : sht15_data) : sht15_data :=
  mk_data (val_temp d) (val_humid d) (val_status d) b (checksumming d)
          (state d) (measurements_valid d) (status_valid d)
          (last_measurement d) (last_status d) (supply_uV d)
          (supply_uV_valid d) (interrupt_handled d).
Definition set_state (st : sht15_state) (d : sht15_data) : sht15_data :=
  mk_data (val_temp d) (val_humid d) (val_status d) (checksum_ok d)
          (checksumming d) st (measurements_valid d) (status_valid d)
          (last_measurement d) (last_status d) (supply_uV d)
          (supply_uV_valid d) (interrupt_handled d).
Definition set_measurements_valid (b : bool) (d : sht15_data) : sht15_data :=
  mk_data (val_temp d) (val_humid d) (val_status d) (checksum_ok d)
          (checksumming d) (state d) b (status_valid d)
          (last_measurement d) (last_status d) (supply_uV d)
          (supply_uV_valid d) (interrupt_handled d).
Definition set_status_valid (b : bool) (d : sht15_data) : sht15_data :=
  mk_data (val_temp d) (val_humid d) (val_status d) (checksum_ok d)
          (checksumming d) (state d) (measurements_valid d) b
          (last_measurement d) (last_status d) (supply_uV d)
          (supply_uV_valid d) (interrupt_handled d).
Definition set_last_measurement (t : Z) (d : sht15_data) : sht15_data :=
  mk_data (val_temp d) (val_humid d) (val_status d) (checksum_ok d)
          (checksumming d) (state d) (measurements_valid d) (status_valid d)
          t (last_status d) (supply_uV d)
          (supply_uV_valid d) (interrupt_handled d).
Definition set_last_status (t : Z) (d : sht15_data) : sht15_data :=
  mk_data (val_temp d) (val_humid d) (val_status d) (checksum_ok d)
          (checksumming d) (state d) (measurements_valid d) (status_valid d)
          (last_measurement d) t (supply_uV d)
          (supply_uV_valid d) (interrupt_handled d).
Definition set_interrupt_handled (n : Z) (d : sht15_data) : sht15_data :=
  mk_data (val_temp d) (val_humid d) (val_status d) (checksum_ok d)
          (checksumming d) (state d) (measurements_valid d) (status_valid d)
          (last_measurement d) (last_status d) (supply_uV d)
          (supply_uV_valid d) n.

(** *** The state monad of the driver *)

Definition M (A : Type) : Type := machine -> A * machine.

Definition ret {A : Type} (a : A) : M A := fun s => (a, s).

Definition bind {A B : Type} (m : M A) (f : A -> M B) : M B :=
  fun s => let (a, s') := m s in f a s'.

Declare Scope drv_scope.
Delimit Scope drv_scope with drv.
Notation "x <- m ;; k" := (bind m (fun x => k))
  (at level 61, m at next level, right associativity) : drv_scope.
Notation "m ;; k" := (bind m (fun _ => k))
  (at level 61, right associativity) : drv_scope.
Local Open Scope drv_scope.

Definition emit (e : event) : M unit :=
  fun s => (tt, set_trace (trace s ++ [e]) s).

Definition get_data : M sht15_data := fun s => (dat s, s).

Definition modify_data (f : sht15_data -> sht15_data) : M unit :=
  fun s => (tt, set_dat (f (dat s)) s).

Definition get_jiffies : M Z := fun s => (jiffies s, s).

Definition get_kernel : M kernel := fun s => (kern s, s).

(** *** Kernel services *)

Definition gpio_direction_output (l : gpio_line) (v : bool) : M unit :=
  emit (EvDirOut l v).
Definition gpio_direction_input (l : gpio_line) : M unit := emit (EvDirIn l).
Definition gpio_set_value (l : gpio_line) (v : bool) : M unit :=
  emit (EvSet l v).
Definition ndelay (ns : Z) : M unit := emit (EvNdelay ns).
Definition msleep (ms : Z) : M unit := emit (EvMsleep ms).
Definition mutex_lock : M unit := emit EvLock.
Definition mutex_unlock : M unit := emit EvUnlock.
Definition dev_err : M unit := emit EvDevErr.
Definition wake_up : M unit := emit EvWakeUp.

(** Reading a line consumes the next level of [data_in]. *)
Definition gpio_get_value (l : gpio_line) : M bool :=
  fun s =>
    let v := hd true (data_in s) in
    (v, set_trace (trace s ++ [EvGet l v]) (set_data_in (tl (data_in s)) s)).

Definition schedule_work : M unit :=
  fun s => (tt, set_trace (trace s ++ [EvScheduleWork]) (set_work_pending true s)).

Definition disable_irq_nosync : M unit :=
  fun s => (tt, set_trace (trace s ++ [EvDisableIrq]) (set_irq_enabled false s)).

(** [time_after(a, b)] on a 32-bit [unsigned long]:
    [(long)(b) - (long)(a) < 0]. *)
Definition time_after (a b : Z) : bool := int32 (int32 b - int32 a) <? 0.

(** ** Bit and byte transport, framing *)

(** Nine clock pulses: the loop of [sht15_connection_reset]. *)
Fixpoint sht15_connection_reset_loop (n : nat) : M unit :=
  match n with
  | O => ret tt
  | S n' =>
      gpio_set_value gpio_sck true ;;
      ndelay SHT15_TSCKH ;;
      gpio_set_value gpio_sck false ;;
      ndelay SHT15_TSCKL ;;
      sht15_connection_reset_loop n'
  end.

Definition sht15_connection_reset : M unit :=
  gpio_direction_output gpio_data true ;;
  ndelay SHT15_TSCKL ;;
  gpio_set_value gpio_sck false ;;
  ndelay SHT15_TSCKL ;;
  sht15_connection_reset_loop 9.

Definition sht15_send_bit (val : Z) : M unit :=
  gpio_set_value gpio_data (negb (val =? 0)) ;;
  ndelay SHT15_TSU ;;
  gpio_set_value gpio_sck true ;;
  ndelay SHT15_TSCKH ;;
  gpio_set_value gpio_sck false ;;
  ndelay SHT15_TSCKL.

Definition sht15_transmission_start : M unit :=
  gpio_direction_output gpio_data true ;;
  ndelay SHT15_TSU ;;
  gpio_set_value gpio_sck false ;;
  ndelay SHT15_TSCKL ;;
  gpio_set_value gpio_sck true ;;
  ndelay SHT15_TSCKH ;;
  gpio_set_value gpio_data false ;;
  ndelay SHT15_TSU ;;
  gpio_set_value gpio_sck false ;;
  ndelay SHT15_TSCKL ;;
  gpio_set_value gpio_sck true ;;
  ndelay SHT15_TSCKH ;;
  gpio_set_value gpio_data true ;;
  ndelay SHT15_TSU ;;
  gpio_set_value gpio_sck false ;;
  ndelay SHT15_TSCKL.

(** [for (i = 0; i < 8; i++) { send_bit(!!(byte & 0x80)); byte <<= 1; }] *)
Fixpoint sht15_send_byte_loop (n : nat) (byte : Z) : M unit :=
  match n with
  | O => ret tt
  | S n' =>
      sht15_send_bit (notnot (Z.land byte 0x80)) ;;
      sht15_send_byte_loop n' (u8 (Z.shiftl byte 1))
  end.

Definition sht15_send_byte (byte : Z) : M unit :=
  sht15_send_byte_loop 8 (u8 byte).

Definition sht15_wait_for_response : M Z :=
  gpio_direction_input gpio_data ;;
  gpio_set_value gpio_sck true ;;
  ndelay SHT15_TSCKH ;;
  v <- gpio_get_value gpio_data ;;
  if v then
    gpio_set_value gpio_sck false ;;
    dev_err ;;
    sht15_connection_reset ;;
    ret (- EIO)
  else
    gpio_set_value gpio_sck false ;;
    ndelay SHT15_TSCKL ;;
    ret 0.

Definition sht15_send_cmd (cmd : Z) : M Z :=
  sht15_transmission_start ;;
  sht15_send_byte cmd ;;
  sht15_wait_for_response.

Definition sht15_soft_reset : M Z :=
  r <- sht15_send_cmd SHT15_SOFT_RESET ;;
  if negb (r =? 0) then ret r
  else
    msleep SHT15_TSRST ;;
    modify_data (set_val_status 0) ;;
    ret r.

Definition sht15_ack : M unit :=
  gpio_direction_output gpio_data false ;;
  ndelay SHT15_TSU ;;
  gpio_set_value gpio_sck true ;;
  ndelay SHT15_TSU ;;
  gpio_set_value gpio_sck false ;;
  ndelay SHT15_TSU ;;
  gpio_set_value gpio_data true ;;
  gpio_direction_input gpio_data.

Definition sht15_end_transmission : M unit :=
  gpio_direction_output gpio_data true ;;
  ndelay SHT15_TSU ;;
  gpio_set_value gpio_sck true ;;
  ndelay SHT15_TSCKH ;;
  gpio_set_value gpio_sck false ;;
  ndelay SHT15_TSCKL.

(** The loop of [sht15_read_byte], [n] iterations from the value [byte]. *)
Fixpoint sht15_read_byte_loop (n : nat) (byte : Z) : M Z :=
  match n with
  | O => ret byte
  | S n' =>
      gpio_set_value gpio_sck true ;;
      ndelay SHT15_TSCKH ;;
      v <- gpio_get_value gpio_data ;;
      gpio_set_value gpio_sck false ;;
      ndelay SHT15_TSCKL ;;
      sht15_read_byte_loop n'
        (u8 (Z.lor (u8 (Z.shiftl byte 1)) (if v then 1 else 0)))
  end.

Definition sht15_read_byte : M Z := sht15_read_byte_loop 8 0.

Definition sht15_send_status (status : Z) : M Z :=
  r <- sht15_send_cmd SHT15_WRITE_STATUS ;;
  if negb (r =? 0) then ret r
  else
    gpio_direction_output gpio_data true ;;
    ndelay SHT15_TSU ;;
    sht15_send_byte status ;;
    r <- sht15_wait_for_response ;;
    if negb (r =? 0) then ret r
    else
      modify_data (set_val_status status) ;;
      ret 0.

(** ** Status register *)

(** The body of the refresh branch of [sht15_update_status]; every
    [goto error_ret] is a return from it. *)
Definition sht15_update_status_refresh : M Z :=
  r <- sht15_send_cmd SHT15_READ_STATUS ;;
  if negb (r =? 0) then ret r
  else
    status <- sht15_read_byte ;;
    data <- get_data ;;
    (if checksumming data then
       sht15_ack ;;
       b <- sht15_read_byte ;;
       let dev_checksum := sht15_reverse b in
       let checksum_vals := [SHT15_READ_STATUS; status] in
       modify_data (fun d =>
         set_checksum_ok (sht15_crc8 d checksum_vals 2 =? dev_checksum) d)
     else ret tt) ;;
    sht15_end_transmission ;;
    data <- get_data ;;
    if checksumming data && negb (checksum_ok data) then
      let previous_config := Z.land (val_status data) 0x07 in
      r <- sht15_soft_reset ;;
      if negb (r =? 0) then ret r
      else if negb (previous_config =? 0) then
        r <- sht15_send_status previous_config ;;
        if negb (r =? 0) then dev_err ;; ret r
        else ret (- EAGAIN)
      else ret (- EAGAIN)
    else
      modify_data (set_val_status status) ;;
      modify_data (set_status_valid true) ;;
      j <- get_jiffies ;;
      modify_data (set_last_status j) ;;
      ret 0.

Definition sht15_update_status : M Z :=
  k <- get_kernel ;;
  let timeout := HZ k in
  mutex_lock ;;
  j <- get_jiffies ;;
  data <- get_data ;;
  r <- (if time_after j (last_status data + timeout)
           || negb (status_valid data)
        then sht15_update_status_refresh
        else ret 0) ;;
  mutex_unlock ;;
  ret r.

(** ** Interrupt, deferred read and the wait for a measurement *)

Definition atomic_set_unchecked (v : Z) : M unit :=
  modify_data (set_interrupt_handled v).

Definition atomic_inc_unchecked : M unit :=
  modify_data (fun d => set_interrupt_handled (int32 (interrupt_handled d + 1)) d).

Definition sht15_interrupt_fired : M unit :=
  disable_irq_nosync ;;
  atomic_inc_unchecked ;;
  data <- get_data ;;
  if negb (sht15_state_eqb (state data) SHT15_READING_NOTHING)
  then schedule_work
  else ret tt.

(** A point of the execution where the falling-edge interrupt may be
    delivered: when delivery is enabled the next entry of [irq_in] says
    whether the handler runs here. *)
Definition irq_delivery : M bool :=
  fun s =>
    if irq_enabled s then
      match irq_in s with
      | [] => (false, s)
      | fires :: rest =>
          if fires
          then let (_, s') := sht15_interrupt_fired (set_irq_in rest s) in
               (true, s')
          else (false, set_irq_in rest s)
      end
    else (false, s).

(** Modelled from the spec: delivery of the completion signal is switched
    on and off ([enable_irq], [disable_irq_nosync] of the kernel's interrupt
    core, which is not part of the driver); an edge may arrive as soon as
    delivery is on. *)
Definition enable_irq : M unit :=
  (fun s => (tt, set_trace (trace s ++ [EvEnableIrq]) (set_irq_enabled true s))) ;;
  irq_delivery ;;
  ret tt.

(** The part of [sht15_bh_read_data] after the line is known to be low. *)
Definition sht15_bh_read_data_ready : M unit :=
  b1 <- sht15_read_byte ;;
  let val := u16 (Z.shiftl b1 8) in
  sht15_ack ;;
  b2 <- sht15_read_byte ;;
  let val := u16 (Z.lor val b2) in
  data <- get_data ;;
  (if checksumming data then
     sht15_ack ;;
     b <- sht15_read_byte ;;
     let dev_checksum := sht15_reverse b in
     modify_data (fun d =>
       let checksum_vals :=
         [ match state d with
           | SHT15_READING_TEMP => SHT15_MEASURE_TEMP
           | _ => SHT15_MEASURE_RH
           end;
           u8 (Z.shiftr val 8);
           u8 val ] in
       set_checksum_ok (sht15_crc8 d checksum_vals 3 =? dev_checksum) d)
   else ret tt) ;;
  sht15_end_transmission ;;
  modify_data (fun d =>
    match state d with
    | SHT15_READING_TEMP => set_val_temp val d
    | SHT15_READING_HUMID => set_val_humid val d
    | SHT15_READING_NOTHING => d
    end) ;;
  modify_data (set_state SHT15_READING_NOTHING) ;;
  wake_up.

Definition sht15_bh_read_data : M unit :=
  v <- gpio_get_value gpio_data ;;
  if v then
    atomic_set_unchecked 0 ;;
    enable_irq ;;
    v' <- gpio_get_value gpio_data ;;
    data <- get_data ;;
    if v' || negb (interrupt_handled data =? 0)
    then ret tt
    else sht15_bh_read_data_ready
  else sht15_bh_read_data_ready.

(** Modelled from the spec: the caller is suspended until the state is back
    to idle or the timeout elapses.  While it sleeps the queued read work
    runs and the interrupt may be delivered; when neither can happen any
    more the timeout has elapsed.  The result is [0] on timeout and positive
    (the remaining ticks, here [1]) otherwise.  [fuel] bounds the number of
    work runs and interrupt deliveries; the fuel [wait_event_timeout] gives
    is never used up ([wait_event_loop_fuel]). *)
Fixpoint wait_event_loop (fuel : nat) : M Z :=
  fun s =>
    if sht15_state_eqb (state (dat s)) SHT15_READING_NOTHING then (1, s)
    else
      match fuel with
      | O => (0, s)
      | S fuel' =>
          if work_pending s then
            (sht15_bh_read_data ;; wait_event_loop fuel')
              (set_work_pending false s)
          else
            (fired <- irq_delivery ;;
             if fired then wait_event_loop fuel' else ret 0) s
      end.

Definition wait_event_timeout (timeout : Z) : M Z :=
  emit (EvWait timeout) ;;
  (fun s => wait_event_loop (2 * length (irq_in s) + 2) s).

(** ** Measurements *)

Definition sht15_measurement (command timeout_msecs : Z) : M Z :=
  r <- sht15_send_cmd command ;;
  if negb (r =? 0) then ret r
  else
    gpio_direction_input gpio_data ;;
    atomic_set_unchecked 0 ;;
    enable_irq ;;
    v <- gpio_get_value gpio_data ;;
    (if negb v then
       disable_irq_nosync ;;
       data <- get_data ;;
       if interrupt_handled data =? 0 then schedule_work else ret tt
     else ret tt) ;;
    k <- get_kernel ;;
    r <- wait_event_timeout (msecs_to_jiffies k timeout_msecs) ;;
    if r =? 0 then
      disable_irq_nosync ;;
      sht15_connection_reset ;;
      ret (- ETIME)
    else
      data <- get_data ;;
      if checksumming data && negb (checksum_ok data) then
        let previous_config := Z.land (val_status data) 0x07 in
        r <- sht15_soft_reset ;;
        if negb (r =? 0) then ret r
        else if negb (previous_config =? 0) then
          r <- sht15_send_status previous_config ;;
          if negb (r =? 0) then dev_err ;; ret r
          else ret (- EAGAIN)
        else ret (- EAGAIN)
      else ret 0.

(** The body of the refresh branch of [sht15_update_measurements]. *)
Definition sht15_update_measurements_refresh : M Z :=
  modify_data (set_state SHT15_READING_HUMID) ;;
  r <- sht15_measurement SHT15_MEASURE_RH 160 ;;
  if negb (r =? 0) then ret r
  else
    modify_data (set_state SHT15_READING_TEMP) ;;
    r <- sht15_measurement SHT15_MEASURE_TEMP 400 ;;
    if negb (r =? 0) then ret r
    else
      modify_data (set_measurements_valid true) ;;
      j <- get_jiffies ;;
      modify_data (set_last_measurement j) ;;
      ret r.

Definition sht15_update_measurements : M Z :=
  k <- get_kernel ;;
  let timeout := HZ k in
  mutex_lock ;;
  j <- get_jiffies ;;
  data <- get_data ;;
  r <- (if time_after j (last_measurement data + timeout)
           || negb (measurements_valid data)
        then sht15_update_measurements_refresh
        else ret 0) ;;
  mutex_unlock ;;
  ret r.

(** ** sysfs attributes *)

(** What a show callback hands back: an error number, or the value it
    printed into the buffer. *)
Inductive shown : Type :=
| AttrError (errno : Z)
| AttrValue (v : Z).

Definition sht15_show_status (bit : Z) : M shown :=
  r <- sht15_update_status ;;
  data <- get_data ;;
  ret (if negb (r =? 0) then AttrError r
       else AttrValue (notnot (Z.land (val_status data) bit))).

(** [parsed] is what [kstrtol(buf, 10, &value)] made of the buffer:
    [None] when it failed. *)
Definition sht15_store_heater (parsed : option Z) (count : Z) : M Z :=
  match parsed with
  | None => ret (- EINVAL)
  | Some value =>
      mutex_lock ;;
      data <- get_data ;;
      let status := Z.land (val_status data) 0x07 in
      let status :=
        if negb (notnot value =? 0)
        then u8 (Z.lor status SHT15_STATUS_HEATER)
        else u8 (Z.land status (Z.lnot SHT15_STATUS_HEATER)) in
      r <- sht15_send_status status ;;
      mutex_unlock ;;
      ret (if negb (r =? 0) then r else count)
  end.

Definition sht15_show_temp : M shown :=
  r <- sht15_update_measurements ;;
  data <- get_data ;;
  ret (if negb (r =? 0) then AttrError r
       else AttrValue (sht15_calc_temp data)).

Definition sht15_show_humidity : M shown :=
  r <- sht15_update_measurements ;;
  data <- get_data ;;
  ret (if negb (r =? 0) then AttrError r
       else AttrValue (sht15_calc_humid data)).

(** ** The platform device: probe, removal and the regulator

    The services of the kernel used here are not part of the driver.  Each
    call that can fail takes its answer from [kernel_answers]; every
    resource acquired or released is logged in program order. *)

Definition ENOMEM : Z := 12.

(** [IS_ERR]: the pointer value lies in the last 4095 addresses. *)
Definition IS_ERR (ptr : Z) : bool := (-4095 <=? ptr) && (ptr <? 0).

(** The fields of [struct sht15_platform_data] the driver reads, the GPIO
    numbers aside. *)
Record sht15_platform_data : Type := mk_pdata {
  supply_mv : Z;
  checksum : bool;
  no_otp_reload : bool;
  low_resolution : bool
}.

Inductive resource : Type :=
| ResData                  (* kzalloc / kfree *)
| ResRegulator             (* regulator_get / regulator_put *)
| ResRegulatorOn           (* regulator_enable / regulator_disable *)
| ResNotifier              (* regulator_register_notifier / unregister *)
| ResGpio (l : gpio_line)  (* gpio_request / gpio_free *)
| ResIrq                   (* request_irq / free_irq *)
| ResSysfsGroup            (* sysfs_create_group / sysfs_remove_group *)
| ResHwmon.                (* hwmon_device_register / unregister *)

Inductive kcall : Type :=
| Acquire (r : resource)
| Release (r : resource).

(** What the kernel answers during a probe. *)
Record kernel_answers : Type := mk_answers {
  kzalloc_ok : bool;
  platform_data : option sht15_platform_data;  (* pdev->dev.platform_data *)
  regulator_ptr : Z;         (* regulator_get: a regulator or an error value *)
  regulator_voltage : Z;     (* regulator_get_voltage *)
  regulator_enable_ret : Z;
  notifier_ret : Z;          (* regulator_register_notifier *)
  gpio_sck_ret : Z;          (* gpio_request of the clock line *)
  gpio_data_ret : Z;         (* gpio_request of the data line *)
  irq_ret : Z;               (* request_irq *)
  sysfs_ret : Z;             (* sysfs_create_group *)
  hwmon_ptr : Z              (* hwmon_device_register: a device or an error *)
}.

Record platform : Type := mk_platform {
  mach : machine;              (* the protocol machine, with the instance data *)
  reg : Z;                     (* data->reg *)
  volt : Z;                    (* what regulator_get_voltage answers now *)
  supply_work_pending : bool;  (* update_supply_work is queued *)
  klog : list kcall            (* acquisitions and releases, in program order *)
}.

Definition set_mach (m : machine) (p : platform) : platform :=
  mk_platform m (reg p) (volt p) (supply_work_pending p) (klog p).
Definition set_reg (r : Z) (p : platform) : platform :=
  mk_platform (mach p) r (volt p) (supply_work_pending p) (klog p).
Definition set_supply_work_pending (b : bool) (p : platform) : platform :=
  mk_platform (mach p) (reg p) (volt p) b (klog p).
Definition set_klog (l : list kcall) (p : platform) : platform :=
  mk_platform (mach p) (reg p) (volt p) (supply_work_pending p) l.

Definition set_supply_uV (v : Z) (d : sht15_data) : sht15_data :=
  mk_data (val_temp d) (val_humid d) (val_status d) (checksum_ok d)
          (checksumming d) (state d) (measurements_valid d) (status_valid d)
          (last_measurement d) (last_status d) v
          (supply_uV_valid d) (interrupt_handled d).
Definition set_supply_uV_valid (b : bool) (d : sht15_data) : sht15_data :=
  mk_data (val_temp d) (val_humid d) (val_status d) (checksum_ok d)
          (checksumming d) (state d) (measurements_valid d) (status_valid d)
          (last_measurement d) (last_status d) (supply_uV d)
          b (interrupt_handled d).
Definition set_checksumming (b : bool) (d : sht15_data) : sht15_data :=
  mk_data (val_temp d) (val_humid d) (val_status d) (checksum_ok d)
          b (state d) (measurements_valid d) (status_valid d)
          (last_measurement d) (last_status d) (supply_uV d)
          (supply_uV_valid d) (interrupt_handled d).

(** The instance data as [kzalloc] hands it out. *)
Definition zeroed_data : sht15_data :=
  mk_data 0 0 0 false false SHT15_READING_NOTHING false false 0 0 0 false 0.

(** *** The state monad of the platform code *)

Definition P (A : Type) : Type := platform -> A * platform.

Definition pret {A : Type} (a : A) : P A := fun p => (a, p).

Definition pbind {A B : Type} (m : P A) (f : A -> P B) : P B :=
  fun p => let (a, p') := m p in f a p'.

Declare Scope plat_scope.
Delimit Scope plat_scope with plat.
Notation "x <- m ;; k" := (pbind m (fun x => k))
  (at level 61, m at next level, right associativity) : plat_scope.
Notation "m ;; k" := (pbind m (fun _ => k))
  (at level 61, right associativity) : plat_scope.

(** Protocol code run on the machine of the platform. *)
Definition lift {A : Type} (m : M A) : P A :=
  fun p => let (a, m') := m (mach p) in (a, set_mach m' p).

Definition kdo (c : kcall) : P unit :=
  fun p => (tt, set_klog (klog p ++ [c]) p).

Definition get_reg : P Z := fun p => (reg p, p).
Definition put_reg (r : Z) : P unit := fun p => (tt, set_reg r p).
Definition queue_supply_work : P unit :=
  fun p => (tt, set_supply_work_pending true p).
Definition get_volt : P Z := fun p => (volt p, p).

(** [request_irq] installs [sht15_interrupt_fired] with delivery switched
    on: an edge may be delivered at once. *)
Definition request_irq_installed : M unit :=
  (fun s => (tt, set_irq_enabled true s)) ;;
  irq_delivery ;;
  ret tt.

Local Open Scope plat_scope.

(** *** The labels at the end of [sht15_probe] *)

Definition err_free_data (r : Z) : P Z :=
  kdo (Release ResData) ;; pret r.

(** [if (!IS_ERR(data->reg)) { unregister_notifier; disable; put; }] *)
Definition release_regulator : P unit :=
  rg <- get_reg ;;
  if negb (IS_ERR rg) then
    kdo (Release ResNotifier) ;;
    kdo (Release ResRegulatorOn) ;;
    kdo (Release ResRegulator)
  else pret tt.

Definition err_release_reg (r : Z) : P Z :=
  release_regulator ;; err_free_data r.

Definition err_release_gpio_sck (r : Z) : P Z :=
  kdo (Release (ResGpio gpio_sck)) ;; err_release_reg r.

Definition err_release_gpio_data (r : Z) : P Z :=
  kdo (Release (ResGpio gpio_data)) ;; err_release_gpio_sck r.

Definition err_release_irq (r : Z) : P Z :=
  kdo (Release ResIrq) ;; err_release_gpio_data r.

Definition err_release_sysfs_group (r : Z) : P Z :=
  kdo (Release ResSysfsGroup) ;; err_release_irq r.

(** The status byte [sht15_probe] builds from the platform options. *)
Definition probe_status (pd : sht15_platform_data) : Z :=
  let status := 0 in
  let status := if no_otp_reload pd
                then u8 (Z.lor status SHT15_STATUS_NO_OTP_RELOAD)
                else status in
  if low_resolution pd
  then u8 (Z.lor status SHT15_STATUS_LOW_RESOLUTION)
  else status.

(** [sht15_probe] from the request of the GPIOs on. *)
Definition sht15_probe_lines (k : kernel_answers) (status : Z) : P Z :=
  if negb (gpio_sck_ret k =? 0) then
    lift dev_err ;; err_release_reg (gpio_sck_ret k)
  else
    kdo (Acquire (ResGpio gpio_sck)) ;;
    lift (gpio_direction_output gpio_sck false) ;;
    if negb (gpio_data_ret k =? 0) then
      lift dev_err ;; err_release_gpio_sck (gpio_data_ret k)
    else
      kdo (Acquire (ResGpio gpio_data)) ;;
      if negb (irq_ret k =? 0) then
        lift dev_err ;; err_release_gpio_data (irq_ret k)
      else
        kdo (Acquire ResIrq) ;;
        lift request_irq_installed ;;
        lift disable_irq_nosync ;;
        lift sht15_connection_reset ;;
        r <- lift sht15_soft_reset ;;
        if negb (r =? 0) then err_release_irq r
        else
          r <- (if negb (status =? 0) then lift (sht15_send_status status)
                else pret r) ;;
          if negb (r =? 0) then err_release_irq r
          else if negb (sysfs_ret k =? 0) then
            lift dev_err ;; err_release_irq (sysfs_ret k)
          else
            kdo (Acquire ResSysfsGroup) ;;
            if IS_ERR (hwmon_ptr k) then err_release_sysfs_group (hwmon_ptr k)
            else kdo (Acquire ResHwmon) ;; pret 0.

(** The regulator block of [sht15_probe]: [0], or the error with which the
    probe leaves to [err_free_data] after it has dropped the regulator
    itself. *)
Definition sht15_probe_regulator (k : kernel_answers) : P Z :=
  put_reg (regulator_ptr k) ;;
  if negb (IS_ERR (regulator_ptr k)) then
    kdo (Acquire ResRegulator) ;;
    (let voltage := regulator_voltage k in
     if negb (voltage =? 0)
     then lift (modify_data (set_supply_uV voltage))
     else pret tt) ;;
    (if regulator_enable_ret k =? 0 then kdo (Acquire ResRegulatorOn)
     else pret tt) ;;
    if negb (notifier_ret k =? 0) then
      lift dev_err ;;
      kdo (Release ResRegulatorOn) ;;
      kdo (Release ResRegulator) ;;
      pret (notifier_ret k)
    else kdo (Acquire ResNotifier) ;; pret 0
  else pret 0.

Definition sht15_probe (k : kernel_answers) : P Z :=
  if negb (kzalloc_ok k) then
    lift dev_err ;; pret (- ENOMEM)
  else
    kdo (Acquire ResData) ;;
    lift (modify_data (fun _ => zeroed_data)) ;;
    match platform_data k with
    | None => lift dev_err ;; err_free_data (- EINVAL)
    | Some pd =>
        lift (modify_data (set_supply_uV (int32 (supply_mv pd * 1000)))) ;;
        (if checksum pd then lift (modify_data (set_checksumming true))
         else pret tt) ;;
        r <- sht15_probe_regulator k ;;
        if negb (r =? 0) then err_free_data r
        else sht15_probe_lines k (probe_status pd)
    end.


(** *** The regulator notifier *)

Definition REGULATOR_EVENT_VOLTAGE_CHANGE : Z := 0x40.
Definition NOTIFY_OK : Z := 0x0001.

Definition sht15_update_voltage : P unit :=
  v <- get_volt ;;
  lift (modify_data (set_supply_uV v)).

Definition sht15_invalidate_voltage (event : Z) : P Z :=
  (if event =? REGULATOR_EVENT_VOLTAGE_CHANGE
   then lift (modify_data (set_supply_uV_valid false))
   else pret tt) ;;
  queue_supply_work ;;
  pret NOTIFY_OK.

Local Close Scope plat_scope.

(** *** Module init and exit *)

(** The entries of [sht_drivers], by the name of the chip: all of them have
    [sht15_probe] and [sht15_remove] as their probe and remove functions. *)
Inductive sht_driver : Type :=
| DrvSht10 | DrvSht11 | DrvSht15 | DrvSht71 | DrvSht75.

Definition sht_drivers : list sht_driver :=
  [DrvSht10; DrvSht11; DrvSht15; DrvSht71; DrvSht75].

(** What the platform bus is asked to do, and did. *)
Inductive bus_call : Type :=
| DriverRegister (d : sht_driver)
| DriverUnregister (d : sht_driver).

(** The [for] loop of [sht15_init], [n] entries to go from index [i], with
    [register d] the result of [platform_driver_register] for entry [d]:
    the result, the index at which the loop was left, and the log. *)
Fixpoint sht15_init_loop (register : sht_driver -> Z) (n i : nat)
         (log : list bus_call) : Z * nat * list bus_call :=
  match n with
  | O => (0, i, log)
  | S n' =>
      let d := nth i sht_drivers DrvSht10 in
      let ret := register d in
      if negb (ret =? 0) then (ret, i, log)
      else sht15_init_loop register n' (S i) (log ++ [DriverRegister d])
  end.

(** [while (--i >= 0) platform_driver_unregister(&sht_drivers[i])]. *)
Fixpoint sht15_unregister_from (i : nat) : list bus_call :=
  match i with
  | O => []
  | S i' =>
      DriverUnregister (nth i' sht_drivers DrvSht10)
      :: sht15_unregister_from i'
  end.

Definition sht15_init (register : sht_driver -> Z) : Z * list bus_call :=
  let '(ret, i, log) :=
    sht15_init_loop register (length sht_drivers) 0 [] in
  if negb (ret =? 0) then (ret, log ++ sht15_unregister_from i)
  else (0, log).

Definition sht15_exit : list bus_call :=
  sht15_unregister_from (length sht_drivers).

(** ** What the device sees on the wire

    The claims speak of the commands the driver issues.  A command exists on
    the wire only as line levels, so the log of GPIO operations is read back
    the way the sensor reads its pins: a transmission start is the data line
    falling while the clock is high, a low pulse of the clock, and the data
    line rising while the clock is high again; the eight levels of the data
    line at the following rising clock edges are the command byte, the ninth
    clock carries the acknowledge, and after an acknowledged write-status
    command the next eight rising edges carry the new status byte. *)

Inductive wire_item : Type :=
| WCmd (c : Z)       (* a framed command byte *)
| WStatus (b : Z)    (* the payload byte of a write-status command *)
| WSleep (ms : Z)    (* the driver slept, leaving the bus alone *)
| WWait (timeout : Z).  (* the driver waited for the device, at most
                           [timeout] ticks *)

Inductive phase : Type :=
| PIdle
| PStart1            (* data fell while the clock was high *)
| PStart2            (* ... then the clock went low *)
| PStart3            (* ... and high again *)
| PStart4            (* ... and data rose: start complete, clock still high *)
| PCmd (n : nat) (acc : Z)   (* [n] command bits taken so far *)
| PAck (w : bool)    (* command complete, before the acknowledge clock;
                        [w]: it was write-status *)
| PAckHi (w : bool)  (* acknowledge clock is high *)
| PArgWait           (* write-status acknowledged, clock still high *)
| PArg (n : nat) (acc : Z).  (* [n] payload bits taken so far *)

Record bus : Type := mk_bus {
  sck_level : bool;
  data_level : bool;   (* the level driven by the host; released = pulled up *)
  ph : phase
}.

Definition bit_value (b : bool) : Z := if b then 1 else 0.

Definition observe_sck (b : bus) (v : bool) : bus * list wire_item :=
  if Bool.eqb (sck_level b) v then (b, [])
  else if v then
    match ph b with
    | PStart2 => (mk_bus v (data_level b) PStart3, [])
    | PCmd n acc =>
        let acc' := 2 * acc + bit_value (data_level b) in
        if Nat.eqb n 7
        then (mk_bus v (data_level b) (PAck (acc' =? SHT15_WRITE_STATUS)),
              [WCmd acc'])
        else (mk_bus v (data_level b) (PCmd (S n) acc'), [])
    | PAck w => (mk_bus v (data_level b) (PAckHi w), [])
    | PArg n acc =>
        let acc' := 2 * acc + bit_value (data_level b) in
        if Nat.eqb n 7
        then (mk_bus v (data_level b) PIdle, [WStatus acc'])
        else (mk_bus v (data_level b) (PArg (S n) acc'), [])
    | _ => (mk_bus v (data_level b) PIdle, [])
    end
  else
    match ph b with
    | PStart1 => (mk_bus v (data_level b) PStart2, [])
    | PStart4 => (mk_bus v (data_level b) (PCmd 0 0), [])
    | PArgWait => (mk_bus v (data_level b) (PArg 0 0), [])
    | PStart2 | PStart3 | PAckHi _ => (mk_bus v (data_level b) PIdle, [])
    | p => (mk_bus v (data_level b) p, [])
    end.

Definition observe_data (b : bus) (v : bool) : bus * list wire_item :=
  if sck_level b then
    if data_level b && negb v then (mk_bus true v PStart1, [])
    else if negb (data_level b) && v then
      (mk_bus true v (match ph b with PStart3 => PStart4 | p => p end), [])
    else (mk_bus true v (ph b), [])
  else (mk_bus false v (ph b), []).

Definition observe_event (b : bus) (e : event) : bus * list wire_item :=
  match e with
  | EvSet gpio_sck v | EvDirOut gpio_sck v => observe_sck b v
  | EvSet gpio_data v | EvDirOut gpio_data v => observe_data b v
  | EvDirIn gpio_data => observe_data b true
  | EvGet gpio_data v =>
      match ph b with
      | PAckHi w =>
          (mk_bus (sck_level b) (data_level b)
                  (if negb v && w then PArgWait else PIdle),
           [])
      | _ => (b, [])
      end
  | EvMsleep ms => (b, [WSleep ms])
  | EvWait t => (b, [WWait t])
  | _ => (b, [])
  end.

Fixpoint observe (b : bus) (evs : list event) : bus * list wire_item :=
  match evs with
  | [] => (b, [])
  | e :: evs' =>
      let (b1, o1) := observe_event b e in
      let (b2, o2) := observe b1 evs' in
      (b2, o1 ++ o2)
  end.

(** The bus between two conversations: clock low, data pulled up. *)
Definition bus_idle : bus := mk_bus false true PIdle.

(** The commands and payloads framed by a stretch of the log. *)
Definition wire (evs : list event) : list wire_item := snd (observe bus_idle evs).

Definition is_cmd (c : Z) (w : wire_item) : bool :=
  match w with WCmd c' => c' =? c | _ => false end.

(** How often command [c] was framed. *)
Definition count_cmd (c : Z) (ws : list wire_item) : nat :=
  length (filter (is_cmd c) ws).

(** ** The log of a run *)

(** The log of what [m] did from [s] onward. *)
Definition emitted {A : Type} (m : M A) (s : machine) : list event :=
  skipn (length (trace s)) (trace (snd (m s))).

(** ** Vocabulary of the proofs

    Logs, outcomes and frames in which the theorems below are stated, and
    the machines of the examples. *)

(** The session of the calibration example: 3.3 V supply, high resolution,
    raw temperature code 800. *)
Definition calibration_example : sht15_data :=
  mk_data 800 0 0 true false SHT15_READING_NOTHING true true 0 0
          3300000 true 0.

(** The machine after consuming input down to [ins] and logging [evs]. *)
Definition io (ins : list bool) (evs : list event) (s : machine) : machine :=
  mk_machine (kern s) (dat s) (jiffies s) ins (irq_in s) (irq_enabled s)
             (work_pending s) (trace s ++ evs).

(** A machine with nothing but the coming levels of the data line. *)
Definition blank (ins : list bool) : machine :=
  mk_machine (mk_kernel 0 (fun x => x))
             (mk_data 0 0 0 false false SHT15_READING_NOTHING false false
                      0 0 0 false 0)
             0 ins [] false false [].

(** What [m] returns when the data line shows the levels [ins]. *)
Definition res_of {A : Type} (m : M A) (ins : list bool) : A :=
  fst (m (blank ins)).

(** The levels [m] leaves unread. *)
Definition rest_of {A : Type} (m : M A) (ins : list bool) : list bool :=
  data_in (snd (m (blank ins))).

(** What [m] logs. *)
Definition evs_of {A : Type} (m : M A) (ins : list bool) : list event :=
  trace (snd (m (blank ins))).

(** [m] depends on the machine through the data line only, and changes
    nothing but the input left and the log. *)
Definition reads {A : Type} (m : M A) : Prop :=
  forall s,
    m s = (res_of m (data_in s),
           io (rest_of m (data_in s)) (evs_of m (data_in s)) s).

(** From a bus in phase [p] with the clock low, the log [evs] frames [out]
    and leaves the bus in phase [q] with the clock low. *)
Definition trans (p q : phase) (out : list wire_item) (evs : list event) : Prop :=
  forall b, sck_level b = false -> ph b = p ->
    sck_level (fst (observe b evs)) = false
    /\ ph (fst (observe b evs)) = q
    /\ snd (observe b evs) = out.

(** [m], run from [s], appends some [evs] to the log and ends in a result
    and machine that satisfy [Q] together with [evs]. *)
Definition post {A : Type} (m : M A) (s : machine)
           (Q : A -> machine -> list event -> Prop) : Prop :=
  exists evs,
    trace (snd (m s)) = trace s ++ evs /\ Q (fst (m s)) (snd (m s)) evs.

(** The conversation of [sht15_send_status], before the mirror is updated. *)
Definition send_status_wire (status : Z) : M Z :=
  r <- sht15_send_cmd SHT15_WRITE_STATUS ;;
  if negb (r =? 0) then ret r
  else
    gpio_direction_output gpio_data true ;;
    ndelay SHT15_TSU ;;
    sht15_send_byte status ;;
    sht15_wait_for_response.

(** The next answer of the device at an acknowledge clock: [true], the line
    left high, is a missing acknowledge. *)
Definition nak1 (ins : list bool) : bool := hd true ins.

(** The answer after that one. *)
Definition nak2 (ins : list bool) : bool := hd true (tl ins).

(** What the recovery returns, given the acknowledges the device will give:
    to the reset command, to the write-status command and to its payload. *)
Definition recovery_ret (prev : Z) (ins : list bool) : Z :=
  if nak1 ins then - EIO
  else if prev =? 0 then - EAGAIN
  else if nak1 (tl ins) || nak2 (tl ins) then - EIO
  else - EAGAIN.

(** The status mirror after the recovery. *)
Definition recovery_mirror (prev old : Z) (ins : list bool) : Z :=
  if nak1 ins then old
  else if prev =? 0 then 0
  else if nak1 (tl ins) || nak2 (tl ins) then 0
  else prev.

(** What the recovery puts on the wire. *)
Definition recovery_wire (prev : Z) (ins : list bool) : list wire_item :=
  if nak1 ins then [WCmd SHT15_SOFT_RESET]
  else if prev =? 0 then [WCmd SHT15_SOFT_RESET; WSleep SHT15_TSRST]
  else if nak1 (tl ins)
       then [WCmd SHT15_SOFT_RESET; WSleep SHT15_TSRST; WCmd SHT15_WRITE_STATUS]
       else [WCmd SHT15_SOFT_RESET; WSleep SHT15_TSRST;
             WCmd SHT15_WRITE_STATUS; WStatus (u8 prev)].

(** The byte [sht15_read_byte] assembles from the coming levels of the data
    line. *)
Definition byte_read (ins : list bool) : Z := res_of sht15_read_byte ins.

(** Does the checksum byte the device sends after the status byte match? *)
Definition status_crc_ok (d : sht15_data) (ins : list bool) : bool :=
  sht15_crc8 d [SHT15_READ_STATUS; byte_read (tl ins)] 2
  =? sht15_reverse (byte_read (skipn 8 (tl ins))).

(** The levels left for the recovery after a status read with checksum. *)
Definition status_recovery_in (ins : list bool) : list bool :=
  skipn 8 (skipn 8 (tl ins)).

(** The instance data once the status byte [status] is accepted at tick
    [j]. *)
Definition status_stored (status j : Z) (d : sht15_data) : sht15_data :=
  set_last_status j (set_status_valid true (set_val_status status d)).

(** What the refresh branch of [sht15_update_status] returns, from the
    instance data at entry and the levels the data line will show. *)
Definition status_refresh_ret (d : sht15_data) (ins : list bool) : Z :=
  if nak1 ins then - EIO
  else if checksumming d && negb (status_crc_ok d ins)
       then recovery_ret (Z.land (val_status d) 0x07) (status_recovery_in ins)
       else 0.

(** The instance data it leaves. *)
Definition status_refresh_dat (d : sht15_data) (j : Z) (ins : list bool)
  : sht15_data :=
  if nak1 ins then d
  else if checksumming d then
    if status_crc_ok d ins
    then status_stored (byte_read (tl ins)) j (set_checksum_ok true d)
    else set_val_status
           (recovery_mirror (Z.land (val_status d) 0x07) (val_status d)
                            (status_recovery_in ins))
           (set_checksum_ok false d)
  else status_stored (byte_read (tl ins)) j d.

(** What it frames. *)
Definition status_refresh_wire (d : sht15_data) (ins : list bool)
  : list wire_item :=
  WCmd SHT15_READ_STATUS ::
  (if negb (nak1 ins) && checksumming d && negb (status_crc_ok d ins)
   then recovery_wire (Z.land (val_status d) 0x07) (status_recovery_in ins)
   else []).

(** Is the status mirror too old, or not yet valid? *)
Definition status_due (s : machine) : bool :=
  time_after (jiffies s) (last_status (dat s) + HZ (kern s))
  || negb (status_valid (dat s)).

(** A machine for the examples: 100 ticks per second. *)
Definition example_kernel : kernel :=
  mk_kernel 100 (fun ms => (ms * 100 + 999) / 1000).

(** A session that has measured nothing yet, with the given status mirror
    and checksum setting. *)
Definition example_data (mirror : Z) (checksum : bool) : sht15_data :=
  mk_data 0 0 mirror false checksum SHT15_READING_NOTHING false false
          0 0 3300000 true 0.

(** That session at tick 1000 with an empty log, interrupt disabled and no
    work queued. *)
Definition example_machine (mirror : Z) (checksum : bool)
           (ins irqs : list bool) : machine :=
  mk_machine example_kernel (example_data mirror checksum) 1000 ins irqs
             false false [].

(** The device acknowledges read-status, sends status 0 and checksum 0
    (which does not match), then acknowledges everything. *)
Definition crc_failure_levels : list bool :=
  [false] ++ repeat false 16 ++ [false; false; false].

(** The same conversation, but the soft reset is not acknowledged. *)
Definition reset_nak_levels : list bool :=
  [false] ++ repeat false 16 ++ [true].

(** The fields the asynchronous path never writes. *)
Definition same_config (d d' : sht15_data) : Prop :=
  val_status d' = val_status d
  /\ checksumming d' = checksumming d
  /\ measurements_valid d' = measurements_valid d
  /\ status_valid d' = status_valid d
  /\ last_measurement d' = last_measurement d
  /\ last_status d' = last_status d
  /\ supply_uV d' = supply_uV d
  /\ supply_uV_valid d' = supply_uV_valid d.

(** A run that frames nothing and keeps the kernel, the clock and the
    configuration. *)
Definition quiet_frame {A : Type} (s : machine)
  : A -> machine -> list event -> Prop :=
  fun _ s' evs =>
    kern s' = kern s /\ jiffies s' = jiffies s
    /\ same_config (dat s) (dat s')
    /\ trans PIdle PIdle [] evs.

(** How a measurement can end after its command was framed: the result,
    the status mirror afterwards, and what follows the command on the wire.
    [wt] is the timeout of the wait, [prev] the masked mirror, [old] the
    mirror before. *)
Inductive meas_outcome (wt prev old : Z) : Z -> Z -> list wire_item -> Prop :=
| mo_nak :
    meas_outcome wt prev old (- EIO) old []
| mo_timeout :
    meas_outcome wt prev old (- ETIME) old [WWait wt]
| mo_done :
    meas_outcome wt prev old 0 old [WWait wt]
| mo_recovered (ins : list bool) :
    meas_outcome wt prev old (recovery_ret prev ins)
                 (recovery_mirror prev old ins)
                 (WWait wt :: recovery_wire prev ins).

(** The fields no measurement writes, recovery included. *)
Definition same_cache (d d' : sht15_data) : Prop :=
  checksumming d' = checksumming d
  /\ measurements_valid d' = measurements_valid d
  /\ status_valid d' = status_valid d
  /\ last_measurement d' = last_measurement d
  /\ last_status d' = last_status d
  /\ supply_uV d' = supply_uV d
  /\ supply_uV_valid d' = supply_uV_valid d.

(** What holds after the part of a measurement that follows its command. *)
Definition tail_post (k : kernel) (j : Z) (d0 : sht15_data) (wt : Z)
  : Z -> machine -> list event -> Prop :=
  fun r s' evs =>
    kern s' = k /\ jiffies s' = j /\ same_cache d0 (dat s')
    /\ exists w,
        trans PIdle PIdle w evs
        /\ meas_outcome wt (Z.land (val_status d0) 0x07) (val_status d0)
                        r (val_status (dat s')) w.

(** What holds after a whole measurement. *)
Definition meas_post (s : machine) (command timeout_msecs : Z)
  : Z -> machine -> list event -> Prop :=
  fun r s' evs =>
    kern s' = kern s /\ jiffies s' = jiffies s
    /\ same_cache (dat s) (dat s')
    /\ exists w,
        trans PIdle PIdle (WCmd (u8 command) :: w) evs
        /\ meas_outcome (msecs_to_jiffies (kern s) timeout_msecs)
                        (Z.land (val_status (dat s)) 0x07)
                        (val_status (dat s))
                        r (val_status (dat s')) w.

(** A quiet run that returns [x]. *)
Definition ret_post {A : Type} (x : A) (k : kernel) (j : Z) (d0 : sht15_data)
  : A -> machine -> list event -> Prop :=
  fun b s' evs =>
    b = x /\ kern s' = k /\ jiffies s' = j /\ same_config d0 (dat s')
    /\ trans PIdle PIdle [] evs.

(** The machine [s] with everything but the kernel and the clock replaced,
    and [evs] appended to the log. *)
Definition upd (d : sht15_data) (ins irqs : list bool) (en wp : bool)
           (evs : list event) (s : machine) : machine :=
  mk_machine (kern s) d (jiffies s) ins irqs en wp (trace s ++ evs).

(** No interrupt is raised at any of the coming delivery points. *)
Definition never_fires (irqs : list bool) : Prop :=
  forall b, In b irqs -> b = false.

(** Is the measurement cache too old, or not yet valid? *)
Definition meas_due (s : machine) : bool :=
  time_after (jiffies s) (last_measurement (dat s) + HZ (kern s))
  || negb (measurements_valid (dat s)).

(** How a refresh can end: the result, whether the cache was marked valid,
    and what was framed. *)
Inductive refresh_outcome (k : kernel) (prev old : Z)
  : Z -> bool -> list wire_item -> Prop :=
| ro_humid_failed (r m : Z) (w : list wire_item) :
    meas_outcome (msecs_to_jiffies k 160) prev old r m w -> r <> 0 ->
    refresh_outcome k prev old r false (WCmd SHT15_MEASURE_RH :: w)
| ro_temp_failed (r m : Z) (w : list wire_item) :
    meas_outcome (msecs_to_jiffies k 400) prev old r m w -> r <> 0 ->
    refresh_outcome k prev old r false
      (WCmd SHT15_MEASURE_RH :: WWait (msecs_to_jiffies k 160)
       :: WCmd SHT15_MEASURE_TEMP :: w)
| ro_refreshed :
    refresh_outcome k prev old 0 true
      [WCmd SHT15_MEASURE_RH; WWait (msecs_to_jiffies k 160);
       WCmd SHT15_MEASURE_TEMP; WWait (msecs_to_jiffies k 400)].

(** What holds after the refresh branch of [sht15_update_measurements]. *)
Definition refresh_post (s : machine) : Z -> machine -> list event -> Prop :=
  fun r s' evs =>
    kern s' = kern s /\ jiffies s' = jiffies s
    /\ status_valid (dat s') = status_valid (dat s)
    /\ last_status (dat s') = last_status (dat s)
    /\ exists marked w,
        trans PIdle PIdle w evs
        /\ refresh_outcome (kern s) (Z.land (val_status (dat s)) 0x07)
                           (val_status (dat s)) r marked w
        /\ if marked
           then measurements_valid (dat s') = true
                /\ last_measurement (dat s') = jiffies s'
           else measurements_valid (dat s') = measurements_valid (dat s)
                /\ last_measurement (dat s') = last_measurement (dat s).

(** The bits of a byte as the device sends them, most significant first. *)
Definition msb_bits (b : Z) : list bool := rev (byte_bits b).

(** A status read whose checksum fails, mirror 1 (low resolution). *)
Definition crc_failure_machine : machine :=
  example_machine 1 true crc_failure_levels [].

(** The same, but the soft reset is not acknowledged. *)
Definition reset_nak_machine : machine :=
  example_machine 1 true reset_nak_levels [].

(** A status read whose checksum fails while the heater is on (mirror 4). *)
Definition heater_status_machine : machine :=
  example_machine 4 true crc_failure_levels [].

(** A humidity measurement whose checksum fails while the heater is on: the
    command is acknowledged, the line is already low, three zero bytes
    follow, then the recovery is acknowledged throughout. *)
Definition heater_measurement_machine : machine :=
  example_machine 4 true
    ([false; false; false] ++ repeat false 24 ++ [false; false; false]) [].

(** A refresh that succeeds: humidity 800 signalled by interrupt, the
    temperature found ready at once.  The deferred read samples the line
    once more before it takes the bytes, so of the levels given here the
    temperature stored is 4127. *)
Definition refresh_machine : machine :=
  example_machine 0 false
    ([false; true; false] ++ msb_bits 3 ++ msb_bits 32
     ++ [false; false] ++ msb_bits 8 ++ msb_bits 15)
    [false; true].

(** A humidity measurement in flight on a device that never answers. *)
Definition timeout_machine : machine :=
  mk_machine example_kernel
    (mk_data 0 0 0 false false SHT15_READING_HUMID false false
             0 0 3300000 true 0)
    1000 [false; true] [false; false; false] false false [].

(** What can still happen while a caller waits: each entry of [irq_in] can
    be used up by a delivery point and can queue the read work once; queued
    work runs once. *)
Definition pending_steps (s : machine) : nat :=
  2 * length (irq_in s) + (if work_pending s then 1 else 0).

(** [m] never adds to what can still happen. *)
Definition calm {A : Type} (m : M A) : Prop :=
  forall s, (pending_steps (snd (m s)) <= pending_steps s)%nat.

(** ** Calibration over the whole input range *)

(** The offset of the datasheet table over exact integers: constant up to
    the first table voltage, then the chord of each segment, the last chord
    prolonged above the last table voltage. *)
Definition sht15_temp_offset_exact (supply : Z) : Z :=
  if supply >? 4000000
  then -39800 + Z.quot ((supply - 4000000) * -300) 1000000
  else if supply >? 3500000
  then -39700 + Z.quot ((supply - 3500000) * -100) 500000
  else if supply >? 3000000
  then -39600 + Z.quot ((supply - 3000000) * -100) 500000
  else if supply >? 2500000
  then -39400 + Z.quot ((supply - 2500000) * -200) 500000
  else -39400.

(** The linear part of the humidity conversion over exact integers, in
    thousandths of a percent. *)
Definition sht15_humid_linear_exact (low : bool) (so : Z) : Z :=
  -4000
  + Z.quot ((if low then 648000 else 40500) * so) 1000
  + Z.quot (so * so * (if low then -7200 else -28)) 10000.

(** The product the temperature compensation divides by a million. *)
Definition sht15_humid_compensation (low : bool) (temp so : Z) : Z :=
  (temp - 25000) * (10000 + (if low then 1280 else 80) * so).

(** Is the low-resolution bit of the status mirror set? *)
Definition low_res_mode (d : sht15_data) : bool :=
  negb (Z.land (val_status d) SHT15_STATUS_LOW_RESOLUTION =? 0).

(** A reading at 3.3 V, high resolution: raw temperature 8000 (40.34 degrees)
    and raw humidity 2500. *)
Definition humid_wrap_example : sht15_data :=
  mk_data 8000 2500 0 true false SHT15_READING_NOTHING true true 0 0
          3300000 true 0.

(** A byte value. *)
Definition is_byte (b : Z) : Prop := 0 <= b < 256.

(** ** Bytes on the wire *)

(** What an honest device puts on the data line after a read-status command:
    the acknowledge, its status byte and, when checksums are on, the
    bit-reversed CRC-8 of the command and the status byte, seeded with its
    own status register. *)
Definition device_status_reply (crc : bool) (st : Z) (rest : list bool)
  : list bool :=
  false :: msb_bits st
  ++ (if crc
      then msb_bits (bitrev8 (crc8_reference st [SHT15_READ_STATUS; st]))
      else [])
  ++ rest.

(** The same reply with the status byte damaged on its way: the checksum is
    that of [st], the byte that arrives is [st']. *)
Definition damaged_status_reply (st st' : Z) (rest : list bool) : list bool :=
  false :: msb_bits st'
  ++ msb_bits (bitrev8 (crc8_reference st [SHT15_READ_STATUS; st]))
  ++ rest.

(** A session with checksums whose status mirror is stale. *)
Definition stale_status_machine (ins : list bool) : machine :=
  example_machine 0 true ins [].

(** ** Results of the cached reads *)

(** The machine [e] ticks later. *)
Definition advance (e : Z) (s : machine) : machine :=
  mk_machine (kern s) (dat s) (jiffies s + e) (data_in s) (irq_in s)
             (irq_enabled s) (work_pending s) (trace s).

(** A stale session whose device answers the read-status command with
    status 64 (low battery) and the right checksum. *)
Definition honest_status_machine : machine :=
  stale_status_machine (device_status_reply true 64 []).

(** ** What is logged between taking and releasing the mutex *)

(** Events on the two GPIO lines, delays, sleeps and error messages. *)
Definition bus_event (e : event) : bool :=
  match e with
  | EvDirOut _ _ | EvDirIn _ | EvSet _ _ | EvGet _ _
  | EvNdelay _ | EvMsleep _ | EvDevErr => true
  | _ => false
  end.

(** Events of the interrupt, the read work and the wait queue. *)
Definition irq_event (e : event) : bool :=
  match e with
  | EvEnableIrq | EvDisableIrq | EvScheduleWork | EvWait _ | EvWakeUp => true
  | _ => false
  end.

(** Taking or releasing the mutex. *)
Definition lock_event (e : event) : bool :=
  match e with
  | EvLock | EvUnlock => true
  | _ => false
  end.

(** Every event [m] logs satisfies [Q], whatever the machine. *)
Definition logs {A : Type} (Q : event -> Prop) (m : M A) : Prop :=
  forall s, post m s (fun _ _ evs => Forall Q evs).

(** A log that takes the mutex first, releases it last, and in between
    holds events that satisfy [Q] only. *)
Definition locked (Q : event -> Prop) (evs : list event) : Prop :=
  exists mid, evs = EvLock :: mid ++ [EvUnlock] /\ Forall Q mid.

(** ** The deferred read *)

(** The 16-bit value [sht15_bh_read_data] assembles from the coming levels
    of the data line. *)
Definition bh_value (ins : list bool) : Z :=
  u16 (Z.lor (u16 (Z.shiftl (byte_read ins) 8)) (byte_read (skipn 8 ins))).

(** The command the checksum of a measurement is computed with. *)
Definition bh_command (d : sht15_data) : Z :=
  match state d with
  | SHT15_READING_TEMP => SHT15_MEASURE_TEMP
  | _ => SHT15_MEASURE_RH
  end.

(** Does the checksum byte that follows the two data bytes match? *)
Definition bh_crc_ok (d : sht15_data) (ins : list bool) : bool :=
  sht15_crc8 d [bh_command d; u8 (Z.shiftr (bh_value ins) 8);
                u8 (bh_value ins)] 3
  =? sht15_reverse (byte_read (skipn 8 (skipn 8 ins))).

(** The instance data after the deferred read. *)
Definition bh_stored (d : sht15_data) (ins : list bool) : sht15_data :=
  let d1 := if checksumming d then set_checksum_ok (bh_crc_ok d ins) d
            else d in
  set_state SHT15_READING_NOTHING
    match state d1 with
    | SHT15_READING_TEMP => set_val_temp (bh_value ins) d1
    | SHT15_READING_HUMID => set_val_humid (bh_value ins) d1
    | SHT15_READING_NOTHING => d1
    end.

(** The levels the deferred read leaves. *)
Definition bh_rest (d : sht15_data) (ins : list bool) : list bool :=
  if checksumming d then skipn 8 (skipn 8 (skipn 8 ins))
  else skipn 8 (skipn 8 ins).

(** What an honest device puts on the data line once a measurement is
    ready: the two bytes of the value, most significant first, and, with
    checksums on, the bit-reversed CRC-8 of the command and the two bytes,
    seeded with its status register. *)
Definition device_measurement_reply (crc : bool) (seed cmd hi lo : Z)
           (rest : list bool) : list bool :=
  msb_bits hi ++ msb_bits lo
  ++ (if crc
      then msb_bits (bitrev8 (crc8_reference seed [cmd; hi; lo]))
      else [])
  ++ rest.

(** What the device shows on the data line around a measurement: the
    acknowledge of the command, the level when the driver looks (low when
    the measurement is [ready] by then), the low level the deferred read
    finds, and the reply. *)
Definition measurement_levels (ready : bool) (reply : list bool) : list bool :=
  false :: negb ready :: false :: reply.

(** The interrupts of a measurement: none when the interrupt is enabled;
    when the measurement was not ready by then, one while the caller
    waits. *)
Definition irq_levels (ready : bool) (q : list bool) : list bool :=
  false :: (if ready then q else true :: q).

(** A temperature measurement in flight on an honest device that signals
    completion by the interrupt and sends the value 0x080F with its
    checksum. *)
Definition completing_machine : machine :=
  mk_machine example_kernel
    (mk_data 0 0 0 false true SHT15_READING_TEMP false false 0 0
             3300000 true 0)
    1000
    (measurement_levels false
       (device_measurement_reply true 0 SHT15_MEASURE_TEMP 8 15 []))
    (irq_levels false []) false false [].

(** ** A refresh that completes *)

(** What an honest device shows on the data line during a refresh: the
    humidity measurement, then the temperature measurement. *)
Definition refresh_levels (crc : bool) (seed : Z) (r1 r2 : bool)
           (hh hl th tl : Z) (rest : list bool) : list bool :=
  measurement_levels r1
    (device_measurement_reply crc seed SHT15_MEASURE_RH hh hl
       (measurement_levels r2
          (device_measurement_reply crc seed SHT15_MEASURE_TEMP th tl rest))).

(** A session with checksums whose cache is empty, on an honest device that
    has the humidity 0x0320 ready at once and signals the temperature 0x080F
    by the interrupt. *)
Definition honest_refresh_machine : machine :=
  example_machine 0 true
    (refresh_levels true 0 true false 3 32 8 15 [])
    (irq_levels true (irq_levels false [])).

(** ** Resources of the platform device *)

Definition resource_eqb (a b : resource) : bool :=
  match a, b with
  | ResData, ResData | ResRegulator, ResRegulator
  | ResRegulatorOn, ResRegulatorOn | ResNotifier, ResNotifier
  | ResGpio gpio_sck, ResGpio gpio_sck
  | ResGpio gpio_data, ResGpio gpio_data
  | ResIrq, ResIrq | ResSysfsGroup, ResSysfsGroup | ResHwmon, ResHwmon => true
  | _, _ => false
  end.

(** The resources held after the calls of [log], most recent first, when
    the log is well formed: nothing is acquired twice, and what is released
    is the most recent acquisition still held. *)
Fixpoint unwinds (log : list kcall) (held : list resource)
  : option (list resource) :=
  match log with
  | [] => Some held
  | Acquire r :: log' =>
      if existsb (resource_eqb r) held then None
      else unwinds log' (r :: held)
  | Release r :: log' =>
      match held with
      | r' :: held' =>
          if resource_eqb r r' then unwinds log' held' else None
      | [] => None
      end
  end.


(** What a successful probe holds, most recent first. *)
Definition probe_holds (k : kernel_answers) : list resource :=
  [ResHwmon; ResSysfsGroup; ResIrq; ResGpio gpio_data; ResGpio gpio_sck]
  ++ (if IS_ERR (regulator_ptr k) then []
      else [ResNotifier; ResRegulatorOn; ResRegulator])
  ++ [ResData].

(** A platform on which nothing is held yet. *)
Definition fresh_platform (m : machine) : platform :=
  mk_platform m 0 0 false [].

(** What the regulator part of the labels releases. *)
Definition regulator_releases (rg : Z) : list kcall :=
  if IS_ERR rg then []
  else [Release ResNotifier; Release ResRegulatorOn; Release ResRegulator].

(** Answers with which a probe goes through: platform data with checksums
    and low resolution, a regulator at 3.3 V, every request granted. *)
Definition good_answers : kernel_answers :=
  mk_answers true (Some (mk_pdata 3300 true false true))
             1 3300000 0 0 0 0 0 0 1.

(** The same, but the data line cannot be had. *)
Definition gpio_busy_answers : kernel_answers :=
  mk_answers true (Some (mk_pdata 3300 true false true))
             1 3300000 0 0 0 (-16) 0 0 1.


(** ** What a successful probe leaves *)

(** The supply voltage a probe settles on. *)
Definition probe_supply (k : kernel_answers) (pd : sht15_platform_data) : Z :=
  if negb (IS_ERR (regulator_ptr k)) && negb (regulator_voltage k =? 0)
  then regulator_voltage k
  else int32 (supply_mv pd * 1000).

(** What a probe puts on the wire. *)
Definition probe_wire (status : Z) : list wire_item :=
  [WCmd SHT15_SOFT_RESET; WSleep SHT15_TSRST]
  ++ (if status =? 0 then []
      else [WCmd SHT15_WRITE_STATUS; WStatus status]).

(** The answers let the probe through. *)
Definition answers_good (k : kernel_answers) : Prop :=
  kzalloc_ok k = true
  /\ (IS_ERR (regulator_ptr k) = false -> notifier_ret k = 0)
  /\ gpio_sck_ret k = 0 /\ gpio_data_ret k = 0 /\ irq_ret k = 0
  /\ sysfs_ret k = 0 /\ IS_ERR (hwmon_ptr k) = false.

Definition probe_acked (status : Z) (ins : list bool) : bool :=
  negb (hd true ins)
  && ((status =? 0) || negb (nak1 (tl ins) || nak2 (tl ins))).

Definition probe_data (k : kernel_answers) (pd : sht15_platform_data)
           (h : Z) : sht15_data :=
  mk_data 0 0 (probe_status pd) false (checksum pd) SHT15_READING_NOTHING
          false false 0 0 (probe_supply k pd) false h.

(** ** The regulator notifier and the module's drivers *)

(** The work queue runs the supply work: the pending mark is cleared, then
    [sht15_update_voltage] is called. *)
Definition run_supply_work : P unit :=
  fun p =>
    if supply_work_pending p
    then sht15_update_voltage (set_supply_work_pending false p)
    else (tt, p).

(** The regulator is now at [v] microvolts. *)
Definition set_volt (v : Z) (p : platform) : platform :=
  mk_platform (mach p) (reg p) v (supply_work_pending p) (klog p).

Definition sht_driver_eqb (a b : sht_driver) : bool :=
  match a, b with
  | DrvSht10, DrvSht10 | DrvSht11, DrvSht11 | DrvSht15, DrvSht15
  | DrvSht71, DrvSht71 | DrvSht75, DrvSht75 => true
  | _, _ => false
  end.

(** The drivers registered after a log of bus calls, the last registered
    first; [None] when the log registers a driver twice or unregisters
    another one than the last registered. *)
Fixpoint registered (log : list bus_call) (held : list sht_driver)
  : option (list sht_driver) :=
  match log with
  | [] => Some held
  | DriverRegister d :: log' =>
      if existsb (sht_driver_eqb d) held then None
      else registered log' (d :: held)
  | DriverUnregister d :: log' =>
      match held with
      | d' :: held' =>
          if sht_driver_eqb d d' then registered log' held' else None
      | [] => None
      end
  end.

(** The result of the first registration that fails, [0] when none does. *)
Fixpoint first_failure (register : sht_driver -> Z) (ds : list sht_driver)
  : Z :=
  match ds with
  | [] => 0
  | d :: ds' =>
      if register d =? 0 then first_failure register ds' else register d
  end.

(** ** The staleness window *)








(** * Proofs *)

(** ** Integer conversions *)

Lemma int32_small (x : Z) : -2147483648 <= x < 2147483648 -> int32 x = x.
Proof.
  intros H. unfold int32. rewrite Z.mod_small by lia. lia.
Qed.

Lemma u8_range (x : Z) : 0 <= u8 x < 256.
Proof. unfold u8. apply Z.mod_pos_bound. lia. Qed.

Lemma u8_small (x : Z) : 0 <= x < 256 -> u8 x = x.
Proof. intros H. unfold u8. apply Z.mod_small. exact H. Qed.

Lemma u8_idem (x : Z) : u8 (u8 x) = u8 x.
Proof. apply u8_small, u8_range. Qed.

(** A property checked on the first [n] naturals holds below [n]. *)
Lemma forall_below (P : Z -> bool) (n : nat) :
  forallb P (map Z.of_nat (seq 0 n)) = true ->
  forall c, 0 <= c < Z.of_nat n -> P c = true.
Proof.
  intros H c Hc. rewrite forallb_forall in H. apply H.
  apply in_map_iff. exists (Z.to_nat c). split; [lia|].
  apply in_seq. lia.
Qed.

(** ** Byte reversal and CRC-8 *)

Lemma sht15_reverse_loop_range (n : nat) :
  forall i byte c, 0 <= c < 256 -> 0 <= sht15_reverse_loop n i byte c < 256.
Proof.
  induction n as [|n IH]; intros i byte c Hc; cbn [sht15_reverse_loop].
  - exact Hc.
  - apply IH, u8_range.
Qed.

Lemma sht15_reverse_range (b : Z) : 0 <= sht15_reverse b < 256.
Proof. unfold sht15_reverse. apply sht15_reverse_loop_range. lia. Qed.

Lemma sht15_reverse_involutive_byte (c : Z) :
  0 <= c < 256 -> sht15_reverse (sht15_reverse c) = c.
Proof.
  intros Hc. apply Z.eqb_eq.
  apply (forall_below (fun c => sht15_reverse (sht15_reverse c) =? c) 256);
    [vm_compute; reflexivity | exact Hc].
Qed.

Lemma sht15_reverse_u8 (b : Z) : sht15_reverse (u8 b) = sht15_reverse b.
Proof. unfold sht15_reverse. now rewrite u8_idem. Qed.

Lemma sht15_reverse_involutive (b : Z) :
  sht15_reverse (sht15_reverse b) = u8 b.
Proof.
  rewrite <- (sht15_reverse_u8 b).
  apply sht15_reverse_involutive_byte, u8_range.
Qed.

Lemma land_15_range (x : Z) : 0 <= Z.land x 15 < 16.
Proof.
  change 15 with (Z.ones 4). rewrite Z.land_ones by lia.
  apply Z.mod_pos_bound. lia.
Qed.

Lemma sht15_reverse_nibble (x : Z) :
  sht15_reverse (Z.land x 15) = bitrev8 (Z.land x 15).
Proof.
  apply Z.eqb_eq.
  apply (forall_below (fun c => sht15_reverse c =? bitrev8 c) 16);
    [vm_compute; reflexivity | apply land_15_range].
Qed.

Lemma sht15_crc8_table_generated : sht15_crc8_table = crc8_reference_table.
Proof. vm_compute. reflexivity. Qed.

Lemma sht15_crc8_table_range (i : nat) : 0 <= nth i sht15_crc8_table 0 < 256.
Proof.
  assert (H : Forall (fun x => 0 <= x < 256) sht15_crc8_table).
  { apply Forall_forall. intros x Hx.
    assert (E : forallb (fun x => (0 <=? x) && (x <? 256)) sht15_crc8_table = true)
      by (vm_compute; reflexivity).
    rewrite forallb_forall in E. specialize (E x Hx). lia. }
  destruct (Nat.lt_ge_cases i (length sht15_crc8_table)) as [Hi|Hi].
  - rewrite Forall_forall in H. apply H, nth_In, Hi.
  - rewrite nth_overflow by exact Hi. lia.
Qed.

Lemma sht15_crc8_loop_fold (value : list Z) :
  forall crc,
    sht15_crc8_loop (length value) value crc =
    fold_left (fun crc b => nth (Z.to_nat (Z.lxor b crc)) sht15_crc8_table 0)
              value crc.
Proof.
  induction value as [|b value IH]; intros crc; cbn [length sht15_crc8_loop].
  - reflexivity.
  - cbn [hd tl fold_left]. apply IH.
Qed.

Lemma sht15_crc8_loop_range (len : nat) :
  forall value crc, 0 <= crc < 256 -> 0 <= sht15_crc8_loop len value crc < 256.
Proof.
  induction len as [|len IH]; intros value crc Hc; cbn [sht15_crc8_loop].
  - exact Hc.
  - apply IH, sht15_crc8_table_range.
Qed.

Lemma sht15_crc8_range (d : sht15_data) (value : list Z) (len : nat) :
  0 <= sht15_crc8 d value len < 256.
Proof. apply sht15_crc8_loop_range, sht15_reverse_range. Qed.

(** C9: the driver's CRC-8 is the table-driven CRC-8 of the generator seeded
    with the bit-reversed low nibble of the status mirror, byte reversal is
    an involution on bytes, and a checksum reversed twice is the checksum. *)
Theorem sht15_crc8_matches_reference (d : sht15_data) (value : list Z) (b : Z) :
  sht15_crc8 d value (length value) = crc8_reference (val_status d) value
  /\ sht15_reverse (sht15_reverse b) = u8 b
  /\ sht15_reverse (sht15_reverse (sht15_crc8 d value (length value)))
     = sht15_crc8 d value (length value).
Proof.
  split; [|split].
  - unfold sht15_crc8, crc8_reference.
    rewrite sht15_crc8_loop_fold, sht15_reverse_nibble.
    now rewrite sht15_crc8_table_generated.
  - apply sht15_reverse_involutive.
  - apply sht15_reverse_involutive_byte, sht15_crc8_range.
Qed.

(** ** Calibration *)

Lemma quot_nonpos_range (a b : Z) : a <= 0 -> 0 < b -> a <= Z.quot a b <= 0.
Proof.
  intros Ha Hb.
  replace a with (- (- a)) at 2 3 by lia.
  rewrite Z.quot_opp_l by lia.
  assert (H0 : 0 <= Z.quot (- a) b) by (apply Z.quot_pos; lia).
  assert (H1 : Z.quot (- a) b <= - a).
  { rewrite Z.quot_div_nonneg by lia.
    apply Z.div_le_upper_bound; nia. }
  lia.
Qed.

Lemma interpolate_exact (lo hi : sht15_temppair) (supply : Z) :
  0 < vdd hi - vdd lo <= 1000000 ->
  -300 <= d1 hi - d1 lo <= 0 ->
  -50000 <= d1 lo <= 0 ->
  vdd lo < supply <= vdd hi ->
  interpolate lo hi supply =
  d1 lo + Z.quot ((supply - vdd lo) * (d1 hi - d1 lo)) (vdd hi - vdd lo).
Proof.
  intros Hv Hd Hl Hs. unfold interpolate.
  rewrite (int32_small (supply - vdd lo)) by lia.
  rewrite (int32_small (d1 hi - d1 lo)) by lia.
  rewrite (int32_small (vdd hi - vdd lo)) by lia.
  rewrite (int32_small ((supply - vdd lo) * (d1 hi - d1 lo))) by nia.
  pose proof (quot_nonpos_range ((supply - vdd lo) * (d1 hi - d1 lo))
                                (vdd hi - vdd lo)) as Hq.
  rewrite int32_small; [lia|]. nia.
Qed.

Ltac gtb_cases :=
  repeat match goal with
         | |- context [?a >? ?b] => destruct (Z.gtb_spec a b); try lia
         end.

Lemma temp_offset_unfold (supply : Z) :
  sht15_temp_offset supply =
  if supply >? 4000000 then interpolate (temppoint 3) (temppoint 4) supply
  else if supply >? 3500000 then interpolate (temppoint 2) (temppoint 3) supply
  else if supply >? 3000000 then interpolate (temppoint 1) (temppoint 2) supply
  else if supply >? 2500000 then interpolate (temppoint 0) (temppoint 1) supply
  else -39400.
Proof. reflexivity. Qed.

(** C1 (as the driver computes it): at 3.3 V, high resolution and raw code
    800 the offset is interpolated between the table points
    (3000000, -39600) and (3500000, -39700), the slope is 10, the offset is
    -39660 and the temperature is 800 * 10 - 39660 = -31660. *)
Theorem sht15_calc_temp_example (d : sht15_data) :
  supply_uV d = 3300000 ->
  Z.land (val_status d) SHT15_STATUS_LOW_RESOLUTION = 0 ->
  val_temp d = 800 ->
  temppoint 1 = mk_temppair 3000000 (-39600)
  /\ temppoint 2 = mk_temppair 3500000 (-39700)
  /\ sht15_temp_offset (supply_uV d)
     = interpolate (temppoint 1) (temppoint 2) (supply_uV d)
  /\ sht15_temp_slope (val_status d) = 10
  /\ sht15_temp_offset (supply_uV d) = -39660
  /\ sht15_calc_temp d = val_temp d * 10 + -39660
  /\ sht15_calc_temp d = -31660.
Proof.
  intros Hs Hr Ht. unfold sht15_calc_temp, sht15_temp_slope.
  rewrite Hs, Hr, Ht. repeat split.
Qed.

Lemma sht15_calc_temp_example_witness :
  sht15_calc_temp calibration_example = -31660.
Proof.
  apply (sht15_calc_temp_example calibration_example); reflexivity.
Defined.

(** C1 as written does not hold: the interpolated offset is not -39620 and
    the temperature is not 7380. *)
Lemma sht15_calc_temp_example_refuted :
  supply_uV calibration_example = 3300000
  /\ Z.land (val_status calibration_example) SHT15_STATUS_LOW_RESOLUTION = 0
  /\ val_temp calibration_example = 800
  /\ sht15_temp_offset (supply_uV calibration_example) <> -39620
  /\ sht15_calc_temp calibration_example <> 7380.
Proof. repeat split; vm_compute; discriminate. Qed.

(** C7 (as the driver computes it): at or below 2.5 V the offset is the
    first table entry's; strictly inside a table segment it is the exact
    linear interpolation between the two bracketing points, truncated toward
    zero; above the last table voltage it is the formula of the last segment
    applied beyond its end. *)
Theorem sht15_temp_offset_cases (supply : Z) :
  (supply <= 2500000 ->
   sht15_temp_offset supply = d1 (temppoint 0)
   /\ d1 (temppoint 0) = -39400)
  /\ (forall i : nat, (i < 4)%nat ->
      vdd (temppoint i) < supply <= vdd (temppoint (S i)) ->
      sht15_temp_offset supply
      = interpolate (temppoint i) (temppoint (S i)) supply
      /\ interpolate (temppoint i) (temppoint (S i)) supply
         = d1 (temppoint i)
           + Z.quot ((supply - vdd (temppoint i))
                     * (d1 (temppoint (S i)) - d1 (temppoint i)))
                    (vdd (temppoint (S i)) - vdd (temppoint i)))
  /\ (5000000 < supply ->
      sht15_temp_offset supply
      = interpolate (temppoint 3) (temppoint 4) supply).
Proof.
  rewrite temp_offset_unfold. split; [|split].
  - intros H. split; [|reflexivity]. gtb_cases; reflexivity.
  - intros i Hi Hb. split.
    + destruct i as [|[|[|[|i]]]]; [| | | | lia]; cbn in Hb;
        gtb_cases; reflexivity.
    + apply interpolate_exact; try exact Hb;
        destruct i as [|[|[|[|i]]]]; cbn; lia.
  - intros H. gtb_cases; reflexivity.
Qed.

Lemma sht15_temp_offset_cases_witness :
  sht15_temp_offset 2400000 = -39400
  /\ sht15_temp_offset 3300000
     = interpolate (temppoint 1) (temppoint 2) 3300000
  /\ sht15_temp_offset 5500000
     = interpolate (temppoint 3) (temppoint 4) 5500000.
Proof.
  split; [|split].
  - destruct (sht15_temp_offset_cases 2400000) as [H _].
    destruct H as [H1 H2]; [lia|]. now rewrite H1.
  - destruct (sht15_temp_offset_cases 3300000) as [_ [H _]].
    apply (H 1%nat); cbn; lia.
  - destruct (sht15_temp_offset_cases 5500000) as [_ [_ H]].
    apply H. lia.
Defined.

(** C7 as written does not hold: at 5.5 V no two table points bracket the
    supply voltage, and the offset the driver computes lies below every
    offset of the table. *)
Lemma sht15_temp_offset_no_bracket :
  2500000 < 5500000
  /\ ~ (exists i : nat, (i < 4)%nat
        /\ vdd (temppoint i) < 5500000 <= vdd (temppoint (S i))
        /\ sht15_temp_offset 5500000
           = interpolate (temppoint i) (temppoint (S i)) 5500000)
  /\ sht15_temp_offset 5500000 = -40250
  /\ Forall (fun p => sht15_temp_offset 5500000 < d1 p) temppoints.
Proof.
  split; [lia|]. split; [|split].
  - intros [i [Hi [Hb _]]].
    destruct i as [|[|[|[|i]]]]; cbn in Hb; lia.
  - reflexivity.
  - repeat constructor.
Qed.

(** ** The transport layer only reads the data line and writes the log *)

Lemma io_io (i1 i2 : list bool) (e1 e2 : list event) (s : machine) :
  io i2 e2 (io i1 e1 s) = io i2 (e1 ++ e2) s.
Proof. unfold io. cbn. now rewrite app_assoc. Qed.

Lemma io_nil (s : machine) : io (data_in s) [] s = s.
Proof. destruct s. unfold io. cbn. now rewrite app_nil_r. Qed.

Lemma reads_ret {A : Type} (a : A) : reads (ret a).
Proof. intros s. unfold res_of, rest_of, evs_of, ret. cbn. now rewrite io_nil. Qed.

Lemma reads_emit (e : event) : reads (emit e).
Proof. intros s. reflexivity. Qed.

Lemma reads_gpio_get_value (l : gpio_line) : reads (gpio_get_value l).
Proof. intros s. reflexivity. Qed.

Lemma bind_blank {A B : Type} (m : M A) (f : A -> M B) (ins : list bool) :
  reads m -> (forall a, reads (f a)) ->
  bind m f (blank ins) =
  (res_of (f (res_of m ins)) (rest_of m ins),
   io (rest_of (f (res_of m ins)) (rest_of m ins))
      (evs_of m ins ++ evs_of (f (res_of m ins)) (rest_of m ins))
      (blank ins)).
Proof.
  intros Hm Hf. unfold bind. rewrite (Hm (blank ins)).
  change (data_in (blank ins)) with ins.
  rewrite (Hf (res_of m ins)). cbn [data_in io]. now rewrite io_io.
Qed.

Lemma reads_bind {A B : Type} (m : M A) (f : A -> M B) :
  reads m -> (forall a, reads (f a)) -> reads (bind m f).
Proof.
  intros Hm Hf s. unfold res_of, rest_of, evs_of.
  rewrite (bind_blank m f (data_in s) Hm Hf). cbn [fst snd io data_in trace app].
  unfold bind. rewrite (Hm s), (Hf (res_of m (data_in s))).
  cbn [data_in io]. now rewrite io_io.
Qed.

Lemma res_of_bind {A B : Type} (m : M A) (f : A -> M B) (ins : list bool) :
  reads m -> (forall a, reads (f a)) ->
  res_of (bind m f) ins = res_of (f (res_of m ins)) (rest_of m ins).
Proof.
  intros Hm Hf. unfold res_of at 1. now rewrite (bind_blank m f ins Hm Hf).
Qed.

Lemma rest_of_bind {A B : Type} (m : M A) (f : A -> M B) (ins : list bool) :
  reads m -> (forall a, reads (f a)) ->
  rest_of (bind m f) ins = rest_of (f (res_of m ins)) (rest_of m ins).
Proof.
  intros Hm Hf. unfold rest_of at 1. now rewrite (bind_blank m f ins Hm Hf).
Qed.

Lemma evs_of_bind {A B : Type} (m : M A) (f : A -> M B) (ins : list bool) :
  reads m -> (forall a, reads (f a)) ->
  evs_of (bind m f) ins =
  evs_of m ins ++ evs_of (f (res_of m ins)) (rest_of m ins).
Proof.
  intros Hm Hf. unfold evs_of at 1. now rewrite (bind_blank m f ins Hm Hf).
Qed.

Create HintDb drv_reads.

Ltac reads_tac :=
  repeat match goal with
         | |- forall _, reads _ => intro
         | |- reads (bind _ _) => apply reads_bind
         | |- reads (ret _) => apply reads_ret
         | |- reads (emit _) => apply reads_emit
         | |- reads (gpio_get_value _) => apply reads_gpio_get_value
         | |- reads (if ?c then _ else _) => destruct c
         | H : reads ?m |- reads ?m => exact H
         | H : forall b, reads (?m b) |- reads (?m _) => apply H
         | |- reads _ => solve [auto with drv_reads]
         end.

Lemma reads_connection_reset_loop (n : nat) :
  reads (sht15_connection_reset_loop n).
Proof.
  induction n as [|n IH]; cbn [sht15_connection_reset_loop].
  - apply reads_ret.
  - unfold gpio_set_value, ndelay. reads_tac.
Qed.
#[export] Hint Resolve reads_connection_reset_loop : drv_reads.

Lemma reads_connection_reset : reads sht15_connection_reset.
Proof.
  unfold sht15_connection_reset, gpio_direction_output, gpio_set_value, ndelay.
  reads_tac.
Qed.
#[export] Hint Resolve reads_connection_reset : drv_reads.

Lemma reads_send_bit (v : Z) : reads (sht15_send_bit v).
Proof. unfold sht15_send_bit, gpio_set_value, ndelay. reads_tac. Qed.

Lemma reads_transmission_start : reads sht15_transmission_start.
Proof.
  unfold sht15_transmission_start, gpio_direction_output, gpio_set_value, ndelay.
  reads_tac.
Qed.
#[export] Hint Resolve reads_transmission_start : drv_reads.
#[export] Hint Resolve reads_send_bit : drv_reads.

Lemma reads_send_byte_loop (n : nat) :
  forall byte, reads (sht15_send_byte_loop n byte).
Proof.
  induction n as [|n IH]; intros byte; cbn [sht15_send_byte_loop].
  - apply reads_ret.
  - reads_tac.
Qed.
#[export] Hint Resolve reads_send_byte_loop : drv_reads.

Lemma reads_send_byte (byte : Z) : reads (sht15_send_byte byte).
Proof. apply reads_send_byte_loop. Qed.

Lemma reads_wait_for_response : reads sht15_wait_for_response.
Proof.
  unfold sht15_wait_for_response, gpio_direction_input, gpio_set_value,
    ndelay, dev_err.
  reads_tac.
Qed.
#[export] Hint Resolve reads_wait_for_response : drv_reads.
#[export] Hint Resolve reads_send_byte : drv_reads.

Lemma reads_send_cmd (cmd : Z) : reads (sht15_send_cmd cmd).
Proof.
  unfold sht15_send_cmd. reads_tac.
Qed.
#[export] Hint Resolve reads_send_cmd : drv_reads.

Lemma reads_ack : reads sht15_ack.
Proof.
  unfold sht15_ack, gpio_direction_output, gpio_direction_input,
    gpio_set_value, ndelay.
  reads_tac.
Qed.
#[export] Hint Resolve reads_ack : drv_reads.

Lemma reads_end_transmission : reads sht15_end_transmission.
Proof.
  unfold sht15_end_transmission, gpio_direction_output, gpio_set_value, ndelay.
  reads_tac.
Qed.
#[export] Hint Resolve reads_end_transmission : drv_reads.

Lemma reads_read_byte_loop (n : nat) :
  forall byte, reads (sht15_read_byte_loop n byte).
Proof.
  induction n as [|n IH]; intros byte; cbn [sht15_read_byte_loop].
  - apply reads_ret.
  - unfold gpio_set_value, ndelay. reads_tac.
Qed.
#[export] Hint Resolve reads_read_byte_loop : drv_reads.

Lemma reads_read_byte : reads sht15_read_byte.
Proof. apply reads_read_byte_loop. Qed.

(** ** The wire observer on the transport layer *)

Lemma observe_app (e1 e2 : list event) :
  forall b,
    observe b (e1 ++ e2) =
    (fst (observe (fst (observe b e1)) e2),
     snd (observe b e1) ++ snd (observe (fst (observe b e1)) e2)).
Proof.
  induction e1 as [|e e1 IH]; intros b; cbn [app observe].
  - cbn. now destruct (observe b e2).
  - destruct (observe_event b e) as [b1 o1]. rewrite IH.
    destruct (observe b1 e1) as [b2 o2]. cbn [fst snd].
    destruct (observe b2 e2) as [b3 o3]. cbn [fst snd].
    now rewrite app_assoc.
Qed.
#[export] Hint Resolve reads_read_byte : drv_reads.

Lemma trans_app (p q r : phase) (o1 o2 : list wire_item) (e1 e2 : list event) :
  trans p q o1 e1 -> trans q r o2 e2 -> trans p r (o1 ++ o2) (e1 ++ e2).
Proof.
  intros H1 H2 b Hs Hp. rewrite observe_app. cbn [fst snd].
  destruct (H1 b Hs Hp) as [Hs1 [Hp1 Ho1]].
  destruct (H2 _ Hs1 Hp1) as [Hs2 [Hp2 Ho2]].
  now rewrite Ho1, Ho2.
Qed.

Lemma trans_nil (p : phase) : trans p p [] [].
Proof. intros b Hs Hp. cbn. auto. Qed.

Lemma trans_wire (q : phase) (out : list wire_item) (evs : list event) :
  trans PIdle q out evs -> wire evs = out.
Proof. intros H. apply (H bus_idle); reflexivity. Qed.

Ltac trans_compute :=
  let b := fresh "b" in
  let sck := fresh "sck" in
  let d := fresh "d" in
  let p := fresh "p" in
  let Hs := fresh "Hs" in
  let Hp := fresh "Hp" in
  intros b Hs Hp; destruct b as [sck d p]; cbn in Hs, Hp; subst;
  destruct d; vm_compute; repeat split.

Lemma byte_cases (P : Z -> Prop) :
  (forall n : nat, (n < 256)%nat -> P (Z.of_nat n)) -> forall c, P (u8 c).
Proof.
  intros H c. pose proof (u8_range c) as Hc.
  rewrite <- (Z2Nat.id (u8 c)) by lia. apply H. lia.
Qed.

Lemma send_byte_u8 (c : Z) : sht15_send_byte (u8 c) = sht15_send_byte c.
Proof. unfold sht15_send_byte. now rewrite u8_idem. Qed.

Lemma trans_transmission_start (ins : list bool) :
  trans PIdle (PCmd 0 0) [] (evs_of sht15_transmission_start ins).
Proof. trans_compute. Qed.

Lemma trans_send_byte_cmd (c : Z) (ins : list bool) :
  trans (PCmd 0 0) (PAck (u8 c =? SHT15_WRITE_STATUS)) [WCmd (u8 c)]
        (evs_of (sht15_send_byte c) ins).
Proof.
  rewrite <- send_byte_u8. revert ins. pattern (u8 c). apply byte_cases.
  intros n Hn ins.
  do 256 (destruct n as [|n]; [trans_compute|]). lia.
Qed.

Lemma trans_send_byte_arg (c : Z) (ins : list bool) :
  trans (PArg 0 0) PIdle [WStatus (u8 c)] (evs_of (sht15_send_byte c) ins).
Proof.
  rewrite <- send_byte_u8. revert ins. pattern (u8 c). apply byte_cases.
  intros n Hn ins.
  do 256 (destruct n as [|n]; [trans_compute|]). lia.
Qed.

Lemma wait_for_response_res (ins : list bool) :
  res_of sht15_wait_for_response ins = if hd true ins then - EIO else 0.
Proof. destruct ins as [|[|] ins]; reflexivity. Qed.

Lemma wait_for_response_rest (ins : list bool) :
  rest_of sht15_wait_for_response ins = tl ins.
Proof. destruct ins as [|[|] ins]; reflexivity. Qed.

Lemma trans_wait_for_response_ack (w : bool) (ins : list bool) :
  trans (PAck w) (if negb (hd true ins) && w then PArg 0 0 else PIdle) []
        (evs_of sht15_wait_for_response ins).
Proof. destruct ins as [|[|] ins], w; trans_compute. Qed.

Lemma trans_wait_for_response_idle (ins : list bool) :
  trans PIdle PIdle [] (evs_of sht15_wait_for_response ins).
Proof. destruct ins as [|[|] ins]; trans_compute. Qed.

Lemma send_byte_rest (c : Z) (ins : list bool) :
  rest_of (sht15_send_byte c) ins = ins.
Proof. reflexivity. Qed.

Lemma send_cmd_res (c : Z) (ins : list bool) :
  res_of (sht15_send_cmd c) ins = if hd true ins then - EIO else 0.
Proof.
  unfold sht15_send_cmd.
  rewrite res_of_bind by reads_tac.
  rewrite res_of_bind by reads_tac.
  apply wait_for_response_res.
Qed.

Lemma send_cmd_rest (c : Z) (ins : list bool) :
  rest_of (sht15_send_cmd c) ins = tl ins.
Proof.
  unfold sht15_send_cmd.
  rewrite rest_of_bind by reads_tac.
  rewrite rest_of_bind by reads_tac.
  apply wait_for_response_rest.
Qed.

Lemma send_cmd_evs (c : Z) (ins : list bool) :
  evs_of (sht15_send_cmd c) ins =
  evs_of sht15_transmission_start ins
  ++ evs_of (sht15_send_byte c) ins
  ++ evs_of sht15_wait_for_response ins.
Proof.
  unfold sht15_send_cmd.
  rewrite evs_of_bind by reads_tac.
  rewrite evs_of_bind by reads_tac.
  reflexivity.
Qed.

(** A command is framed once, whatever the device answers; after an
    acknowledged write-status the bus expects the payload. *)
Lemma trans_send_cmd (c : Z) (ins : list bool) :
  trans PIdle
        (if negb (hd true ins) && (u8 c =? SHT15_WRITE_STATUS)
         then PArg 0 0 else PIdle)
        [WCmd (u8 c)]
        (evs_of (sht15_send_cmd c) ins).
Proof.
  rewrite send_cmd_evs.
  apply (trans_app _ _ _ [] [WCmd (u8 c)] _ _ (trans_transmission_start ins)).
  apply (trans_app _ _ _ [WCmd (u8 c)] [] _ _ (trans_send_byte_cmd c ins)).
  apply trans_wait_for_response_ack.
Qed.

Lemma send_cmd_run (c : Z) (s : machine) :
  sht15_send_cmd c s =
  (if hd true (data_in s) then - EIO else 0,
   io (tl (data_in s)) (evs_of (sht15_send_cmd c) (data_in s)) s).
Proof. now rewrite (reads_send_cmd c s), send_cmd_res, send_cmd_rest. Qed.

(** The byte spelled by eight levels of the data line, first level first. *)
Lemma read_byte_bits (bs rest : list bool) :
  length bs = 8%nat ->
  res_of sht15_read_byte (bs ++ rest) = bits_value bs
  /\ rest_of sht15_read_byte (bs ++ rest) = rest.
Proof.
  intros H.
  do 8 (destruct bs as [|? bs]; [discriminate|]).
  destruct bs; [|discriminate]. clear H.
  repeat match goal with b : bool |- _ => destruct b end;
    split; reflexivity.
Qed.

Lemma read_byte_rest (ins : list bool) :
  rest_of sht15_read_byte ins = skipn 8 ins.
Proof. do 8 (destruct ins as [|? ins]; [reflexivity|]). reflexivity. Qed.

Lemma trans_read_byte (ins : list bool) :
  trans PIdle PIdle [] (evs_of sht15_read_byte ins).
Proof. do 8 (destruct ins as [|? ins]; [trans_compute|]). trans_compute. Qed.

Lemma trans_ack (ins : list bool) :
  trans PIdle PIdle [] (evs_of sht15_ack ins)
  /\ rest_of sht15_ack ins = ins.
Proof. split; [trans_compute | reflexivity]. Qed.

Lemma trans_end_transmission (ins : list bool) :
  trans PIdle PIdle [] (evs_of sht15_end_transmission ins)
  /\ rest_of sht15_end_transmission ins = ins.
Proof. split; [trans_compute | reflexivity]. Qed.

Lemma trans_connection_reset (ins : list bool) :
  trans PIdle PIdle [] (evs_of sht15_connection_reset ins)
  /\ rest_of sht15_connection_reset ins = ins.
Proof. split; [trans_compute | reflexivity]. Qed.

(** ** Reasoning about runs of the protocol code *)

Arguments evs_of : simpl never.
Arguments res_of : simpl never.
Arguments rest_of : simpl never.

Lemma post_ret {A : Type} (a : A) (s : machine) Q :
  Q a s [] -> post (ret a) s Q.
Proof. intros H. exists []. cbn. now rewrite app_nil_r. Qed.

Lemma post_bind {A B : Type} (m : M A) (f : A -> M B) (s : machine) Q1 Q :
  post m s Q1 ->
  (forall a s1 e1, Q1 a s1 e1 ->
     post (f a) s1 (fun b s2 e2 => Q b s2 (e1 ++ e2))) ->
  post (bind m f) s Q.
Proof.
  intros [e1 [Ht1 H1]] Hf. unfold post, bind.
  destruct (m s) as [a s1] eqn:E. cbn [fst snd] in *.
  destruct (Hf a s1 e1 H1) as [e2 [Ht2 H2]].
  exists (e1 ++ e2). split; [|exact H2].
  now rewrite Ht2, Ht1, app_assoc.
Qed.

Lemma post_conseq {A : Type} (m : M A) (s : machine) (Q Q' : A -> machine -> list event -> Prop) :
  post m s Q -> (forall a s' e, Q a s' e -> Q' a s' e) -> post m s Q'.
Proof. intros [e [Ht H]] HQ. exists e. auto. Qed.

Lemma post_exact {A : Type} (m : M A) (s : machine) (a : A) (s' : machine)
      (evs : list event) Q :
  m s = (a, s') -> trace s' = trace s ++ evs -> Q a s' evs -> post m s Q.
Proof. intros E Ht H. exists evs. rewrite E. auto. Qed.

Lemma post_reads {A : Type} (m : M A) (s : machine) Q :
  reads m ->
  Q (res_of m (data_in s))
    (io (rest_of m (data_in s)) (evs_of m (data_in s)) s)
    (evs_of m (data_in s)) ->
  post m s Q.
Proof. intros Hm H. eapply post_exact; [apply Hm | reflexivity | exact H]. Qed.

Lemma post_emitted {A : Type} (m : M A) (s : machine) Q :
  post m s Q -> Q (fst (m s)) (snd (m s)) (emitted m s).
Proof.
  intros [evs [Ht H]]. unfold emitted. rewrite Ht.
  rewrite skipn_app, skipn_all, Nat.sub_diag. exact H.
Qed.

Lemma post_emit (e : event) (s : machine) Q :
  Q tt (io (data_in s) [e] s) [e] -> post (emit e) s Q.
Proof. intros H. eapply post_exact; [reflexivity | reflexivity | exact H]. Qed.

Lemma post_modify_data (f : sht15_data -> sht15_data) (s : machine) Q :
  Q tt (set_dat (f (dat s)) s) [] -> post (modify_data f) s Q.
Proof.
  intros H. eapply post_exact; [reflexivity | | exact H].
  cbn. now rewrite app_nil_r.
Qed.

Lemma post_get_data (s : machine) Q : Q (dat s) s [] -> post get_data s Q.
Proof. apply (post_ret (dat s) s Q). Qed.

Lemma post_get_jiffies (s : machine) Q :
  Q (jiffies s) s [] -> post get_jiffies s Q.
Proof. apply (post_ret (jiffies s) s Q). Qed.

Lemma post_get_kernel (s : machine) Q :
  Q (kern s) s [] -> post get_kernel s Q.
Proof. apply (post_ret (kern s) s Q). Qed.

(** *** Soft reset and write-status *)

Lemma soft_reset_run (s : machine) :
  sht15_soft_reset s =
  if hd true (data_in s)
  then (- EIO,
        io (tl (data_in s))
           (evs_of (sht15_send_cmd SHT15_SOFT_RESET) (data_in s)) s)
  else (0,
        set_dat (set_val_status 0 (dat s))
          (io (tl (data_in s))
              (evs_of (sht15_send_cmd SHT15_SOFT_RESET) (data_in s)
               ++ [EvMsleep SHT15_TSRST]) s)).
Proof.
  unfold sht15_soft_reset, bind. rewrite send_cmd_run.
  destruct (hd true (data_in s)); [reflexivity|].
  cbn. unfold set_dat, set_trace, io. cbn. now rewrite <- app_assoc.
Qed.

Lemma trans_soft_reset (ins : list bool) :
  trans PIdle PIdle [WCmd SHT15_SOFT_RESET]
        (evs_of (sht15_send_cmd SHT15_SOFT_RESET) ins)
  /\ trans PIdle PIdle [WCmd SHT15_SOFT_RESET; WSleep SHT15_TSRST]
           (evs_of (sht15_send_cmd SHT15_SOFT_RESET) ins
            ++ [EvMsleep SHT15_TSRST]).
Proof.
  assert (H : trans PIdle PIdle [WCmd SHT15_SOFT_RESET]
                    (evs_of (sht15_send_cmd SHT15_SOFT_RESET) ins)).
  { pose proof (trans_send_cmd SHT15_SOFT_RESET ins) as H.
    change (u8 SHT15_SOFT_RESET =? SHT15_WRITE_STATUS) with false in H.
    rewrite andb_false_r in H. exact H. }
  split; [exact H|].
  apply (trans_app _ _ _ [WCmd SHT15_SOFT_RESET] [WSleep SHT15_TSRST] _ _ H).
  intros b Hs Hp. cbn. auto.
Qed.

Lemma reads_send_status_tail (status : Z) (r : Z) :
  reads (if negb (r =? 0) then ret r
         else gpio_direction_output gpio_data true ;; ndelay SHT15_TSU ;;
              sht15_send_byte status ;; sht15_wait_for_response).
Proof. unfold gpio_direction_output, ndelay. reads_tac. Qed.

Lemma reads_send_status_wire (status : Z) : reads (send_status_wire status).
Proof.
  unfold send_status_wire.
  apply reads_bind; [apply reads_send_cmd | apply reads_send_status_tail].
Qed.

Lemma bind_reads {A B : Type} (m : M A) (f : A -> M B) (s : machine) :
  reads m ->
  bind m f s =
  f (res_of m (data_in s))
    (io (rest_of m (data_in s)) (evs_of m (data_in s)) s).
Proof. intros Hm. unfold bind. now rewrite (Hm s). Qed.

Lemma data_in_io (i : list bool) (e : list event) (s : machine) :
  data_in (io i e s) = i.
Proof. reflexivity. Qed.

Lemma evs_of_emit (e : event) (ins : list bool) : evs_of (emit e) ins = [e].
Proof. reflexivity. Qed.

Lemma rest_of_emit (e : event) (ins : list bool) : rest_of (emit e) ins = ins.
Proof. reflexivity. Qed.

(** One step of symbolic execution through a transport operation. *)
Ltac step_reads :=
  rewrite bind_reads by reads_tac;
  rewrite ?io_io, ?data_in_io, ?rest_of_emit, ?evs_of_emit.

Lemma trans_quiet_event (p : phase) (e : event) :
  match e with
  | EvDirOut gpio_data _ | EvDirIn _ | EvNdelay _ | EvDevErr | EvLock
  | EvUnlock | EvEnableIrq | EvDisableIrq | EvScheduleWork | EvWakeUp => True
  | _ => False
  end ->
  trans p p [] [e].
Proof.
  intros He b Hs Hp. destruct b as [sck d q]. cbn in Hs, Hp. subst.
  destruct e as [[|] v|[|]|l v|l v|ns|ms| | | |t| | | |]; try contradiction;
    cbn; auto.
Qed.

Lemma send_status_wire_evs (status : Z) (ins : list bool) :
  evs_of (send_status_wire status) ins =
  if nak1 ins then evs_of (sht15_send_cmd SHT15_WRITE_STATUS) ins
  else (((evs_of (sht15_send_cmd SHT15_WRITE_STATUS) ins
          ++ [EvDirOut gpio_data true]) ++ [EvNdelay SHT15_TSU])
        ++ evs_of (sht15_send_byte status) (tl ins))
       ++ evs_of sht15_wait_for_response (tl ins).
Proof.
  unfold send_status_wire.
  rewrite evs_of_bind
    by (try apply reads_send_cmd; apply reads_send_status_tail).
  rewrite send_cmd_res, send_cmd_rest.
  unfold nak1. destruct (hd true ins).
  - change (negb (- EIO =? 0)) with true. cbv iota.
    change (evs_of (ret (- EIO)) (tl ins)) with (@nil event).
    now rewrite app_nil_r.
  - change (negb (0 =? 0)) with false. cbv iota.
    unfold gpio_direction_output, ndelay.
    rewrite (evs_of_bind (emit _)) by reads_tac. cbv beta.
    rewrite (evs_of_bind (emit _)) by reads_tac. cbv beta.
    rewrite (evs_of_bind (sht15_send_byte _)) by reads_tac. cbv beta.
    rewrite !rest_of_emit, !evs_of_emit, send_byte_rest.
    now rewrite !app_assoc.
Qed.

Lemma send_status_wire_res (status : Z) (ins : list bool) :
  res_of (send_status_wire status) ins
  = (if nak1 ins || nak2 ins then - EIO else 0)
  /\ rest_of (send_status_wire status) ins
     = (if nak1 ins then tl ins else tl (tl ins)).
Proof.
  unfold send_status_wire.
  rewrite res_of_bind, rest_of_bind
    by (try apply reads_send_cmd; apply reads_send_status_tail).
  rewrite send_cmd_res, send_cmd_rest.
  unfold nak1, nak2. destruct (hd true ins).
  - change (negb (- EIO =? 0)) with true. cbv iota. split; reflexivity.
  - change (negb (0 =? 0)) with false. cbv iota.
    unfold gpio_direction_output, ndelay.
    rewrite (res_of_bind (emit _)), (rest_of_bind (emit _)) by reads_tac.
    cbv beta.
    rewrite (res_of_bind (emit _)), (rest_of_bind (emit _)) by reads_tac.
    cbv beta.
    rewrite (res_of_bind (sht15_send_byte _)),
      (rest_of_bind (sht15_send_byte _)) by reads_tac.
    cbv beta.
    rewrite !rest_of_emit, send_byte_rest,
      wait_for_response_res, wait_for_response_rest.
    split; reflexivity.
Qed.

Lemma trans_send_status_wire (status : Z) (ins : list bool) :
  trans PIdle PIdle
        (if nak1 ins then [WCmd SHT15_WRITE_STATUS]
         else [WCmd SHT15_WRITE_STATUS; WStatus (u8 status)])
        (evs_of (send_status_wire status) ins).
Proof.
  rewrite send_status_wire_evs.
  pose proof (trans_send_cmd SHT15_WRITE_STATUS ins) as Hc.
  unfold nak1 in *. destruct (hd true ins); [exact Hc|].
  apply (trans_app _ PIdle _ [WCmd SHT15_WRITE_STATUS; WStatus (u8 status)] []);
    [|apply trans_wait_for_response_idle].
  apply (trans_app _ (PArg 0 0) _ [WCmd SHT15_WRITE_STATUS] [WStatus (u8 status)]);
    [|apply trans_send_byte_arg].
  apply (trans_app _ (PArg 0 0) _ [WCmd SHT15_WRITE_STATUS] []);
    [|apply (trans_quiet_event _ (EvNdelay SHT15_TSU)); exact I].
  apply (trans_app _ (PArg 0 0) _ [WCmd SHT15_WRITE_STATUS] []);
    [exact Hc|apply (trans_quiet_event _ (EvDirOut gpio_data true)); exact I].
Qed.

Lemma send_status_run (status : Z) (s : machine) :
  sht15_send_status status s =
  (if nak1 (data_in s) || nak2 (data_in s) then - EIO else 0,
   set_dat (if nak1 (data_in s) || nak2 (data_in s) then dat s
            else set_val_status status (dat s))
     (io (if nak1 (data_in s) then tl (data_in s) else tl (tl (data_in s)))
         (evs_of (send_status_wire status) (data_in s)) s)).
Proof.
  rewrite send_status_wire_evs.
  unfold sht15_send_status. step_reads.
  rewrite send_cmd_res, send_cmd_rest.
  unfold nak1, nak2. destruct (hd true (data_in s)).
  - change (negb (- EIO =? 0)) with true. cbv iota.
    unfold ret. cbn [orb]. destruct s; reflexivity.
  - change (negb (0 =? 0)) with false. cbv iota.
    unfold gpio_direction_output, ndelay.
    do 4 step_reads.
    rewrite send_byte_rest, wait_for_response_res, wait_for_response_rest.
    cbn [orb].
    destruct (hd true (tl (data_in s))).
    + change (negb (- EIO =? 0)) with true. cbv iota.
      unfold ret. destruct s; reflexivity.
    + change (negb (0 =? 0)) with false. cbv iota.
      unfold bind, modify_data, ret, set_dat, io.
      cbn [dat kern jiffies data_in irq_in irq_enabled work_pending trace].
      reflexivity.
Qed.

Lemma emitted_exact {A : Type} (m : M A) (s : machine) (a : A) (s' : machine)
      (evs : list event) :
  m s = (a, s') -> trace s' = trace s ++ evs -> emitted m s = evs.
Proof.
  intros E Ht. unfold emitted. rewrite E. cbn [snd]. rewrite Ht.
  now rewrite skipn_app, skipn_all, Nat.sub_diag.
Qed.

Lemma trans_quiet_l (p r : phase) (o : list wire_item) (e1 e2 : list event) :
  trans p p [] e1 -> trans p r o e2 -> trans p r o (e1 ++ e2).
Proof. intros H1 H2. apply (trans_app p p r [] o e1 e2 H1 H2). Qed.

Lemma trans_quiet_r (p q : phase) (o : list wire_item) (e1 e2 : list event) :
  trans p q o e1 -> trans q q [] e2 -> trans p q o (e1 ++ e2).
Proof.
  intros H1 H2. pose proof (trans_app p q q o [] e1 e2 H1 H2) as H.
  now rewrite app_nil_r in H.
Qed.

Lemma trans_cons (p q r : phase) (w : wire_item) (o : list wire_item)
      (e1 e2 : list event) :
  trans p q [w] e1 -> trans q r o e2 -> trans p r (w :: o) (e1 ++ e2).
Proof. intros H1 H2. apply (trans_app p q r [w] o e1 e2 H1 H2). Qed.

(** C6: a soft reset frames the reset command once; when the device
    acknowledges it the driver sleeps 11 ms and the status mirror becomes
    zero; when it does not, the error is returned, nothing is slept and the
    instance data, the mirror included, is as before. *)
Theorem sht15_soft_reset_spec (s : machine) :
  let r := fst (sht15_soft_reset s) in
  let s' := snd (sht15_soft_reset s) in
  let evs := emitted sht15_soft_reset s in
  trace s' = trace s ++ evs
  /\ SHT15_TSRST = 11
  /\ if hd true (data_in s)
     then r = - EIO
          /\ dat s' = dat s
          /\ wire evs = [WCmd SHT15_SOFT_RESET]
     else r = 0
          /\ dat s' = set_val_status 0 (dat s)
          /\ val_status (dat s') = 0
          /\ wire evs = [WCmd SHT15_SOFT_RESET; WSleep SHT15_TSRST].
Proof.
  cbv zeta.
  destruct (trans_soft_reset (data_in s)) as [Hn Ha].
  pose proof (soft_reset_run s) as E.
  destruct (hd true (data_in s)).
  - rewrite (emitted_exact _ _ _ _ _ E eq_refl). rewrite E.
    repeat split. apply (trans_wire _ _ _ Hn).
  - rewrite (emitted_exact _ _ _ _ _ E eq_refl). rewrite E.
    repeat split. apply (trans_wire _ _ _ Ha).
Qed.

(** *** Stepping through the protocol code *)

Lemma bind_run {A B : Type} (m : M A) (f : A -> M B) (s : machine)
      (a : A) (s1 : machine) :
  m s = (a, s1) -> bind m f s = f a s1.
Proof. intros E. unfold bind. now rewrite E. Qed.

Lemma bind_get_data {B : Type} (f : sht15_data -> M B) (s : machine) :
  bind get_data f s = f (dat s) s.
Proof. reflexivity. Qed.

Lemma bind_get_jiffies {B : Type} (f : Z -> M B) (s : machine) :
  bind get_jiffies f s = f (jiffies s) s.
Proof. reflexivity. Qed.

Lemma bind_get_kernel {B : Type} (f : kernel -> M B) (s : machine) :
  bind get_kernel f s = f (kern s) s.
Proof. reflexivity. Qed.

Lemma bind_modify_data {B : Type} (g : sht15_data -> sht15_data)
      (f : unit -> M B) (s : machine) :
  bind (modify_data g) f s = f tt (set_dat (g (dat s)) s).
Proof. reflexivity. Qed.

Lemma io_set_dat (i : list bool) (e : list event) (d : sht15_data) (s : machine) :
  io i e (set_dat d s) = set_dat d (io i e s).
Proof. reflexivity. Qed.

Lemma set_dat_set_dat (d d' : sht15_data) (s : machine) :
  set_dat d (set_dat d' s) = set_dat d s.
Proof. reflexivity. Qed.

Lemma data_in_set_dat (d : sht15_data) (s : machine) :
  data_in (set_dat d s) = data_in s.
Proof. reflexivity. Qed.

Lemma dat_set_dat (d : sht15_data) (s : machine) : dat (set_dat d s) = d.
Proof. reflexivity. Qed.

Lemma dat_io (i : list bool) (e : list event) (s : machine) :
  dat (io i e s) = dat s.
Proof. reflexivity. Qed.

Lemma trace_set_dat_io (d : sht15_data) (i : list bool) (e : list event)
      (s : machine) :
  trace (set_dat d (io i e s)) = trace s ++ e.
Proof. reflexivity. Qed.

Lemma set_dat_same (s : machine) : set_dat (dat s) s = s.
Proof. destruct s; reflexivity. Qed.

(** Machines met while stepping are brought to the form
    [set_dat d (io ins evs s)]. *)
Lemma jiffies_io (i : list bool) (e : list event) (s : machine) :
  jiffies (io i e s) = jiffies s.
Proof. reflexivity. Qed.

Lemma jiffies_set_dat (d : sht15_data) (s : machine) :
  jiffies (set_dat d s) = jiffies s.
Proof. reflexivity. Qed.

Lemma kern_io (i : list bool) (e : list event) (s : machine) :
  kern (io i e s) = kern s.
Proof. reflexivity. Qed.

Lemma kern_set_dat (d : sht15_data) (s : machine) :
  kern (set_dat d s) = kern s.
Proof. reflexivity. Qed.

Ltac norm_machine :=
  repeat rewrite ?io_set_dat, ?io_io, ?set_dat_set_dat, ?data_in_set_dat,
    ?data_in_io, ?dat_set_dat, ?dat_io, ?jiffies_io, ?jiffies_set_dat,
    ?kern_io, ?kern_set_dat, ?rest_of_emit, ?evs_of_emit.

Ltac step :=
  first
    [ rewrite bind_get_data
    | rewrite bind_get_jiffies
    | rewrite bind_get_kernel
    | rewrite bind_modify_data
    | rewrite bind_reads by reads_tac ];
  norm_machine.

Lemma land_7_range (x : Z) : 0 <= Z.land x 7 < 8.
Proof.
  change 7 with (Z.ones 3). rewrite Z.land_ones by lia.
  apply Z.mod_pos_bound. lia.
Qed.

(** The byte [sht15_store_heater] computes from the mirror: its two low
    bits with the heater bit as requested. *)
Lemma heater_byte (mirror value : Z) :
  (if negb (notnot value =? 0)
   then u8 (Z.lor (Z.land mirror 7) SHT15_STATUS_HEATER)
   else u8 (Z.land (Z.land mirror 7) (Z.lnot SHT15_STATUS_HEATER)))
  = Z.lor (Z.land mirror 3) (if value =? 0 then 0 else SHT15_STATUS_HEATER).
Proof.
  replace (Z.land mirror 3) with (Z.land (Z.land mirror 7) 3)
    by (rewrite <- Z.land_assoc; reflexivity).
  pose proof (land_7_range mirror) as H.
  unfold notnot. destruct (value =? 0);
    assert (E : Z.land mirror 7 = 0 \/ Z.land mirror 7 = 1
                \/ Z.land mirror 7 = 2 \/ Z.land mirror 7 = 3
                \/ Z.land mirror 7 = 4 \/ Z.land mirror 7 = 5
                \/ Z.land mirror 7 = 6 \/ Z.land mirror 7 = 7) by lia;
    repeat (destruct E as [E|E]; [rewrite E; reflexivity|]);
    rewrite E; reflexivity.
Qed.

Lemma heater_byte_bits (mirror value : Z) :
  let written :=
    Z.lor (Z.land mirror 3) (if value =? 0 then 0 else SHT15_STATUS_HEATER) in
  Z.land written 3 = Z.land mirror 3
  /\ Z.land written SHT15_STATUS_HEATER
     = (if value =? 0 then 0 else SHT15_STATUS_HEATER)
  /\ Z.shiftr written 3 = 0
  /\ u8 written = written.
Proof.
  cbv zeta.
  assert (H : 0 <= Z.land mirror 3 < 4).
  { change 3 with (Z.ones 2). rewrite Z.land_ones by lia.
    apply Z.mod_pos_bound. lia. }
  assert (E : Z.land mirror 3 = 0 \/ Z.land mirror 3 = 1
              \/ Z.land mirror 3 = 2 \/ Z.land mirror 3 = 3) by lia.
  destruct (value =? 0);
    repeat (destruct E as [E|E]; [rewrite E; repeat split|]);
    rewrite E; repeat split.
Qed.

(** C10: a heater update frames one write-status command whose payload is
    the mirror's low-resolution and no-OTP-reload bits with the heater bit
    as requested and every higher bit zero; no read-status command is framed,
    so the mirror is not refreshed before it is modified. *)
Theorem sht15_store_heater_spec (s : machine) (value count : Z) :
  let mirror := val_status (dat s) in
  let written :=
    Z.lor (Z.land mirror 3) (if value =? 0 then 0 else SHT15_STATUS_HEATER) in
  let run := sht15_store_heater (Some value) count in
  let evs := emitted run s in
  wire evs = (if nak1 (data_in s) then [WCmd SHT15_WRITE_STATUS]
              else [WCmd SHT15_WRITE_STATUS; WStatus written])
  /\ count_cmd SHT15_READ_STATUS (wire evs) = 0%nat
  /\ Z.land written 3 = Z.land mirror 3
  /\ Z.land written SHT15_STATUS_HEATER
     = (if value =? 0 then 0 else SHT15_STATUS_HEATER)
  /\ Z.shiftr written 3 = 0
  /\ fst (run s) = (if nak1 (data_in s) || nak2 (data_in s) then - EIO else count)
  /\ dat (snd (run s))
     = (if nak1 (data_in s) || nak2 (data_in s) then dat s
        else set_val_status written (dat s)).
Proof.
  cbv zeta.
  destruct (heater_byte_bits (val_status (dat s)) value) as [Hlow [Hh [Hhi Hu]]].
  set (written := Z.lor (Z.land (val_status (dat s)) 3)
                        (if value =? 0 then 0 else SHT15_STATUS_HEATER)) in *.
  assert (E : sht15_store_heater (Some value) count s =
              (if nak1 (data_in s) || nak2 (data_in s) then - EIO else count,
               set_dat (if nak1 (data_in s) || nak2 (data_in s) then dat s
                        else set_val_status written (dat s))
                 (io (if nak1 (data_in s) then tl (data_in s)
                      else tl (tl (data_in s)))
                     (([EvLock] ++ evs_of (send_status_wire written) (data_in s))
                      ++ [EvUnlock]) s))).
  { unfold sht15_store_heater, mutex_lock, mutex_unlock.
    step. step. rewrite heater_byte. fold written.
    rewrite (bind_run _ _ _ _ _ (send_status_run written _)).
    norm_machine. step.
    destruct (nak1 (data_in s) || nak2 (data_in s)); reflexivity. }
  rewrite (emitted_exact _ _ _ _ _ E (trace_set_dat_io _ _ _ _)).
  rewrite E. cbn [fst snd]. rewrite dat_set_dat.
  assert (W : wire (([EvLock] ++ evs_of (send_status_wire written) (data_in s))
                    ++ [EvUnlock])
              = (if nak1 (data_in s) then [WCmd SHT15_WRITE_STATUS]
                 else [WCmd SHT15_WRITE_STATUS; WStatus written])).
  { apply (trans_wire PIdle).
    apply trans_quiet_r; [|apply (trans_quiet_event _ EvUnlock); exact I].
    apply trans_quiet_l; [apply (trans_quiet_event _ EvLock); exact I|].
    pose proof (trans_send_status_wire written (data_in s)) as T.
    now rewrite Hu in T. }
  rewrite W. repeat split; try assumption.
  destruct (nak1 (data_in s)); reflexivity.
Qed.

(** *** Recovery after a checksum failure *)

Lemma set_val_status_same (d : sht15_data) : set_val_status (val_status d) d = d.
Proof. destruct d; reflexivity. Qed.

Lemma set_dat_io_same (i : list bool) (e : list event) (s : machine) :
  set_dat (dat s) (io i e s) = io i e s.
Proof. reflexivity. Qed.

Lemma crc_recovery_run (prev : Z) (s : machine) :
  exists ins' evs,
    (r0 <- sht15_soft_reset ;;
     if negb (r0 =? 0) then ret r0
     else if negb (prev =? 0) then
       r1 <- sht15_send_status (prev) ;;
       if negb (r1 =? 0) then dev_err ;; ret r1
       else ret (- EAGAIN)
     else ret (- EAGAIN)) s =
    (recovery_ret prev (data_in s),
     set_dat (set_val_status
                (recovery_mirror prev (val_status (dat s)) (data_in s)) (dat s))
             (io ins' evs s))
    /\ trans PIdle PIdle (recovery_wire prev (data_in s)) evs.
Proof.
  unfold recovery_ret, recovery_mirror, recovery_wire.
  pose proof (soft_reset_run s) as R.
  destruct (trans_soft_reset (data_in s)) as [Tn Ta].
  change (nak1 (data_in s)) with (hd true (data_in s)).
  destruct (hd true (data_in s)).
  - rewrite (bind_run _ _ _ _ _ R).
    change (negb (- EIO =? 0)) with true. cbv iota.
    do 2 eexists. split; [|exact Tn].
    unfold ret. rewrite set_val_status_same, set_dat_io_same. reflexivity.
  - rewrite (bind_run _ _ _ _ _ R).
    change (negb (0 =? 0)) with false. cbv iota.
    destruct (prev =? 0).
    + cbn [negb]. do 2 eexists. split; [|exact Ta]. reflexivity.
    + cbn [negb].
      rewrite (bind_run _ _ _ _ _ (send_status_run prev _)).
      norm_machine.
      pose proof (trans_send_status_wire prev (tl (data_in s))) as Tw.
      destruct (nak1 (tl (data_in s))) eqn:N1.
      * cbn [orb]. change (negb (- EIO =? 0)) with true. cbv iota.
        unfold dev_err. step. unfold ret.
        do 2 eexists. split; [reflexivity|].
        apply trans_quiet_r; [|apply (trans_quiet_event _ EvDevErr); exact I].
        apply (trans_app _ _ _ [WCmd SHT15_SOFT_RESET; WSleep SHT15_TSRST]
                         [WCmd SHT15_WRITE_STATUS] _ _ Ta Tw).
      * cbn [orb]. destruct (nak2 (tl (data_in s))).
        -- change (negb (- EIO =? 0)) with true. cbv iota.
           unfold dev_err. step. unfold ret.
           do 2 eexists. split; [reflexivity|].
           apply trans_quiet_r; [|apply (trans_quiet_event _ EvDevErr); exact I].
           apply (trans_app _ _ _ [WCmd SHT15_SOFT_RESET; WSleep SHT15_TSRST]
                            [WCmd SHT15_WRITE_STATUS; WStatus (u8 prev)]
                            _ _ Ta Tw).
        -- change (negb (0 =? 0)) with false. cbv iota. unfold ret.
           do 2 eexists. split; [reflexivity|].
           apply (trans_app _ _ _ [WCmd SHT15_SOFT_RESET; WSleep SHT15_TSRST]
                            [WCmd SHT15_WRITE_STATUS; WStatus (u8 prev)]
                            _ _ Ta Tw).
Qed.

(** *** Refreshing the status mirror *)

Lemma bind_assoc {A B C : Type} (m : M A) (f : A -> M B) (g : B -> M C)
      (s : machine) :
  bind (bind m f) g s = bind m (fun a => bind (f a) g) s.
Proof. unfold bind. destruct (m s) as [a s1]. reflexivity. Qed.

Lemma bind_ret {A B : Type} (a : A) (f : A -> M B) (s : machine) :
  bind (ret a) f s = f a s.
Proof. reflexivity. Qed.

Lemma byte_read_eq (ins : list bool) :
  res_of sht15_read_byte ins = byte_read ins.
Proof. unfold byte_read. reflexivity. Qed.

Lemma trans_read_status (ins : list bool) :
  trans PIdle PIdle [WCmd SHT15_READ_STATUS]
        (evs_of (sht15_send_cmd SHT15_READ_STATUS) ins).
Proof.
  pose proof (trans_send_cmd SHT15_READ_STATUS ins) as H.
  change (u8 SHT15_READ_STATUS =? SHT15_WRITE_STATUS) with false in H.
  now rewrite andb_false_r in H.
Qed.

Ltac trans_leaf :=
  match goal with
  | H : trans ?p ?q ?o ?e |- trans ?p ?q ?o ?e => exact H
  | |- trans _ _ _ (evs_of sht15_read_byte _) => apply trans_read_byte
  | |- trans _ _ _ (evs_of sht15_ack _) => apply trans_ack
  | |- trans _ _ _ (evs_of sht15_end_transmission _) =>
      apply trans_end_transmission
  | |- trans _ _ _ (evs_of sht15_connection_reset _) =>
      apply trans_connection_reset
  | |- trans _ _ [] [?e] => apply (trans_quiet_event _ e); exact I
  | |- trans _ _ [] [] => apply trans_nil
  end.

(** A log that frames something first and is quiet afterwards. *)
Ltac trans_r :=
  match goal with
  | |- trans _ _ _ (_ ++ _) => apply trans_quiet_r; [trans_r | trans_leaf]
  | _ => trans_leaf
  end.

Lemma update_status_refresh_run (s : machine) :
  exists ins' evs,
    sht15_update_status_refresh s =
    (status_refresh_ret (dat s) (data_in s),
     set_dat (status_refresh_dat (dat s) (jiffies s) (data_in s))
             (io ins' evs s))
    /\ trans PIdle PIdle (status_refresh_wire (dat s) (data_in s)) evs.
Proof.
  unfold sht15_update_status_refresh, status_refresh_ret, status_refresh_dat,
    status_refresh_wire, status_crc_ok, status_recovery_in, byte_read.
  pose proof (trans_read_status (data_in s)) as Tc.
  step. rewrite send_cmd_res, send_cmd_rest.
  change (nak1 (data_in s)) with (hd true (data_in s)).
  destruct (hd true (data_in s)).
  - change (negb (- EIO =? 0)) with true. cbv iota. unfold ret.
    do 2 eexists. split; [now rewrite set_dat_io_same|exact Tc].
  - change (negb (0 =? 0)) with false. cbv iota. cbn [negb andb].
    step. rewrite read_byte_rest.
    step.
    pose proof (trans_read_byte (tl (data_in s))) as Tb.
    destruct (trans_end_transmission (skipn 8 (tl (data_in s)))) as [Te _].
    destruct (checksumming (dat s)) eqn:C.
    + rewrite bind_assoc. step.
      destruct (trans_ack (skipn 8 (tl (data_in s)))) as [Ta Ra]. rewrite Ra.
      rewrite bind_assoc. step. rewrite read_byte_rest.
      step. step. rewrite (proj2 (trans_end_transmission _)).
      step.
      cbn [checksumming checksum_ok set_checksum_ok val_status].
      rewrite C. cbn [andb].
      assert (Tpre : trans PIdle PIdle [WCmd SHT15_READ_STATUS]
        ((((evs_of (sht15_send_cmd SHT15_READ_STATUS) (data_in s)
            ++ evs_of sht15_read_byte (tl (data_in s)))
           ++ evs_of sht15_ack (skipn 8 (tl (data_in s))))
          ++ evs_of sht15_read_byte (skipn 8 (tl (data_in s))))
         ++ evs_of sht15_end_transmission (skipn 8 (skipn 8 (tl (data_in s)))))).
      { trans_r. }
      destruct (sht15_crc8 (dat s)
                  [SHT15_READ_STATUS; res_of sht15_read_byte (tl (data_in s))] 2
                =? sht15_reverse
                     (res_of sht15_read_byte (skipn 8 (tl (data_in s))))).
      * cbn [negb]. do 4 step. unfold ret.
        do 2 eexists. split; [reflexivity|exact Tpre].
      * cbn [negb].
        match goal with
        | |- exists _ _, _ ?S = _ /\ _ =>
            destruct (crc_recovery_run (Z.land (val_status (dat s)) 7) S)
              as (i' & e' & E & T)
        end.
        rewrite E. clear E.
        norm_machine. cbn [val_status set_checksum_ok] in *.
        do 2 eexists. split; [reflexivity|].
        apply (trans_cons _ _ _ _ _ _ _ Tpre T).
    + rewrite bind_ret. step. rewrite (proj2 (trans_end_transmission _)).
      step. rewrite C. cbn [andb]. do 4 step. unfold ret.
      do 2 eexists. split; [reflexivity|].
      trans_r.
Qed.

Lemma update_status_run (s : machine) :
  exists ins' evs,
    sht15_update_status s =
    (if status_due s then status_refresh_ret (dat s) (data_in s) else 0,
     set_dat (if status_due s
              then status_refresh_dat (dat s) (jiffies s) (data_in s)
              else dat s)
             (io ins' evs s))
    /\ trans PIdle PIdle
             (if status_due s then status_refresh_wire (dat s) (data_in s)
              else [])
             evs
    /\ (status_due s = false -> ins' = data_in s /\ evs = [EvLock; EvUnlock]).
Proof.
  unfold sht15_update_status, mutex_lock, mutex_unlock, status_due.
  do 4 step.
  destruct (time_after (jiffies s) (last_status (dat s) + HZ (kern s))
            || negb (status_valid (dat s))).
  - destruct (update_status_refresh_run (io (data_in s) [EvLock] s))
      as (i' & e' & E & T).
    rewrite (bind_run _ _ _ _ _ E). norm_machine. step. unfold ret.
    do 2 eexists. split; [reflexivity|]. split; [|discriminate].
    apply trans_quiet_r; [|trans_leaf].
    apply trans_quiet_l; [trans_leaf|exact T].
  - rewrite bind_ret. step. unfold ret.
    do 2 eexists. split; [reflexivity|]. split; [|split; reflexivity].
    apply trans_quiet_r; trans_leaf.
Qed.

Lemma count_recovery_wire (prev : Z) (ins : list bool) :
  count_cmd SHT15_SOFT_RESET (recovery_wire prev ins) = 1%nat
  /\ count_cmd SHT15_WRITE_STATUS (recovery_wire prev ins)
     = (if negb (nak1 ins) && negb (prev =? 0) then 1%nat else 0%nat)
  /\ count_cmd SHT15_READ_STATUS (recovery_wire prev ins) = 0%nat
  /\ count_cmd SHT15_MEASURE_RH (recovery_wire prev ins) = 0%nat
  /\ count_cmd SHT15_MEASURE_TEMP (recovery_wire prev ins) = 0%nat.
Proof.
  unfold recovery_wire.
  destruct (nak1 ins), (prev =? 0), (nak1 (tl ins)); repeat split.
Qed.

Lemma recovery_mirror_cases (prev old : Z) (ins : list bool) :
  recovery_mirror prev old ins = old
  \/ recovery_mirror prev old ins = 0
  \/ recovery_mirror prev old ins = prev.
Proof.
  unfold recovery_mirror.
  destruct (nak1 ins), (prev =? 0), (nak1 (tl ins) || nak2 (tl ins)); auto.
Qed.

(** C4 (as the driver behaves): a status read whose checksum does not match
    frames exactly one soft-reset command; provided that command is
    acknowledged it frames a write-status command exactly when the masked
    previous configuration is non-zero; it returns -EAGAIN when every
    command of the recovery is acknowledged and -EIO otherwise; the mirror
    ends as the old mirror, zero or the masked old mirror, never the byte
    just read, and the validity flag and timestamp are untouched. *)
Theorem sht15_update_status_crc_failure (s : machine) :
  status_due s = true ->
  checksumming (dat s) = true ->
  nak1 (data_in s) = false ->
  status_crc_ok (dat s) (data_in s) = false ->
  let prev := Z.land (val_status (dat s)) 0x07 in
  let rin := status_recovery_in (data_in s) in
  let r := fst (sht15_update_status s) in
  let s' := snd (sht15_update_status s) in
  let w := wire (emitted sht15_update_status s) in
  w = WCmd SHT15_READ_STATUS :: recovery_wire prev rin
  /\ count_cmd SHT15_SOFT_RESET w = 1%nat
  /\ count_cmd SHT15_WRITE_STATUS w
     = (if negb (nak1 rin) && negb (prev =? 0) then 1%nat else 0%nat)
  /\ r = recovery_ret prev rin
  /\ r <> 0
  /\ val_status (dat s') = recovery_mirror prev (val_status (dat s)) rin
  /\ (val_status (dat s') = val_status (dat s)
      \/ val_status (dat s') = 0 \/ val_status (dat s') = prev)
  /\ status_valid (dat s') = status_valid (dat s)
  /\ last_status (dat s') = last_status (dat s).
Proof.
  intros Hdue Hck Hack Hcrc. cbv zeta.
  destruct (update_status_run s) as (ins' & evs & E & T & _).
  rewrite Hdue in E, T.
  unfold status_refresh_ret, status_refresh_dat, status_refresh_wire in E, T.
  rewrite Hack, Hck, Hcrc in E, T. cbn [negb andb] in E, T.
  rewrite (emitted_exact _ _ _ _ _ E (trace_set_dat_io _ _ _ _)).
  rewrite (trans_wire _ _ _ T). rewrite E. cbn [fst snd]. rewrite dat_set_dat.
  destruct (count_recovery_wire (Z.land (val_status (dat s)) 7)
                                (status_recovery_in (data_in s)))
    as (C1 & C2 & _).
  split; [reflexivity|]. split; [exact C1|]. split; [exact C2|].
  split; [reflexivity|]. split.
  { unfold recovery_ret.
    destruct (nak1 (status_recovery_in (data_in s))),
      (Z.land (val_status (dat s)) 7 =? 0),
      (nak1 (tl (status_recovery_in (data_in s)))
       || nak2 (tl (status_recovery_in (data_in s)))); discriminate. }
  split; [reflexivity|]. split; [|split; reflexivity].
  cbn [val_status set_val_status set_checksum_ok].
  apply recovery_mirror_cases.
Qed.

Lemma sht15_update_status_crc_failure_witness :
  fst (sht15_update_status crc_failure_machine) = - EAGAIN
  /\ wire (emitted sht15_update_status crc_failure_machine)
     = [WCmd SHT15_READ_STATUS; WCmd SHT15_SOFT_RESET; WSleep 11;
        WCmd SHT15_WRITE_STATUS; WStatus 1].
Proof.
  destruct (sht15_update_status_crc_failure crc_failure_machine)
    as (Hw & _ & _ & Hr & _); try reflexivity.
  split; [exact Hr | exact Hw].
Defined.

(** C4 as written does not hold: here the checksum fails and the masked
    previous configuration is non-zero, but the soft reset is not
    acknowledged and no write-status command follows. *)
Lemma sht15_update_status_reset_nak :
  status_due reset_nak_machine = true
  /\ checksumming (dat reset_nak_machine) = true
  /\ nak1 (data_in reset_nak_machine) = false
  /\ status_crc_ok (dat reset_nak_machine) (data_in reset_nak_machine) = false
  /\ Z.land (val_status (dat reset_nak_machine)) 0x07 <> 0
  /\ count_cmd SHT15_SOFT_RESET
               (wire (emitted sht15_update_status reset_nak_machine)) = 1%nat
  /\ count_cmd SHT15_WRITE_STATUS
               (wire (emitted sht15_update_status reset_nak_machine)) = 0%nat
  /\ fst (sht15_update_status reset_nak_machine) = - EIO
  /\ ~ (count_cmd SHT15_WRITE_STATUS
                  (wire (emitted sht15_update_status reset_nak_machine))
        = 1%nat
        <-> Z.land (val_status (dat reset_nak_machine)) 0x07 <> 0).
Proof.
  assert (E : count_cmd SHT15_WRITE_STATUS
                (wire (emitted sht15_update_status reset_nak_machine))
              = 0%nat) by (vm_compute; reflexivity).
  repeat split; try (vm_compute; congruence).
  intros [_ H]. rewrite E in H. discriminate H. vm_compute. discriminate.
Qed.

(** *** The interrupt, the deferred read and the wait leave the bus quiet *)

Lemma same_config_refl (d : sht15_data) : same_config d d.
Proof. repeat split. Qed.

Lemma same_config_trans (d1 d2 d3 : sht15_data) :
  same_config d1 d2 -> same_config d2 d3 -> same_config d1 d3.
Proof. unfold same_config. intuition congruence. Qed.

(** Splits a [quiet_frame] goal, leaving the [trans] part. *)
Ltac frame_split :=
  split; [try reflexivity; try assumption; try congruence
         | split; [try reflexivity; try assumption; try congruence
                  | split; [try (repeat split; fail); try assumption|]]].

Lemma post_quiet_then {A B : Type} (m : M A) (f : A -> M B) (s : machine)
      (Q : B -> machine -> list event -> Prop) :
  post m s (quiet_frame s) ->
  (forall a s1, kern s1 = kern s -> jiffies s1 = jiffies s ->
                same_config (dat s) (dat s1) -> post (f a) s1 Q) ->
  (forall b s' e1 e2, trans PIdle PIdle [] e1 -> Q b s' e2 -> Q b s' (e1 ++ e2)) ->
  post (bind m f) s Q.
Proof.
  intros Hm Hf HQ. eapply post_bind; [exact Hm|].
  intros a s1 e1 (Hk & Hj & Hc & Ht).
  eapply post_conseq; [apply (Hf a s1 Hk Hj Hc)|].
  intros b s' e2 H. apply HQ; assumption.
Qed.

Lemma quiet_frame_prefix {A : Type} (s : machine) (a : A) (s' : machine)
      (e1 e2 : list event) :
  trans PIdle PIdle [] e1 -> quiet_frame s a s' e2 -> quiet_frame s a s' (e1 ++ e2).
Proof.
  intros H1 (Hk & Hj & Hc & H2). frame_split.
  apply trans_quiet_l; assumption.
Qed.

Lemma post_quiet_bind {A B : Type} (m : M A) (f : A -> M B) (s : machine) :
  post m s (quiet_frame s) ->
  (forall a s1, post (f a) s1 (quiet_frame s1)) ->
  post (bind m f) s (quiet_frame s).
Proof.
  intros Hm Hf. apply post_quiet_then; [exact Hm | | ].
  - intros a s1 Hk Hj Hc. eapply post_conseq; [apply Hf|].
    intros b s' e (Hk' & Hj' & Hc' & Ht). split; [congruence|].
    split; [congruence|]. split; [|exact Ht].
    eapply same_config_trans; eassumption.
  - intros b s' e1 e2. apply quiet_frame_prefix.
Qed.

Lemma post_quiet_ret {A : Type} (a : A) (s : machine) :
  post (ret a) s (quiet_frame s).
Proof.
  apply post_ret. frame_split. apply trans_nil.
Qed.

Lemma post_quiet_reads {A : Type} (m : M A) (s : machine) :
  reads m -> (forall ins, trans PIdle PIdle [] (evs_of m ins)) ->
  post m s (quiet_frame s).
Proof.
  intros Hm Ht. apply post_reads; [exact Hm|]. frame_split. apply Ht.
Qed.

Lemma post_quiet_emit (e : event) (s : machine) :
  trans PIdle PIdle [] [e] -> post (emit e) s (quiet_frame s).
Proof. intros H. apply post_emit. frame_split. exact H. Qed.

Lemma post_quiet_modify (f : sht15_data -> sht15_data) (s : machine) :
  (forall d, same_config d (f d)) -> post (modify_data f) s (quiet_frame s).
Proof.
  intros H. apply post_modify_data. frame_split; [apply H|apply trans_nil].
Qed.

Lemma post_quiet_get_data (s : machine) : post get_data s (quiet_frame s).
Proof. apply (post_quiet_ret (dat s) s). Qed.

Lemma post_quiet_get_kernel (s : machine) : post get_kernel s (quiet_frame s).
Proof. apply (post_quiet_ret (kern s) s). Qed.

Lemma post_quiet_schedule_work (s : machine) :
  post schedule_work s (quiet_frame s).
Proof.
  eapply (post_exact schedule_work s tt _ [EvScheduleWork]);
    [reflexivity | reflexivity |].
  frame_split. trans_leaf.
Qed.

Lemma post_quiet_disable_irq (s : machine) :
  post disable_irq_nosync s (quiet_frame s).
Proof.
  eapply (post_exact disable_irq_nosync s tt _ [EvDisableIrq]);
    [reflexivity | reflexivity |].
  frame_split. trans_leaf.
Qed.

Ltac same_config_tac :=
  let d := fresh "d" in
  intros d; try destruct (state d); repeat split.

Ltac quiet_tac :=
  repeat match goal with
         | |- forall _, _ => intro
         | |- post (bind _ _) ?s (quiet_frame ?s) => apply post_quiet_bind
         | |- post (ret _) _ _ => apply post_quiet_ret
         | |- post get_data _ _ => apply post_quiet_get_data
         | |- post get_kernel _ _ => apply post_quiet_get_kernel
         | |- post schedule_work _ _ => apply post_quiet_schedule_work
         | |- post disable_irq_nosync _ _ => apply post_quiet_disable_irq
         | |- post (emit ?e) _ _ =>
             apply post_quiet_emit; apply (trans_quiet_event _ e); exact I
         | |- post (modify_data _) _ _ =>
             apply post_quiet_modify; same_config_tac
         | |- post (if ?c then _ else _) _ _ => destruct c
         | |- post sht15_read_byte _ _ =>
             apply post_quiet_reads; [reads_tac | apply trans_read_byte]
         | |- post sht15_ack _ _ =>
             apply post_quiet_reads; [reads_tac | intro; apply trans_ack]
         | |- post sht15_end_transmission _ _ =>
             apply post_quiet_reads;
             [reads_tac | intro; apply trans_end_transmission]
         | |- post sht15_connection_reset _ _ =>
             apply post_quiet_reads;
             [reads_tac | intro; apply trans_connection_reset]
         | H : forall s, post ?m s (quiet_frame s) |- post ?m _ _ => apply H
         end.

Lemma post_quiet_interrupt_fired (s : machine) :
  post sht15_interrupt_fired s (quiet_frame s).
Proof.
  unfold sht15_interrupt_fired, atomic_inc_unchecked. quiet_tac.
Qed.

Lemma post_quiet_irq_delivery (s : machine) :
  post irq_delivery s (quiet_frame s).
Proof.
  unfold post, irq_delivery.
  destruct (irq_enabled s); [|apply (post_quiet_ret false s)].
  destruct (irq_in s) as [|[|] rest]; [apply (post_quiet_ret false s)| |].
  - destruct (post_quiet_interrupt_fired (set_irq_in rest s))
      as (evs & Ht & H).
    destruct (sht15_interrupt_fired (set_irq_in rest s)) as [u s1].
    exists evs. split; [exact Ht | exact H].
  - exists []. split; [cbn; now rewrite app_nil_r|].
    frame_split. apply trans_nil.
Qed.

Lemma post_quiet_enable_irq (s : machine) : post enable_irq s (quiet_frame s).
Proof.
  unfold enable_irq. apply post_quiet_bind.
  - eapply (post_exact _ s tt _ [EvEnableIrq]); [reflexivity | reflexivity |].
    frame_split. trans_leaf.
  - intros _ s1. apply post_quiet_bind; [apply post_quiet_irq_delivery|].
    intros. apply post_quiet_ret.
Qed.

Lemma post_quiet_bh_read_data_ready (s : machine) :
  post sht15_bh_read_data_ready s (quiet_frame s).
Proof.
  unfold sht15_bh_read_data_ready, wake_up. quiet_tac.
Qed.

Lemma post_quiet_gpio_get_value (l : gpio_line) (s : machine) :
  post (gpio_get_value l) s (quiet_frame s).
Proof.
  apply post_quiet_reads; [reads_tac|].
  intros ins. destruct l, ins as [|[|] ins]; trans_compute.
Qed.

Lemma post_quiet_bh_read_data (s : machine) :
  post sht15_bh_read_data s (quiet_frame s).
Proof.
  pose proof post_quiet_bh_read_data_ready as Hr.
  pose proof post_quiet_enable_irq as He.
  unfold sht15_bh_read_data, atomic_set_unchecked.
  apply post_quiet_bind; [apply post_quiet_gpio_get_value|].
  intros v s1. destruct v; [|apply Hr].
  apply post_quiet_bind; [quiet_tac|]. intros _ s2.
  apply post_quiet_bind; [apply He|]. intros _ s3.
  apply post_quiet_bind; [apply post_quiet_gpio_get_value|]. intros v' s4.
  quiet_tac.
Qed.

Lemma post_quiet_wait_event_loop (fuel : nat) :
  forall s, post (wait_event_loop fuel) s (quiet_frame s).
Proof.
  induction fuel as [|fuel IH]; intros s; unfold post;
    cbn [wait_event_loop];
    destruct (sht15_state_eqb (state (dat s)) SHT15_READING_NOTHING);
    try apply (post_quiet_ret 1 s); try apply (post_quiet_ret 0 s).
  destruct (work_pending s).
  - assert (H : post (sht15_bh_read_data ;; wait_event_loop fuel)
                     (set_work_pending false s)
                     (quiet_frame (set_work_pending false s))).
    { apply post_quiet_bind; [apply post_quiet_bh_read_data|].
      intros _ s1. apply IH. }
    exact H.
  - assert (H : post (fired <- irq_delivery ;;
                      if fired then wait_event_loop fuel else ret 0)
                     s (quiet_frame s)).
    { apply post_quiet_bind; [apply post_quiet_irq_delivery|].
      intros fired s1. destruct fired; [apply IH|apply post_quiet_ret]. }
    exact H.
Qed.

(** *** One measurement *)

Lemma same_config_cache (d d' : sht15_data) :
  same_config d d' -> same_cache d d'.
Proof. unfold same_config, same_cache. intuition. Qed.

Lemma bind_get_data_post {B : Type} (f : sht15_data -> M B) (s : machine) Q :
  post (bind get_data f) s Q = post (f (dat s)) s Q.
Proof. reflexivity. Qed.

Lemma bind_get_kernel_post {B : Type} (f : kernel -> M B) (s : machine) Q :
  post (bind get_kernel f) s Q = post (f (kern s)) s Q.
Proof. reflexivity. Qed.

Lemma tail_post_prefix (k : kernel) (j : Z) (d0 : sht15_data) (wt : Z)
      (r : Z) (s' : machine) (e1 e2 : list event) :
  trans PIdle PIdle [] e1 -> tail_post k j d0 wt r s' e2 ->
  tail_post k j d0 wt r s' (e1 ++ e2).
Proof.
  intros H1 (Hk & Hj & Hc & w & Hw & Ho).
  split; [exact Hk|]. split; [exact Hj|]. split; [exact Hc|].
  exists w. split; [|exact Ho]. apply trans_quiet_l; assumption.
Qed.

Lemma post_wait_event_timeout (t : Z) (s : machine) :
  post (wait_event_timeout t) s
       (fun _ s' evs =>
          kern s' = kern s /\ jiffies s' = jiffies s
          /\ same_config (dat s) (dat s')
          /\ trans PIdle PIdle [WWait t] evs).
Proof.
  unfold wait_event_timeout.
  eapply (post_bind _ _ _
            (fun _ s1 e1 => s1 = io (data_in s) [EvWait t] s /\ e1 = [EvWait t])).
  - apply post_emit. split; reflexivity.
  - intros _ s1 e1 [Hs He]. subst s1 e1.
    eapply post_conseq;
      [apply (post_quiet_wait_event_loop
                (2 * length (irq_in (io (data_in s) [EvWait t] s)) + 2))|].
    intros r s' e (Hk & Hj & Hc & Ht).
    split; [exact Hk|]. split; [exact Hj|]. split; [exact Hc|].
    apply (trans_cons PIdle PIdle PIdle (WWait t) [] [EvWait t] e); [|exact Ht].
    intros b Hs Hp. cbn. auto.
Qed.

Lemma ret_post_prefix {A : Type} (x : A) (k : kernel) (j : Z)
      (d0 : sht15_data) (b : A) (s' : machine) (e1 e2 : list event) :
  trans PIdle PIdle [] e1 -> ret_post x k j d0 b s' e2 ->
  ret_post x k j d0 b s' (e1 ++ e2).
Proof.
  intros H1 (Hb & Hk & Hj & Hc & H2).
  split; [exact Hb|]. split; [exact Hk|]. split; [exact Hj|].
  split; [exact Hc|]. apply trans_quiet_l; assumption.
Qed.

Lemma post_ret_post {A : Type} (x : A) (s : machine) :
  post (ret x) s (ret_post x (kern s) (jiffies s) (dat s)).
Proof.
  apply post_ret. split; [reflexivity|]. split; [reflexivity|].
  split; [reflexivity|]. split; [apply same_config_refl|apply trans_nil].
Qed.

(** A quiet step before a run that satisfies [ret_post]. *)
Lemma post_quiet_ret_post {A B : Type} (m : M A) (f : A -> M B) (x : B)
      (s : machine) :
  post m s (quiet_frame s) ->
  (forall a s1, post (f a) s1 (ret_post x (kern s1) (jiffies s1) (dat s1))) ->
  post (bind m f) s (ret_post x (kern s) (jiffies s) (dat s)).
Proof.
  intros Hm Hf. apply post_quiet_then; [exact Hm| |].
  - intros a s1 Hk Hj Hc. eapply post_conseq; [apply Hf|].
    intros b s' e (Hb & Hk' & Hj' & Hc' & Ht).
    split; [exact Hb|]. split; [congruence|]. split; [congruence|].
    split; [eapply same_config_trans; eassumption | exact Ht].
  - intros b s' e1 e2. apply ret_post_prefix.
Qed.

(** The end of [sht15_measurement], from the wait on. *)
Lemma measurement_tail_post (t : Z) (s : machine) :
  post (r <- wait_event_timeout t ;;
        if r =? 0 then
          disable_irq_nosync ;; sht15_connection_reset ;; ret (- ETIME)
        else
          data <- get_data ;;
          if checksumming data && negb (checksum_ok data) then
            (r0 <- sht15_soft_reset ;;
             if negb (r0 =? 0) then ret r0
             else if negb (Z.land (val_status data) 0x07 =? 0) then
               r1 <- sht15_send_status (Z.land (val_status data) 0x07) ;;
               if negb (r1 =? 0) then dev_err ;; ret r1
               else ret (- EAGAIN)
             else ret (- EAGAIN))
          else ret 0)
       s (tail_post (kern s) (jiffies s) (dat s) t).
Proof.
  eapply post_bind; [apply post_wait_event_timeout|].
  intros r s1 e1 (Hk & Hj & Hc & Tw).
  destruct Hc as (Hv & Hcfg).
  assert (Hcache : same_cache (dat s) (dat s1)) by exact Hcfg.
  destruct (r =? 0).
  - assert (H : post (disable_irq_nosync ;; sht15_connection_reset ;;
                      ret (- ETIME)) s1
                     (ret_post (- ETIME) (kern s1) (jiffies s1) (dat s1))).
    { apply post_quiet_ret_post; [quiet_tac|]. intros _ s2.
      apply post_quiet_ret_post; [quiet_tac|]. intros _ s3.
      apply post_ret_post. }
    eapply post_conseq; [exact H|].
    intros b s' e2 (Hb & Hk' & Hj' & (Hv' & Hc') & Tq).
    split; [congruence|]. split; [congruence|].
    split; [unfold same_cache in *; intuition congruence|].
    exists [WWait t]. split; [apply trans_quiet_r; assumption|].
    rewrite Hb, Hv', Hv. apply mo_timeout.
  - rewrite bind_get_data_post.
    destruct (checksumming (dat s1) && negb (checksum_ok (dat s1))).
    + destruct (crc_recovery_run (Z.land (val_status (dat s1)) 7) s1)
        as (i' & e' & E & T).
      eapply post_exact; [exact E | apply trace_set_dat_io |].
      split; [exact Hk|]. split; [exact Hj|].
      rewrite dat_set_dat.
      split; [unfold same_cache in *; cbn; intuition congruence|].
      eexists. split; [apply (trans_cons _ _ _ _ _ _ _ Tw T)|].
      cbn [val_status set_val_status]. rewrite Hv.
      apply mo_recovered.
    + apply post_ret.
      split; [congruence|]. split; [congruence|]. split; [exact Hcache|].
      exists [WWait t]. split; [now rewrite app_nil_r|].
      rewrite Hv. apply mo_done.
Qed.

Lemma tail_post_transfer (k k' : kernel) (j j' : Z) (d0 d1 : sht15_data)
      (wt : Z) (r : Z) (s' : machine) (e : list event) :
  k' = k -> j' = j -> same_config d0 d1 ->
  tail_post k' j' d1 wt r s' e ->
  tail_post k j d0 wt r s' e.
Proof.
  intros Hk Hj (Hv & Hc) (Hk' & Hj' & Hc' & w & Tw & Ho).
  split; [congruence|]. split; [congruence|].
  split; [unfold same_cache in *; intuition congruence|].
  exists w. split; [exact Tw|]. now rewrite <- Hv.
Qed.

Ltac quiet_step :=
  apply post_quiet_then;
  [ quiet_tac
  | intros ? ? ? ? ?
  | intros; apply tail_post_prefix; assumption ].

Lemma measurement_post (command timeout_msecs : Z) (s : machine) :
  (u8 command =? SHT15_WRITE_STATUS) = false ->
  post (sht15_measurement command timeout_msecs) s
       (meas_post s command timeout_msecs).
Proof.
  intros Hcmd. unfold sht15_measurement.
  eapply (post_bind _ _ _
            (fun r s1 e1 =>
               r = (if hd true (data_in s) then - EIO else 0)
               /\ s1 = io (tl (data_in s)) e1 s
               /\ trans PIdle PIdle [WCmd (u8 command)] e1)).
  - apply post_reads; [reads_tac|].
    rewrite send_cmd_res, send_cmd_rest.
    split; [reflexivity|]. split; [reflexivity|].
    pose proof (trans_send_cmd command (data_in s)) as T.
    rewrite Hcmd, andb_false_r in T. exact T.
  - intros r s1 e1 (Hr & Hs & Tc). subst r s1.
    destruct (hd true (data_in s)).
    + change (negb (- EIO =? 0)) with true. cbv iota.
      apply post_ret.
      split; [reflexivity|]. split; [reflexivity|].
      split; [repeat split|].
      exists []. rewrite app_nil_r. split; [exact Tc | apply mo_nak].
    + change (negb (0 =? 0)) with false. cbv iota.
      set (s1 := io (tl (data_in s)) e1 s).
      assert (H : post
        (gpio_direction_input gpio_data ;;
         atomic_set_unchecked 0 ;;
         enable_irq ;;
         v <- gpio_get_value gpio_data ;;
         (if negb v then
            disable_irq_nosync ;;
            data <- get_data ;;
            if interrupt_handled data =? 0 then schedule_work else ret tt
          else ret tt) ;;
         k <- get_kernel ;;
         r <- wait_event_timeout (msecs_to_jiffies k timeout_msecs) ;;
         if r =? 0 then
           disable_irq_nosync ;; sht15_connection_reset ;; ret (- ETIME)
         else
           data <- get_data ;;
           if checksumming data && negb (checksum_ok data) then
             (r0 <- sht15_soft_reset ;;
             if negb (r0 =? 0) then ret r0
             else if negb (Z.land (val_status data) 0x07 =? 0) then
               r1 <- sht15_send_status (Z.land (val_status data) 0x07) ;;
               if negb (r1 =? 0) then dev_err ;; ret r1
               else ret (- EAGAIN)
             else ret (- EAGAIN))
           else ret 0)
        s1
        (tail_post (kern s) (jiffies s) (dat s)
                   (msecs_to_jiffies (kern s) timeout_msecs))).
      { unfold gpio_direction_input, atomic_set_unchecked.
        quiet_step. quiet_step.
        apply post_quiet_then;
          [apply post_quiet_enable_irq | intros ? ? ? ? ?
           | intros; apply tail_post_prefix; assumption].
        apply post_quiet_then;
          [apply post_quiet_gpio_get_value | intros ? ? ? ? ?
           | intros; apply tail_post_prefix; assumption].
        quiet_step.
        rewrite bind_get_kernel_post.
        assert (Hk1 : kern s1 = kern s) by reflexivity.
        assert (Hj1 : jiffies s1 = jiffies s) by reflexivity.
        match goal with
        | |- post _ ?sx _ =>
            assert (Hk : kern sx = kern s) by congruence;
            assert (Hj : jiffies sx = jiffies s) by congruence;
            assert (Hc : same_config (dat s) (dat sx))
              by (repeat (eapply same_config_trans; [|eassumption]);
                  apply same_config_refl)
        end.
        eapply post_conseq; [apply measurement_tail_post|].
        intros r s' e Ht. rewrite Hk in Ht.
        apply (tail_post_transfer _ _ _ _ _ _ _ _ _ _ eq_refl Hj Hc Ht). }
      eapply post_conseq; [exact H|].
      intros r s' e2 (Hk & Hj & Hc & w & Tw & Ho).
      split; [exact Hk|]. split; [exact Hj|]. split; [exact Hc|].
      exists w. split; [|exact Ho].
      apply (trans_cons _ _ _ _ _ _ _ Tc Tw).
Qed.

(** *** A measurement that times out *)

Lemma to_upd (d : sht15_data) (i : list bool) (e : list event) (s : machine) :
  set_dat d (io i e s)
  = upd d i (irq_in s) (irq_enabled s) (work_pending s) e s.
Proof. reflexivity. Qed.

Lemma upd_upd d1 i1 q1 en1 wp1 e1 d2 i2 q2 en2 wp2 e2 (s : machine) :
  upd d2 i2 q2 en2 wp2 e2 (upd d1 i1 q1 en1 wp1 e1 s)
  = upd d2 i2 q2 en2 wp2 (e1 ++ e2) s.
Proof. unfold upd. cbn. now rewrite app_assoc. Qed.

Lemma io_upd i e d1 i1 q1 en1 wp1 e1 (s : machine) :
  io i e (upd d1 i1 q1 en1 wp1 e1 s) = upd d1 i q1 en1 wp1 (e1 ++ e) s.
Proof. unfold upd, io. cbn. now rewrite app_assoc. Qed.

Lemma set_dat_upd d d1 i1 q1 en1 wp1 e1 (s : machine) :
  set_dat d (upd d1 i1 q1 en1 wp1 e1 s) = upd d i1 q1 en1 wp1 e1 s.
Proof. reflexivity. Qed.

Lemma dat_upd d1 i1 q1 en1 wp1 e1 (s : machine) :
  dat (upd d1 i1 q1 en1 wp1 e1 s) = d1.
Proof. reflexivity. Qed.

Lemma data_in_upd d1 i1 q1 en1 wp1 e1 (s : machine) :
  data_in (upd d1 i1 q1 en1 wp1 e1 s) = i1.
Proof. reflexivity. Qed.

Lemma irq_in_upd d1 i1 q1 en1 wp1 e1 (s : machine) :
  irq_in (upd d1 i1 q1 en1 wp1 e1 s) = q1.
Proof. reflexivity. Qed.

Lemma irq_enabled_upd d1 i1 q1 en1 wp1 e1 (s : machine) :
  irq_enabled (upd d1 i1 q1 en1 wp1 e1 s) = en1.
Proof. reflexivity. Qed.

Lemma work_pending_upd d1 i1 q1 en1 wp1 e1 (s : machine) :
  work_pending (upd d1 i1 q1 en1 wp1 e1 s) = wp1.
Proof. reflexivity. Qed.

Lemma kern_upd d1 i1 q1 en1 wp1 e1 (s : machine) :
  kern (upd d1 i1 q1 en1 wp1 e1 s) = kern s.
Proof. reflexivity. Qed.

Lemma trace_upd d1 i1 q1 en1 wp1 e1 (s : machine) :
  trace (upd d1 i1 q1 en1 wp1 e1 s) = trace s ++ e1.
Proof. reflexivity. Qed.

Ltac norm_upd :=
  repeat rewrite ?upd_upd, ?io_upd, ?set_dat_upd, ?dat_upd, ?data_in_upd,
    ?irq_in_upd, ?irq_enabled_upd, ?work_pending_upd, ?kern_upd.

Lemma never_fires_tl (irqs : list bool) :
  never_fires irqs -> never_fires (tl irqs).
Proof.
  intros H b Hb. apply H. destruct irqs; [contradiction | right; exact Hb].
Qed.

(** With no interrupt to come, a delivery point delivers nothing and only
    uses up an entry of [irq_in]. *)
Lemma irq_delivery_never (s : machine) :
  never_fires (irq_in s) ->
  irq_delivery s =
  (false, if irq_enabled s then set_irq_in (tl (irq_in s)) s else s).
Proof.
  intros H. unfold irq_delivery. destruct s as [k d j ins irqs en wp tr].
  cbn [irq_enabled irq_in] in *. destruct en; [|reflexivity].
  destruct irqs as [|[|] rest]; [reflexivity | | reflexivity].
  discriminate (H true (or_introl eq_refl)).
Qed.

Lemma enable_irq_never (s : machine) :
  never_fires (irq_in s) ->
  enable_irq s =
  (tt, upd (dat s) (data_in s) (tl (irq_in s)) true (work_pending s)
           [EvEnableIrq] s).
Proof.
  intros H. unfold enable_irq, bind.
  rewrite irq_delivery_never by exact H. reflexivity.
Qed.

Lemma disable_irq_run (s : machine) :
  disable_irq_nosync s =
  (tt, upd (dat s) (data_in s) (irq_in s) false (work_pending s)
           [EvDisableIrq] s).
Proof. reflexivity. Qed.

Lemma wait_event_timeout_never (t : Z) (s : machine) :
  state (dat s) <> SHT15_READING_NOTHING ->
  work_pending s = false ->
  irq_enabled s = true ->
  never_fires (irq_in s) ->
  wait_event_timeout t s =
  (0, upd (dat s) (data_in s) (tl (irq_in s)) true false [EvWait t] s).
Proof.
  intros Hst Hwp Hen Hirq.
  destruct s as [k d j ins irqs en wp tr].
  cbn [dat work_pending irq_enabled irq_in] in Hst, Hwp, Hen, Hirq.
  subst en wp.
  unfold wait_event_timeout, bind, emit, set_trace.
  cbn [kern dat jiffies data_in irq_in irq_enabled work_pending trace].
  replace (2 * length irqs + 2)%nat with (S (2 * length irqs + 1)) by lia.
  cbn [wait_event_loop dat work_pending].
  assert (E : sht15_state_eqb (state d) SHT15_READING_NOTHING = false).
  { destruct (state d); auto. contradiction Hst; reflexivity. }
  rewrite E. unfold bind.
  rewrite irq_delivery_never by exact Hirq. reflexivity.
Qed.

Lemma gpio_get_value_res (l : gpio_line) (ins : list bool) :
  res_of (gpio_get_value l) ins = hd true ins
  /\ rest_of (gpio_get_value l) ins = tl ins
  /\ evs_of (gpio_get_value l) ins = [EvGet l (hd true ins)].
Proof. repeat split. Qed.

Lemma measurement_timeout_run (command timeout_msecs : Z) (s : machine) :
  state (dat s) <> SHT15_READING_NOTHING ->
  work_pending s = false ->
  nak1 (data_in s) = false ->
  hd true (tl (data_in s)) = true ->
  never_fires (irq_in s) ->
  sht15_measurement command timeout_msecs s =
  (- ETIME,
   upd (set_interrupt_handled 0 (dat s)) (tl (tl (data_in s)))
       (tl (tl (irq_in s))) false false
       ((((((evs_of (sht15_send_cmd command) (data_in s)
            ++ [EvDirIn gpio_data])
           ++ [EvEnableIrq])
          ++ [EvGet gpio_data true])
         ++ [EvWait (msecs_to_jiffies (kern s) timeout_msecs)])
        ++ [EvDisableIrq])
       ++ evs_of sht15_connection_reset (tl (tl (data_in s)))) s).
Proof.
  intros Hst Hwp Hack Hhigh Hirq.
  unfold sht15_measurement. step.
  rewrite send_cmd_res, send_cmd_rest.
  unfold nak1 in Hack. rewrite Hack.
  change (negb (0 =? 0)) with false. cbv iota.
  unfold gpio_direction_input, atomic_set_unchecked. step. step.
  rewrite to_upd.
  match goal with
  | |- bind enable_irq _ ?S = _ =>
      rewrite (bind_run _ _ _ _ _ (enable_irq_never S Hirq))
  end.
  norm_upd.
  rewrite bind_reads by reads_tac. norm_upd.
  destruct (gpio_get_value_res gpio_data (tl (data_in s))) as (E1 & E2 & E3).
  rewrite E1, E2, E3, Hhigh.
  change (negb true) with false. cbv iota.
  rewrite bind_ret, bind_get_kernel. norm_upd.
  match goal with
  | |- bind (wait_event_timeout ?t) _ ?S = _ =>
      rewrite (bind_run _ _ _ _ _
                 (wait_event_timeout_never t S Hst Hwp eq_refl
                                           (never_fires_tl _ Hirq)))
  end.
  norm_upd.
  change (0 =? 0) with true. cbv iota.
  match goal with
  | |- bind disable_irq_nosync _ ?S = _ =>
      rewrite (bind_run _ _ _ _ _ (disable_irq_run S))
  end.
  norm_upd.
  rewrite bind_reads by reads_tac. norm_upd.
  rewrite (proj2 (trans_connection_reset _)).
  unfold ret. reflexivity.
Qed.

(** *** Refreshing the measurements *)

Lemma recovery_ret_nonzero (prev : Z) (ins : list bool) :
  recovery_ret prev ins <> 0.
Proof.
  unfold recovery_ret.
  destruct (nak1 ins), (prev =? 0), (nak1 (tl ins) || nak2 (tl ins));
    discriminate.
Qed.

(** A measurement that returns 0 waited once and left the mirror alone. *)
Lemma meas_outcome_ok (wt prev old m : Z) (w : list wire_item) :
  meas_outcome wt prev old 0 m w -> m = old /\ w = [WWait wt].
Proof.
  intros H. remember 0 as z eqn:Hz.
  destruct H; try discriminate; auto.
  exfalso. apply (recovery_ret_nonzero prev ins). exact Hz.
Qed.

Lemma bind_modify_data_post {B : Type} (g : sht15_data -> sht15_data)
      (f : unit -> M B) (s : machine) Q :
  post (bind (modify_data g) f) s Q = post (f tt) (set_dat (g (dat s)) s) Q.
Proof. reflexivity. Qed.

Lemma bind_get_jiffies_post {B : Type} (f : Z -> M B) (s : machine) Q :
  post (bind get_jiffies f) s Q = post (f (jiffies s)) s Q.
Proof. reflexivity. Qed.

Lemma update_measurements_refresh_post (s : machine) :
  post sht15_update_measurements_refresh s (refresh_post s).
Proof.
  unfold sht15_update_measurements_refresh.
  rewrite bind_modify_data_post.
  set (s1 := set_dat (set_state SHT15_READING_HUMID (dat s)) s).
  eapply post_bind;
    [apply (measurement_post SHT15_MEASURE_RH 160 s1); reflexivity|].
  intros r1 s2 e1 (Hk1 & Hj1 & Hc1 & w1 & T1 & O1).
  change (kern s1) with (kern s) in *. change (jiffies s1) with (jiffies s) in *.
  change (val_status (dat s1)) with (val_status (dat s)) in O1.
  assert (Hc1' : same_cache (dat s) (dat s2)) by exact Hc1. clear Hc1.
  destruct (Z.eqb_spec r1 0) as [E1|N1].
  - subst r1. cbn [negb].
    destruct (meas_outcome_ok _ _ _ _ _ O1) as [Hm1 Hw1]. subst w1.
    rewrite bind_modify_data_post.
    set (s3 := set_dat (set_state SHT15_READING_TEMP (dat s2)) s2).
    eapply post_bind;
      [apply (measurement_post SHT15_MEASURE_TEMP 400 s3); reflexivity|].
    intros r2 s4 e2 (Hk2 & Hj2 & Hc2 & w2 & T2 & O2).
    change (kern s3) with (kern s2) in *.
    change (jiffies s3) with (jiffies s2) in *.
    change (val_status (dat s3)) with (val_status (dat s2)) in O2.
    assert (Hc2' : same_cache (dat s2) (dat s4)) by exact Hc2. clear Hc2.
    rewrite Hk1, Hm1 in O2.
    assert (T12 : trans PIdle PIdle
              (WCmd SHT15_MEASURE_RH :: WWait (msecs_to_jiffies (kern s) 160)
               :: WCmd SHT15_MEASURE_TEMP :: w2) (e1 ++ e2)).
    { apply (trans_app _ _ _
               [WCmd SHT15_MEASURE_RH; WWait (msecs_to_jiffies (kern s) 160)]
               (WCmd SHT15_MEASURE_TEMP :: w2) _ _ T1 T2). }
    destruct (Z.eqb_spec r2 0) as [E2|N2].
    + subst r2. cbn [negb].
      destruct (meas_outcome_ok _ _ _ _ _ O2) as [Hm2 Hw2]. subst w2.
      rewrite bind_modify_data_post, bind_get_jiffies_post,
        bind_modify_data_post.
      apply post_ret. rewrite !app_nil_r.
      unfold same_cache in *.
      split; [cbn; congruence|]. split; [cbn; congruence|].
      split; [cbn; intuition congruence|].
      split; [cbn; intuition congruence|].
      exists true. eexists. split; [exact T12|].
      split; [apply ro_refreshed|]. split; reflexivity.
    + cbn [negb]. apply post_ret. rewrite !app_nil_r.
      unfold same_cache in *.
      split; [congruence|]. split; [congruence|].
      split; [intuition congruence|]. split; [intuition congruence|].
      exists false. eexists. split; [exact T12|].
      split; [eapply ro_temp_failed; eassumption|].
      split; intuition congruence.
  - destruct (r1 =? 0) eqn:E; [apply Z.eqb_eq in E; contradiction|].
    cbn [negb]. apply post_ret. rewrite app_nil_r.
    unfold same_cache in *.
    split; [exact Hk1|]. split; [exact Hj1|].
    split; [intuition congruence|]. split; [intuition congruence|].
    exists false. eexists. split; [exact T1|].
    split; [eapply ro_humid_failed; eassumption|].
    split; intuition congruence.
Qed.

Lemma refresh_post_lock (s : machine) (r : Z) (s2 : machine) (e : list event) :
  refresh_post (io (data_in s) [EvLock] s) r s2 e ->
  refresh_post s r (io (data_in s2) [EvUnlock] s2) (([EvLock] ++ e) ++ [EvUnlock]).
Proof.
  intros (Hk & Hj & Hv & Hl & marked & w & T & O & Hm).
  split; [exact Hk|]. split; [exact Hj|]. split; [exact Hv|].
  split; [exact Hl|]. exists marked, w.
  split; [|split; [exact O | exact Hm]].
  apply trans_quiet_r; [|trans_leaf].
  apply trans_quiet_l; [trans_leaf | exact T].
Qed.

Lemma bind_ret_post {A B : Type} (a : A) (f : A -> M B) (s : machine) Q :
  post (bind (ret a) f) s Q = post (f a) s Q.
Proof. reflexivity. Qed.

Lemma update_measurements_post (s : machine) :
  post sht15_update_measurements s
       (fun r s' evs =>
          if meas_due s then refresh_post s r s' evs
          else r = 0 /\ s' = io (data_in s) [EvLock; EvUnlock] s
               /\ evs = [EvLock; EvUnlock]).
Proof.
  unfold sht15_update_measurements, mutex_lock, mutex_unlock, meas_due.
  rewrite bind_get_kernel_post.
  eapply (post_bind _ _ _
            (fun _ s1 e1 => s1 = io (data_in s) [EvLock] s /\ e1 = [EvLock])).
  { apply post_emit. split; reflexivity. }
  intros _ s1 e1 [Hs He]. subst s1 e1.
  rewrite bind_get_jiffies_post, bind_get_data_post. norm_machine.
  destruct (time_after (jiffies s) (last_measurement (dat s) + HZ (kern s))
            || negb (measurements_valid (dat s))).
  - eapply post_bind; [apply update_measurements_refresh_post|].
    intros r s2 e2 H.
    eapply (post_bind _ _ _
              (fun _ s3 e3 => s3 = io (data_in s2) [EvUnlock] s2
                              /\ e3 = [EvUnlock])).
    { apply post_emit. split; reflexivity. }
    intros _ s3 e3 [Hs He]. subst s3 e3.
    apply post_ret. rewrite app_nil_r, app_assoc.
    apply refresh_post_lock. exact H.
  - rewrite bind_ret_post.
    eapply (post_bind _ _ _
              (fun _ s3 e3 => s3 = io (data_in s) [EvLock; EvUnlock] s
                              /\ e3 = [EvUnlock])).
    { apply post_emit. norm_machine. split; reflexivity. }
    intros _ s3 e3 [Hs He]. subst s3 e3.
    apply post_ret. repeat split.
Qed.

Lemma count_cmd_cons (c : Z) (a : wire_item) (l : list wire_item) :
  count_cmd c (a :: l)
  = ((if is_cmd c a then 1 else 0) + count_cmd c l)%nat.
Proof. unfold count_cmd. cbn [filter]. destruct (is_cmd c a); reflexivity. Qed.

(** After its command a measurement frames no measurement command, and any
    status byte it writes is the masked mirror. *)
Lemma meas_outcome_facts (wt prev old r m : Z) (w : list wire_item) :
  meas_outcome wt prev old r m w ->
  count_cmd SHT15_MEASURE_RH w = 0%nat
  /\ count_cmd SHT15_MEASURE_TEMP w = 0%nat
  /\ (forall b, In (WStatus b) w -> b = u8 prev)
  /\ (forall t, In (WWait t) w -> t = wt).
Proof.
  intros H. destruct H.
  - repeat split; intros ? [].
  - repeat split; intros ? [E|[]]; congruence.
  - repeat split; intros ? [E|[]]; congruence.
  - destruct (count_recovery_wire prev ins) as (_ & _ & _ & C1 & C2).
    rewrite !count_cmd_cons, C1, C2.
    split; [reflexivity|]. split; [reflexivity|].
    unfold recovery_wire.
    destruct (nak1 ins), (prev =? 0), (nak1 (tl ins)); split;
      intros ? H; cbn in H; intuition congruence.
Qed.

Lemma refresh_outcome_facts (k : kernel) (prev old r : Z) (marked : bool)
      (w : list wire_item) :
  refresh_outcome k prev old r marked w ->
  hd_error w = Some (WCmd SHT15_MEASURE_RH)
  /\ count_cmd SHT15_MEASURE_RH w = 1%nat
  /\ (count_cmd SHT15_MEASURE_TEMP w <= 1)%nat
  /\ (marked = true <-> r = 0)
  /\ (forall b, In (WStatus b) w -> b = u8 prev).
Proof.
  intros H. destruct H as [r m w O N | r m w O N | ].
  - destruct (meas_outcome_facts _ _ _ _ _ _ O) as (C1 & C2 & Hs & _).
    rewrite !count_cmd_cons, C1, C2.
    split; [reflexivity|]. split; [reflexivity|]. split; [cbn; lia|].
    split; [split; [discriminate | intros; contradiction]|].
    intros b [E|Hb]; [discriminate | auto].
  - destruct (meas_outcome_facts _ _ _ _ _ _ O) as (C1 & C2 & Hs & _).
    rewrite !count_cmd_cons, C1, C2.
    split; [reflexivity|]. split; [reflexivity|]. split; [cbn; lia|].
    split; [split; [discriminate | intros; contradiction]|].
    intros b [E|[E|[E|Hb]]]; try discriminate. auto.
  - split; [reflexivity|]. split; [reflexivity|]. split; [cbn; lia|].
    split; [split; reflexivity|].
    intros b [E|[E|[E|[E|[]]]]]; discriminate.
Qed.

(** ** The claims on the protocol code *)

(** *** Example machines *)

(** *** C2 *)

Lemma land_7_u8 (x : Z) : u8 (Z.land x 7) = Z.land x 7.
Proof. apply u8_small. pose proof (land_7_range x). lia. Qed.

Lemma land_7_bits (x : Z) :
  Z.land (Z.land x 7) SHT15_STATUS_HEATER = Z.land x SHT15_STATUS_HEATER
  /\ Z.land (Z.land x 7) 3 = Z.land x 3
  /\ Z.shiftr (Z.land x 7) 3 = 0.
Proof.
  split; [|split].
  - rewrite <- Z.land_assoc. reflexivity.
  - rewrite <- Z.land_assoc. reflexivity.
  - pose proof (land_7_range x) as H.
    rewrite Z.shiftr_div_pow2 by lia. apply Z.div_small. exact H.
Qed.

Lemma status_refresh_wire_status (d : sht15_data) (ins : list bool) (b : Z) :
  In (WStatus b) (status_refresh_wire d ins) ->
  b = u8 (Z.land (val_status d) 7).
Proof.
  unfold status_refresh_wire, recovery_wire.
  destruct (negb (nak1 ins) && checksumming d && negb (status_crc_ok d ins)),
    (nak1 (status_recovery_in ins)), (Z.land (val_status d) 7 =? 0),
    (nak1 (tl (status_recovery_in ins)));
    cbn; intuition congruence.
Qed.

Lemma update_status_wire (s : machine) :
  wire (emitted sht15_update_status s)
  = if status_due s then status_refresh_wire (dat s) (data_in s) else [].
Proof.
  destruct (update_status_run s) as (ins' & evs & E & T & _).
  rewrite (emitted_exact _ _ _ _ _ E (trace_set_dat_io _ _ _ _)).
  apply (trans_wire _ _ _ T).
Qed.

Lemma measurement_wire_status (command timeout_msecs : Z) (s : machine) (b : Z) :
  (u8 command =? SHT15_WRITE_STATUS) = false ->
  In (WStatus b) (wire (emitted (sht15_measurement command timeout_msecs) s)) ->
  b = u8 (Z.land (val_status (dat s)) 7).
Proof.
  intros Hc Hb.
  destruct (post_emitted _ _ _ (measurement_post command timeout_msecs s Hc))
    as (_ & _ & _ & w & T & O).
  rewrite (trans_wire _ _ _ T) in Hb.
  destruct (meas_outcome_facts _ _ _ _ _ _ O) as (_ & _ & Hs & _).
  destruct Hb as [E|Hb]; [discriminate | auto].
Qed.

Lemma update_measurements_wire_status (s : machine) (b : Z) :
  In (WStatus b) (wire (emitted sht15_update_measurements s)) ->
  b = u8 (Z.land (val_status (dat s)) 7).
Proof.
  intros Hb. pose proof (post_emitted _ _ _ (update_measurements_post s)) as H.
  cbv beta in H. destruct (meas_due s).
  - destruct H as (_ & _ & _ & _ & marked & w & T & O & _).
    rewrite (trans_wire _ _ _ T) in Hb.
    destruct (refresh_outcome_facts _ _ _ _ _ _ O) as (_ & _ & _ & _ & Hs).
    auto.
  - destruct H as (_ & _ & E). rewrite E in Hb.
    cbn in Hb. contradiction.
Qed.

(** C2 (as the driver behaves): whichever path runs the recovery, a status
    byte it writes back is the previous mirror masked with 0x07.  It keeps
    the heater bit along with the low-resolution and no-OTP-reload bits;
    only the bits above the low three are dropped. *)
Theorem sht15_recovery_restores_low_bits (s : machine) (b : Z) :
  In (WStatus b) (wire (emitted sht15_update_status s))
  \/ In (WStatus b) (wire (emitted sht15_update_measurements s))
  \/ In (WStatus b)
        (wire (emitted (sht15_measurement SHT15_MEASURE_RH 160) s))
  \/ In (WStatus b)
        (wire (emitted (sht15_measurement SHT15_MEASURE_TEMP 400) s)) ->
  b = Z.land (val_status (dat s)) 0x07
  /\ Z.land b SHT15_STATUS_HEATER
     = Z.land (val_status (dat s)) SHT15_STATUS_HEATER
  /\ Z.land b 3 = Z.land (val_status (dat s)) 3
  /\ Z.shiftr b 3 = 0.
Proof.
  intros H.
  assert (E : b = Z.land (val_status (dat s)) 7).
  { rewrite <- land_7_u8.
    destruct H as [H|[H|[H|H]]].
    - rewrite update_status_wire in H.
      destruct (status_due s); [|contradiction].
      eapply status_refresh_wire_status; eassumption.
    - apply update_measurements_wire_status; exact H.
    - eapply measurement_wire_status; [|exact H]. reflexivity.
    - eapply measurement_wire_status; [|exact H]. reflexivity. }
  subst b. split; [reflexivity|]. apply land_7_bits.
Qed.

Lemma sht15_recovery_restores_low_bits_witness :
  In (WStatus 4) (wire (emitted sht15_update_status heater_status_machine))
  /\ Z.land 4 SHT15_STATUS_HEATER
     = Z.land (val_status (dat heater_status_machine)) SHT15_STATUS_HEATER.
Proof.
  assert (H : In (WStatus 4)
                 (wire (emitted sht15_update_status heater_status_machine))).
  { vm_compute. tauto. }
  split; [exact H|].
  apply (sht15_recovery_restores_low_bits heater_status_machine 4).
  left. exact H.
Defined.

(** C2 as written does not hold: with the heater on (mirror 4), the
    recovery of either path writes the status byte 4 back and the mirror
    ends with the heater bit set. *)
Lemma sht15_recovery_keeps_heater :
  Z.land (val_status (dat heater_status_machine)) SHT15_STATUS_HEATER
  = SHT15_STATUS_HEATER
  /\ wire (emitted sht15_update_status heater_status_machine)
     = [WCmd SHT15_READ_STATUS; WCmd SHT15_SOFT_RESET; WSleep 11;
        WCmd SHT15_WRITE_STATUS; WStatus 4]
  /\ Z.land (val_status (dat (snd (sht15_update_status heater_status_machine))))
            SHT15_STATUS_HEATER
     = SHT15_STATUS_HEATER
  /\ wire (emitted sht15_update_measurements heater_measurement_machine)
     = [WCmd SHT15_MEASURE_RH; WWait 16; WCmd SHT15_SOFT_RESET; WSleep 11;
        WCmd SHT15_WRITE_STATUS; WStatus 4]
  /\ Z.land (val_status
               (dat (snd (sht15_update_measurements heater_measurement_machine))))
            SHT15_STATUS_HEATER
     = SHT15_STATUS_HEATER.
Proof. repeat split; vm_compute; reflexivity. Qed.

(** *** C3 *)

Lemma trans_get_idle (l : gpio_line) (v : bool) :
  trans PIdle PIdle [] [EvGet l v].
Proof.
  intros b Hs Hp. destruct b as [sck d p]. cbn in Hs, Hp. subst.
  destruct l; cbn; auto.
Qed.

Lemma trans_wait (p : phase) (t : Z) : trans p p [WWait t] [EvWait t].
Proof. intros b Hs Hp. cbn. auto. Qed.

Lemma refresh_first_command (s : machine) :
  hd_error (wire (emitted sht15_update_measurements_refresh s))
  = Some (WCmd SHT15_MEASURE_RH).
Proof.
  destruct (post_emitted _ _ _ (update_measurements_refresh_post s))
    as (_ & _ & _ & _ & marked & w & T & O & _).
  rewrite (trans_wire _ _ _ T).
  apply (refresh_outcome_facts _ _ _ _ _ _ O).
Qed.

(** C3 (as the driver behaves): when the command is acknowledged, the data
    line is still high at the check after arming, and no interrupt ever
    comes, the measurement waits with its timeout, disables the interrupt,
    resets the connection and returns -ETIME.  [data->state] is left as the
    caller set it, not idle; the next refresh is not blocked by that, since
    it sets the state itself and frames the humidity command first. *)
Theorem sht15_measurement_timeout (command timeout_msecs : Z) (s : machine) :
  (u8 command =? SHT15_WRITE_STATUS) = false ->
  state (dat s) <> SHT15_READING_NOTHING ->
  work_pending s = false ->
  nak1 (data_in s) = false ->
  hd true (tl (data_in s)) = true ->
  never_fires (irq_in s) ->
  let run := sht15_measurement command timeout_msecs in
  fst (run s) = - ETIME
  /\ wire (emitted run s)
     = [WCmd (u8 command); WWait (msecs_to_jiffies (kern s) timeout_msecs)]
  /\ (exists pre,
        emitted run s
        = (pre ++ [EvDisableIrq])
          ++ evs_of sht15_connection_reset (tl (tl (data_in s))))
  /\ state (dat (snd (run s))) = state (dat s)
  /\ state (dat (snd (run s))) <> SHT15_READING_NOTHING
  /\ irq_enabled (snd (run s)) = false
  /\ hd_error (wire (emitted sht15_update_measurements_refresh (snd (run s))))
     = Some (WCmd SHT15_MEASURE_RH).
Proof.
  intros Hcmd Hst Hwp Hack Hhigh Hirq. cbv zeta.
  pose proof (measurement_timeout_run command timeout_msecs s
                Hst Hwp Hack Hhigh Hirq) as E.
  rewrite (emitted_exact _ _ _ _ _ E (trace_upd _ _ _ _ _ _ _)).
  split; [now rewrite E|]. split.
  { apply (trans_wire PIdle).
    apply trans_quiet_r; [|trans_leaf].
    apply trans_quiet_r; [|trans_leaf].
    apply (trans_app _ PIdle _ [WCmd (u8 command)]
                     [WWait (msecs_to_jiffies (kern s) timeout_msecs)]);
      [|apply trans_wait].
    apply trans_quiet_r; [|apply trans_get_idle].
    apply trans_quiet_r; [|trans_leaf].
    apply trans_quiet_r; [|trans_leaf].
    pose proof (trans_send_cmd command (data_in s)) as T.
    rewrite Hcmd, andb_false_r in T. exact T. }
  split; [eexists; reflexivity|].
  rewrite E. cbn [snd]. rewrite dat_upd, irq_enabled_upd.
  split; [reflexivity|]. split; [exact Hst|]. split; [reflexivity|].
  apply refresh_first_command.
Qed.

Lemma sht15_measurement_timeout_witness :
  fst (sht15_measurement SHT15_MEASURE_RH 160 timeout_machine) = - ETIME
  /\ wire (emitted (sht15_measurement SHT15_MEASURE_RH 160) timeout_machine)
     = [WCmd SHT15_MEASURE_RH; WWait 16].
Proof.
  destruct (sht15_measurement_timeout SHT15_MEASURE_RH 160 timeout_machine)
    as (Hr & Hw & _); try reflexivity.
  - discriminate.
  - intros b H. cbn in H. intuition.
  - split; [exact Hr | exact Hw].
Defined.

(** C3 as written does not hold: after the timeout the state is still
    [SHT15_READING_HUMID], not idle. *)
Lemma sht15_measurement_timeout_not_idle :
  state (dat timeout_machine) = SHT15_READING_HUMID
  /\ work_pending timeout_machine = false
  /\ nak1 (data_in timeout_machine) = false
  /\ hd true (tl (data_in timeout_machine)) = true
  /\ irq_in timeout_machine = [false; false; false]
  /\ fst (sht15_measurement SHT15_MEASURE_RH 160 timeout_machine) = - ETIME
  /\ state (dat (snd (sht15_measurement SHT15_MEASURE_RH 160 timeout_machine)))
     = SHT15_READING_HUMID
  /\ state (dat (snd (sht15_measurement SHT15_MEASURE_RH 160 timeout_machine)))
     <> SHT15_READING_NOTHING.
Proof. repeat split; vm_compute; congruence. Qed.

(** *** C8 *)



(** *** Accesses served from the cache *)

(** Below half the range of the tick counter, [time_after] compares the age
    of a timestamp with the window. *)
Lemma time_after_age (now last hz : Z) :
  0 <= hz < 2147483648 ->
  (now - last) mod 4294967296 < 2147483648 ->
  time_after now (last + hz) = (hz <? (now - last) mod 4294967296).
Proof.
  intros Hz Hage. unfold time_after, int32.
  destruct (Z.ltb_spec hz ((now - last) mod 4294967296)) as [H|H];
    [apply Z.ltb_lt | apply Z.ltb_ge];
    Z.div_mod_to_equations; lia.
Qed.


Lemma update_status_fresh (s : machine) :
  status_due s = false ->
  sht15_update_status s = (0, io (data_in s) [EvLock; EvUnlock] s).
Proof.
  intros H. destruct (update_status_run s) as (ins' & evs & E & _ & Hf).
  rewrite H in E. destruct (Hf H) as [Hi He]. subst ins' evs.
  now rewrite set_dat_io_same in E.
Qed.

Lemma update_measurements_fresh (s : machine) :
  meas_due s = false ->
  sht15_update_measurements s = (0, io (data_in s) [EvLock; EvUnlock] s).
Proof.
  intros H. pose proof (post_emitted _ _ _ (update_measurements_post s)) as P.
  cbv beta in P. rewrite H in P. destruct P as (Hr & Hs & _).
  rewrite (surjective_pairing (sht15_update_measurements s)).
  now rewrite Hr, Hs.
Qed.

(** *** The fuel of the wait is enough *)

Lemma calm_ret {A : Type} (a : A) : calm (ret a).
Proof. intros s. cbn. lia. Qed.

Lemma calm_bind {A B : Type} (m : M A) (f : A -> M B) :
  calm m -> (forall a, calm (f a)) -> calm (bind m f).
Proof.
  intros Hm Hf s. unfold bind. specialize (Hm s).
  destruct (m s) as [a s1]. cbn [snd] in Hm.
  specialize (Hf a s1). lia.
Qed.

Lemma calm_reads {A : Type} (m : M A) : reads m -> calm m.
Proof. intros Hm s. rewrite (Hm s). cbn. lia. Qed.

Lemma calm_modify_data (f : sht15_data -> sht15_data) : calm (modify_data f).
Proof. intros s. cbn. lia. Qed.

Lemma calm_get_data : calm get_data.
Proof. intros s. cbn. lia. Qed.

(** A delivery point uses up an entry; when the handler runs it queues the
    work at most once, so something is used up for good. *)
Lemma irq_delivery_steps (s : machine) :
  (pending_steps (snd (irq_delivery s)) <= pending_steps s)%nat
  /\ (fst (irq_delivery s) = true ->
      (pending_steps (snd (irq_delivery s)) < pending_steps s)%nat).
Proof.
  unfold irq_delivery, pending_steps.
  destruct s as [k d j ins irqs en wp tr].
  cbn [irq_enabled irq_in work_pending].
  destruct en; [|cbn; split; [lia|discriminate]].
  destruct irqs as [|[|] rest]; [cbn; split; [lia|discriminate] | |].
  - destruct (state d) eqn:Hst, wp; cbn; rewrite Hst; cbn; split; lia.
  - cbn [fst snd set_irq_in irq_in work_pending length].
    split; [lia|discriminate].
Qed.

Lemma calm_irq_delivery : calm irq_delivery.
Proof. intros s. apply irq_delivery_steps. Qed.

Lemma calm_enable_irq : calm enable_irq.
Proof.
  unfold enable_irq. apply calm_bind.
  - intros s. cbn. lia.
  - intros _. apply calm_bind; [apply calm_irq_delivery|].
    intros _. apply calm_ret.
Qed.

Ltac calm_tac :=
  repeat match goal with
         | |- forall _, _ => intro
         | |- calm (bind _ _) => apply calm_bind
         | |- calm (ret _) => apply calm_ret
         | |- calm get_data => apply calm_get_data
         | |- calm (modify_data _) => apply calm_modify_data
         | |- calm enable_irq => apply calm_enable_irq
         | |- calm (if ?c then _ else _) => destruct c
         | |- calm _ => apply calm_reads; solve [reads_tac]
         end.

Lemma calm_bh_read_data_ready : calm sht15_bh_read_data_ready.
Proof. unfold sht15_bh_read_data_ready, wake_up. calm_tac. Qed.

Lemma calm_bh_read_data : calm sht15_bh_read_data.
Proof.
  pose proof calm_bh_read_data_ready as Hr.
  unfold sht15_bh_read_data, atomic_set_unchecked.
  apply calm_bind; [apply calm_reads; reads_tac|]. intros v.
  destruct v; [|exact Hr].
  apply calm_bind; [apply calm_modify_data|]. intros _.
  apply calm_bind; [apply calm_enable_irq|]. intros _.
  apply calm_bind; [apply calm_reads; reads_tac|]. intros v'.
  apply calm_bind; [apply calm_get_data|]. intros data.
  destruct (v' || negb (interrupt_handled data =? 0));
    [apply calm_ret | exact Hr].
Qed.

(** With more fuel than steps can still happen, the wait does not depend on
    the fuel: it never ends for lack of fuel. *)
Lemma wait_event_loop_fuel (n : nat) :
  forall m s,
    (pending_steps s < n)%nat -> (pending_steps s < m)%nat ->
    wait_event_loop n s = wait_event_loop m s.
Proof.
  induction n as [|n IH]; intros m s Hn Hm; [lia|].
  destruct m as [|m]; [lia|].
  cbn [wait_event_loop].
  destruct (sht15_state_eqb (state (dat s)) SHT15_READING_NOTHING);
    [reflexivity|].
  destruct (work_pending s) eqn:Hwp.
  - unfold bind.
    pose proof (calm_bh_read_data (set_work_pending false s)) as Hc.
    destruct (sht15_bh_read_data (set_work_pending false s)) as [u s1].
    cbn [snd] in Hc. unfold pending_steps in Hn, Hm, Hc |- *.
    cbn [irq_in work_pending set_work_pending] in Hc.
    rewrite Hwp in Hn, Hm.
    apply IH; unfold pending_steps; lia.
  - unfold bind.
    destruct (irq_delivery_steps s) as [_ Hlt].
    destruct (irq_delivery s) as [fired s1]. cbn [fst snd] in Hlt.
    destruct fired; [|reflexivity].
    specialize (Hlt eq_refl). apply IH; lia.
Qed.

Lemma wait_event_timeout_fuel (t : Z) (s : machine) (n : nat) :
  (2 * length (irq_in s) + 2 <= n)%nat ->
  wait_event_timeout t s = (emit (EvWait t) ;; wait_event_loop n) s.
Proof.
  intros Hn. unfold wait_event_timeout, bind, emit.
  apply wait_event_loop_fuel; unfold pending_steps;
    cbn [irq_in work_pending set_trace]; destruct (work_pending s); lia.
Qed.

Lemma quot_chord_upper (s v k w : Z) :
  0 < w -> k <= 0 -> v <= s -> Z.quot ((s - v) * k) w <= 0.
Proof.
  intros Hw Hk Hs.
  apply (quot_nonpos_range ((s - v) * k) w); [nia | lia].
Qed.

Lemma quot_chord_lower (s v k w : Z) :
  0 < w -> k <= 0 -> v <= s <= v + w -> k <= Z.quot ((s - v) * k) w.
Proof.
  intros Hw Hk Hs.
  replace k with (Z.quot (k * w) w) at 1 by (apply Z.quot_mul; lia).
  apply Z.quot_le_mono; [lia | nia].
Qed.

Lemma quot_chord_mono (s1 s2 v k w : Z) :
  0 < w -> k <= 0 -> s1 <= s2 ->
  Z.quot ((s2 - v) * k) w <= Z.quot ((s1 - v) * k) w.
Proof. intros Hw Hk Hs. apply Z.quot_le_mono; [lia | nia]. Qed.

Lemma quot_chord_floor (s v k w : Z) :
  0 < w -> k <= 0 -> v <= s -> (s - v) * k <= Z.quot ((s - v) * k) w.
Proof.
  intros Hw Hk Hs.
  apply (quot_nonpos_range ((s - v) * k) w); [nia | lia].
Qed.

Lemma quot_range (a b lo hi : Z) :
  0 < b -> lo * b <= a <= hi * b -> lo <= Z.quot a b <= hi.
Proof.
  intros Hb [Hl Hh]. split.
  - replace lo with (Z.quot (lo * b) b) by (apply Z.quot_mul; lia).
    apply Z.quot_le_mono; lia.
  - replace hi with (Z.quot (hi * b) b) by (apply Z.quot_mul; lia).
    apply Z.quot_le_mono; lia.
Qed.

Lemma interpolate_wide (lo hi : sht15_temppair) (supply : Z) :
  1000 <= vdd hi - vdd lo <= 1000000 ->
  -300 <= d1 hi - d1 lo <= 0 ->
  -50000 <= d1 lo <= 0 ->
  vdd lo < supply <= vdd lo + 7158278 ->
  interpolate lo hi supply =
  d1 lo + Z.quot ((supply - vdd lo) * (d1 hi - d1 lo)) (vdd hi - vdd lo).
Proof.
  intros Hv Hd Hl Hs. unfold interpolate.
  rewrite (int32_small (supply - vdd lo)) by lia.
  rewrite (int32_small (d1 hi - d1 lo)) by lia.
  rewrite (int32_small (vdd hi - vdd lo)) by lia.
  rewrite (int32_small ((supply - vdd lo) * (d1 hi - d1 lo))) by nia.
  pose proof (quot_range ((supply - vdd lo) * (d1 hi - d1 lo))
                         (vdd hi - vdd lo) (-2147484) 0) as Hq.
  rewrite int32_small; [lia|].
  assert (-2147484 * (vdd hi - vdd lo) <= (supply - vdd lo) * (d1 hi - d1 lo) <= 0 * (vdd hi - vdd lo)) by nia.
  lia.
Qed.

Lemma temp_offset_exact (supply : Z) :
  supply <= 11158278 ->
  sht15_temp_offset supply = sht15_temp_offset_exact supply.
Proof.
  intros Hs. rewrite temp_offset_unfold. unfold sht15_temp_offset_exact.
  gtb_cases; try reflexivity;
    rewrite interpolate_wide by (cbn; lia); reflexivity.
Qed.

Ltac chord s v k w :=
  try (pose proof (quot_chord_upper s v k w ltac:(lia) ltac:(lia) ltac:(lia)));
  try (pose proof (quot_chord_lower s v k w ltac:(lia) ltac:(lia) ltac:(lia))).

Ltac chord_facts s :=
  chord s 4000000 (-300) 1000000; chord s 3500000 (-100) 500000;
  chord s 3000000 (-100) 500000; chord s 2500000 (-200) 500000.

Lemma temp_offset_exact_mono (s1 s2 : Z) :
  s1 <= s2 -> sht15_temp_offset_exact s2 <= sht15_temp_offset_exact s1 <= -39400.
Proof.
  intros Hs. unfold sht15_temp_offset_exact.
  pose proof (quot_chord_mono s1 s2 4000000 (-300) 1000000).
  pose proof (quot_chord_mono s1 s2 3500000 (-100) 500000).
  pose proof (quot_chord_mono s1 s2 3000000 (-100) 500000).
  pose proof (quot_chord_mono s1 s2 2500000 (-200) 500000).
  destruct (Z.gtb_spec s1 4000000); [|destruct (Z.gtb_spec s1 3500000);
    [|destruct (Z.gtb_spec s1 3000000); [|destruct (Z.gtb_spec s1 2500000)]]];
  (destruct (Z.gtb_spec s2 4000000); [|destruct (Z.gtb_spec s2 3500000);
    [|destruct (Z.gtb_spec s2 3000000); [|destruct (Z.gtb_spec s2 2500000)]]]);
  try (exfalso; lia); chord_facts s1; chord_facts s2; lia.
Qed.

Lemma temp_offset_exact_lower (s : Z) :
  s <= 5000000 -> -40100 <= sht15_temp_offset_exact s.
Proof.
  intros Hs. unfold sht15_temp_offset_exact.
  destruct (Z.gtb_spec s 4000000); [|destruct (Z.gtb_spec s 3500000);
    [|destruct (Z.gtb_spec s 3000000); [|destruct (Z.gtb_spec s 2500000)]]];
  chord_facts s; lia.
Qed.

(** X1: the temperature offset never rises with the supply voltage;
    between the table's end points it stays between their offsets, and at each
    table voltage it is the table's offset. *)
Theorem sht15_temp_offset_monotone (s1 s2 : Z) :
  s1 <= s2 -> s2 <= 11158278 ->
  sht15_temp_offset s2 <= sht15_temp_offset s1
  /\ sht15_temp_offset s1 <= d1 (temppoint 0)
  /\ (s2 <= vdd (temppoint 4) -> d1 (temppoint 4) <= sht15_temp_offset s2)
  /\ Forall (fun p => sht15_temp_offset (vdd p) = d1 p) temppoints.
Proof.
  intros H12 H2.
  rewrite !temp_offset_exact by lia.
  pose proof (temp_offset_exact_mono s1 s2 H12) as Hm.
  split; [lia|]. split; [exact (proj2 Hm)|]. split.
  - intros H5. apply temp_offset_exact_lower. exact H5.
  - repeat constructor.
Qed.

Lemma sht15_temp_offset_monotone_witness :
  sht15_temp_offset 3300000 <= sht15_temp_offset 2900000
  /\ sht15_temp_offset 2900000 <= d1 (temppoint 0).
Proof.
  pose proof (sht15_temp_offset_monotone 2900000 3300000) as H.
  destruct H as [H1 [H2 _]]; [lia | lia |].
  split; [exact H1 | exact H2].
Defined.

Lemma temp_offset_range (s : Z) :
  s <= 11158278 -> -41947 <= sht15_temp_offset s <= -39400.
Proof.
  intros Hs. rewrite temp_offset_exact by lia.
  pose proof (temp_offset_exact_mono s 11158278 Hs) as H.
  change (sht15_temp_offset_exact 11158278) with (-41947) in H. lia.
Qed.

Lemma temp_slope_cases (status : Z) :
  sht15_temp_slope status = 10 \/ sht15_temp_slope status = 40.
Proof.
  unfold sht15_temp_slope.
  destruct (Z.land status SHT15_STATUS_LOW_RESOLUTION =? 0); auto.
Qed.

Lemma calc_temp_exact (d : sht15_data) :
  0 <= val_temp d < 65536 -> supply_uV d <= 11158278 ->
  sht15_calc_temp d
  = val_temp d * sht15_temp_slope (val_status d)
    + sht15_temp_offset (supply_uV d).
Proof.
  intros Hv Hs. unfold sht15_calc_temp.
  pose proof (temp_offset_range (supply_uV d) Hs) as Ho.
  destruct (temp_slope_cases (val_status d)) as [E|E]; rewrite E;
    rewrite (int32_small (val_temp d * _)) by lia;
    apply int32_small; lia.
Qed.

(** X2: for every raw temperature a [uint16_t] can hold and every supply
    up to 11.158278 V the conversion does not wrap: the temperature is the
    raw code times the slope (10, or 40 at low resolution) plus the offset,
    and a larger raw code gives a strictly larger temperature. *)
Theorem sht15_calc_temp_linear (d d' : sht15_data) :
  0 <= val_temp d -> val_temp d < val_temp d' -> val_temp d' < 65536 ->
  supply_uV d <= 11158278 ->
  val_status d' = val_status d -> supply_uV d' = supply_uV d ->
  sht15_calc_temp d
  = val_temp d * sht15_temp_slope (val_status d)
    + sht15_temp_offset (supply_uV d)
  /\ (sht15_temp_slope (val_status d) = 10
      \/ sht15_temp_slope (val_status d) = 40)
  /\ sht15_calc_temp d' - sht15_calc_temp d
     = (val_temp d' - val_temp d) * sht15_temp_slope (val_status d)
  /\ sht15_calc_temp d < sht15_calc_temp d'.
Proof.
  intros H0 H1 H2 Hs Est Esu.
  rewrite (calc_temp_exact d) by lia.
  rewrite (calc_temp_exact d') by lia.
  rewrite Est, Esu.
  pose proof (temp_slope_cases (val_status d)) as Hc.
  repeat split; [exact Hc | lia | ].
  destruct Hc as [E|E]; rewrite E; lia.
Qed.

Lemma sht15_calc_temp_linear_witness :
  sht15_calc_temp calibration_example < sht15_calc_temp humid_wrap_example.
Proof.
  apply (sht15_calc_temp_linear calibration_example humid_wrap_example);
    vm_compute; try reflexivity; discriminate.
Defined.

Lemma calc_temp_range (d : sht15_data) :
  0 <= val_temp d < 65536 -> supply_uV d <= 11158278 ->
  -41947 <= sht15_calc_temp d <= 2582000.
Proof.
  intros Hv Hs. rewrite calc_temp_exact by assumption.
  pose proof (temp_offset_range (supply_uV d) Hs) as Ho.
  destruct (temp_slope_cases (val_status d)) as [E|E]; rewrite E; lia.
Qed.

Lemma int32_range (x : Z) : -2147483648 <= int32 x < 2147483648.
Proof.
  unfold int32.
  pose proof (Z.mod_pos_bound (x + 2147483648) 4294967296). lia.
Qed.

Lemma calc_humid_exact (d : sht15_data) :
  0 <= val_temp d < 65536 -> supply_uV d <= 11158278 ->
  0 <= val_humid d <= (if low_res_mode d then 255 else 4095) ->
  sht15_calc_humid d
  = Z.quot (int32 (sht15_humid_compensation (low_res_mode d)
                     (sht15_calc_temp d) (val_humid d)))
           1000000
    + sht15_humid_linear_exact (low_res_mode d) (val_humid d).
Proof.
  intros Hv Hs Hh.
  pose proof (calc_temp_range d Hv Hs) as Ht.
  unfold sht15_calc_humid, sht15_humid_compensation, sht15_humid_linear_exact,
    low_res_mode in *.
  set (temp := sht15_calc_temp d) in *.
  set (so := val_humid d) in *.
  destruct (negb (Z.land (val_status d) SHT15_STATUS_LOW_RESOLUTION =? 0)).
  - change (int32 (-4 * 1000)) with (-4000).
    rewrite (int32_small (648000 * so)) by lia.
    rewrite (int32_small (so * so)) by nia.
    rewrite (int32_small (so * so * -7200)) by nia.
    pose proof (quot_range (648000 * so) 1000 0 165240) as Q1.
    pose proof (quot_range (so * so * -7200) 10000 (-46818) 0) as Q2.
    rewrite (int32_small (-4000 + _)) by nia.
    rewrite (int32_small (-4000 + _ + _)) by nia.
    rewrite (int32_small (temp - 25000)) by lia.
    rewrite (int32_small (1280 * so)) by lia.
    rewrite (int32_small (10000 + 1280 * so)) by lia.
    pose proof (int32_range ((temp - 25000) * (10000 + 1280 * so))) as Hr.
    pose proof (quot_range (int32 ((temp - 25000) * (10000 + 1280 * so)))
                           1000000 (-2148) 2148) as Q3.
    apply int32_small. nia.
  - change (int32 (-4 * 1000)) with (-4000).
    rewrite (int32_small (40500 * so)) by lia.
    rewrite (int32_small (so * so)) by nia.
    rewrite (int32_small (so * so * -28)) by nia.
    pose proof (quot_range (40500 * so) 1000 0 165848) as Q1.
    pose proof (quot_range (so * so * -28) 10000 (-46954) 0) as Q2.
    rewrite (int32_small (-4000 + _)) by nia.
    rewrite (int32_small (-4000 + _ + _)) by nia.
    rewrite (int32_small (temp - 25000)) by lia.
    rewrite (int32_small (80 * so)) by lia.
    rewrite (int32_small (10000 + 80 * so)) by lia.
    pose proof (int32_range ((temp - 25000) * (10000 + 80 * so))) as Hr.
    pose proof (quot_range (int32 ((temp - 25000) * (10000 + 80 * so)))
                           1000000 (-2148) 2148) as Q3.
    apply int32_small. nia.
Qed.

(** X3: for raw readings in the range of the sensor the linear part of
    the humidity never wraps, and the result is the datasheet formula as long
    as the compensation product (temp - 25000) * (10000 + t2 * raw) fits a
    32-bit [int]; when it does not, the product wraps before the division,
    which happens for readings well inside the range of the sensor. *)
Theorem sht15_calc_humid_exact (d : sht15_data) :
  0 <= val_temp d < 65536 -> supply_uV d <= 11158278 ->
  0 <= val_humid d <= (if low_res_mode d then 255 else 4095) ->
  let comp := sht15_humid_compensation (low_res_mode d)
                (sht15_calc_temp d) (val_humid d) in
  let linear := sht15_humid_linear_exact (low_res_mode d) (val_humid d) in
  sht15_calc_humid d = Z.quot (int32 comp) 1000000 + linear
  /\ (-2147483648 <= comp < 2147483648 ->
      sht15_calc_humid d = Z.quot comp 1000000 + linear)
  /\ (sht15_calc_temp d = 25000 -> sht15_calc_humid d = linear)
  /\ (0 <= val_temp humid_wrap_example < 65536
      /\ supply_uV humid_wrap_example <= 11158278
      /\ 0 <= val_humid humid_wrap_example <= 4095
      /\ sht15_calc_temp humid_wrap_example = 40340
      /\ sht15_calc_humid humid_wrap_example = 78677
      /\ Z.quot (sht15_humid_compensation false 40340 2500) 1000000
         + sht15_humid_linear_exact false 2500 = 82971).
Proof.
  intros Hv Hs Hh comp linear.
  pose proof (calc_humid_exact d Hv Hs Hh) as E.
  fold comp linear in E.
  split; [exact E|]. split; [|split].
  - intros Hc. rewrite E, int32_small by exact Hc. reflexivity.
  - intros Ht. rewrite E. unfold comp, sht15_humid_compensation.
    rewrite Ht. reflexivity.
  - vm_compute. repeat split; discriminate.
Qed.

Lemma sht15_calc_humid_exact_witness :
  sht15_calc_humid calibration_example
  = Z.quot (int32 (sht15_humid_compensation false
                     (sht15_calc_temp calibration_example) 0)) 1000000
    + sht15_humid_linear_exact false 0.
Proof.
  refine (proj1 (sht15_calc_humid_exact calibration_example _ _ _)).
  - change (0 <= 800 < 65536). lia.
  - change (3300000 <= 11158278). lia.
  - change (0 <= 0 <= 4095). lia.
Defined.

(** ** What the checksum detects *)

Lemma sht15_crc8_table_injective (i j : Z) :
  0 <= i < 256 -> 0 <= j < 256 ->
  nth (Z.to_nat i) sht15_crc8_table 0 = nth (Z.to_nat j) sht15_crc8_table 0 ->
  i = j.
Proof.
  intros Hi Hj E.
  assert (H : forallb (fun a => forallb (fun b =>
                implb (nth (Z.to_nat a) sht15_crc8_table 0
                       =? nth (Z.to_nat b) sht15_crc8_table 0) (a =? b))
                (map Z.of_nat (seq 0 256))) (map Z.of_nat (seq 0 256)) = true)
    by (vm_compute; reflexivity).
  pose proof (forall_below _ 256 H i Hi) as Hrow. cbv beta in Hrow.
  pose proof (forall_below _ 256 Hrow j Hj) as Hc. cbv beta in Hc.
  rewrite E, Z.eqb_refl in Hc. cbn in Hc. lia.
Qed.

Lemma lxor_byte (a b : Z) : is_byte a -> is_byte b -> is_byte (Z.lxor a b).
Proof.
  unfold is_byte. intros Ha Hb. split.
  - apply Z.lxor_nonneg. lia.
  - destruct (Z.eq_dec (Z.lxor a b) 0) as [E|E]; [lia|].
    apply Z.log2_lt_cancel.
    eapply Z.le_lt_trans; [apply Z.log2_lxor; lia|].
    change (Z.log2 256) with 8.
    assert (Z.log2 a < 8) by
      (destruct (Z.eq_dec a 0) as [->|]; [cbn; lia | apply Z.log2_lt_pow2; lia]).
    assert (Z.log2 b < 8) by
      (destruct (Z.eq_dec b 0) as [->|]; [cbn; lia | apply Z.log2_lt_pow2; lia]).
    lia.
Qed.

Lemma lxor_cancel_r (a b c : Z) : Z.lxor a c = Z.lxor b c -> a = b.
Proof.
  intros E.
  rewrite <- (Z.lxor_0_r a), <- (Z.lxor_0_r b), <- (Z.lxor_nilpotent c),
    <- !Z.lxor_assoc, E.
  reflexivity.
Qed.

Lemma lxor_cancel_l (a b c : Z) : Z.lxor c a = Z.lxor c b -> a = b.
Proof. rewrite !(Z.lxor_comm c). apply lxor_cancel_r. Qed.

(** One step of the checksum loop. *)
Lemma crc8_step_injective_crc (b c1 c2 : Z) :
  is_byte b -> is_byte c1 -> is_byte c2 ->
  nth (Z.to_nat (Z.lxor b c1)) sht15_crc8_table 0
  = nth (Z.to_nat (Z.lxor b c2)) sht15_crc8_table 0 ->
  c1 = c2.
Proof.
  intros Hb H1 H2 E.
  apply sht15_crc8_table_injective in E; try (apply lxor_byte; assumption).
  eapply lxor_cancel_l. exact E.
Qed.

Lemma crc8_step_injective_byte (b1 b2 c : Z) :
  is_byte b1 -> is_byte b2 -> is_byte c ->
  nth (Z.to_nat (Z.lxor b1 c)) sht15_crc8_table 0
  = nth (Z.to_nat (Z.lxor b2 c)) sht15_crc8_table 0 ->
  b1 = b2.
Proof.
  intros H1 H2 Hc E.
  apply sht15_crc8_table_injective in E; try (apply lxor_byte; assumption).
  eapply lxor_cancel_r. exact E.
Qed.

Lemma crc8_loop_injective_crc (value : list Z) :
  Forall is_byte value ->
  forall c1 c2, is_byte c1 -> is_byte c2 ->
    sht15_crc8_loop (length value) value c1
    = sht15_crc8_loop (length value) value c2 ->
    c1 = c2.
Proof.
  induction 1 as [|b value Hb Hv IH]; intros c1 c2 H1 H2 E.
  - exact E.
  - cbn [length sht15_crc8_loop hd tl] in E.
    apply IH in E; try apply sht15_crc8_table_range.
    exact (crc8_step_injective_crc b c1 c2 Hb H1 H2 E).
Qed.

Lemma crc8_loop_app (pre post : list Z) (crc : Z) :
  sht15_crc8_loop (length (pre ++ post)) (pre ++ post) crc
  = sht15_crc8_loop (length post) post
      (sht15_crc8_loop (length pre) pre crc).
Proof.
  rewrite !sht15_crc8_loop_fold. apply fold_left_app.
Qed.

Ltac bytes_tac :=
  repeat first [ apply Forall_nil
               | apply Forall_cons;
                 [first [ unfold is_byte; lia
                        | vm_compute; split; [discriminate | reflexivity] ]|] ].

Lemma sht15_reverse_injective (a b : Z) :
  is_byte a -> is_byte b -> sht15_reverse a = sht15_reverse b -> a = b.
Proof.
  intros Ha Hb E.
  rewrite <- (sht15_reverse_involutive_byte a Ha),
          <- (sht15_reverse_involutive_byte b Hb), E.
  reflexivity.
Qed.

(** X4: two messages of the same session that differ in exactly one
    byte never have the same checksum. *)
Theorem sht15_crc8_detects_byte_error (d : sht15_data) (pre post : list Z)
        (b1 b2 : Z) :
  is_byte b1 -> is_byte b2 -> Forall is_byte post ->
  b1 <> b2 ->
  sht15_crc8 d (pre ++ b1 :: post) (length (pre ++ b1 :: post))
  <> sht15_crc8 d (pre ++ b2 :: post) (length (pre ++ b2 :: post)).
Proof.
  intros H1 H2 Hpost Hne E. apply Hne.
  unfold sht15_crc8 in E. rewrite !crc8_loop_app in E.
  set (c := sht15_crc8_loop (length pre) pre _) in E.
  assert (Hc : is_byte c)
    by (apply sht15_crc8_loop_range, sht15_reverse_range).
  cbn [length sht15_crc8_loop hd tl] in E.
  apply (crc8_loop_injective_crc post Hpost) in E;
    try apply sht15_crc8_table_range.
  exact (crc8_step_injective_byte b1 b2 c H1 H2 Hc E).
Qed.

Lemma sht15_crc8_detects_byte_error_witness :
  sht15_crc8 (example_data 0 true) ([SHT15_MEASURE_TEMP] ++ 8 :: [15]) 3
  <> sht15_crc8 (example_data 0 true) ([SHT15_MEASURE_TEMP] ++ 9 :: [15]) 3.
Proof.
  apply (sht15_crc8_detects_byte_error (example_data 0 true)
           [SHT15_MEASURE_TEMP] [15] 8 9).
  - unfold is_byte. lia.
  - unfold is_byte. lia.
  - bytes_tac.
  - lia.
Defined.

(** X5: the checksum also covers the low four bits of the status
    mirror it is seeded with: sessions whose mirrors differ there never agree
    on the checksum of the same bytes. *)
Theorem sht15_crc8_depends_on_status (d d' : sht15_data) (value : list Z) :
  Forall is_byte value ->
  Z.land (val_status d) 0x0F <> Z.land (val_status d') 0x0F ->
  sht15_crc8 d value (length value) <> sht15_crc8 d' value (length value).
Proof.
  intros Hv Hne E. apply Hne.
  unfold sht15_crc8 in E.
  apply (crc8_loop_injective_crc value Hv) in E;
    try apply sht15_reverse_range.
  apply sht15_reverse_injective in E; [exact E | |];
    unfold is_byte; pose proof (land_15_range (val_status d));
    pose proof (land_15_range (val_status d')); lia.
Qed.

Lemma sht15_crc8_depends_on_status_witness :
  sht15_crc8 (example_data 0 true) [SHT15_READ_STATUS; 0] 2
  <> sht15_crc8 (example_data 1 true) [SHT15_READ_STATUS; 0] 2.
Proof.
  apply (sht15_crc8_depends_on_status (example_data 0 true)
           (example_data 1 true) [SHT15_READ_STATUS; 0]).
  - bytes_tac.
  - vm_compute. discriminate.
Defined.

Lemma read_byte_res (ins : list bool) :
  res_of sht15_read_byte ins = bits_value (firstn 8 (ins ++ repeat true 8)).
Proof.
  do 8 (destruct ins as [|[|] ins]; try reflexivity).
Qed.

Lemma msb_bits_length (b : Z) : length (msb_bits b) = 8%nat.
Proof. reflexivity. Qed.

Lemma bits_value_msb_bits (b : Z) : is_byte b -> bits_value (msb_bits b) = b.
Proof.
  intros Hb.
  assert (H : forallb (fun c => bits_value (msb_bits c) =? c)
                      (map Z.of_nat (seq 0 256)) = true)
    by (vm_compute; reflexivity).
  pose proof (forall_below _ 256 H b Hb) as E. cbv beta in E. lia.
Qed.

Lemma bitrev8_byte (b : Z) : is_byte b -> is_byte (bitrev8 b).
Proof.
  intros Hb.
  assert (H : forallb (fun c => (0 <=? bitrev8 c) && (bitrev8 c <? 256))
                      (map Z.of_nat (seq 0 256)) = true)
    by (vm_compute; reflexivity).
  pose proof (forall_below _ 256 H b Hb) as E. cbv beta in E.
  unfold is_byte. lia.
Qed.

Lemma sht15_reverse_bitrev8 (b : Z) :
  is_byte b -> sht15_reverse (bitrev8 b) = b.
Proof.
  intros Hb.
  assert (H : forallb (fun c => sht15_reverse (bitrev8 c) =? c)
                      (map Z.of_nat (seq 0 256)) = true)
    by (vm_compute; reflexivity).
  pose proof (forall_below _ 256 H b Hb) as E. cbv beta in E. lia.
Qed.

Lemma byte_read_msb_bits (b : Z) (rest : list bool) :
  is_byte b ->
  byte_read (msb_bits b ++ rest) = b
  /\ skipn 8 (msb_bits b ++ rest) = rest.
Proof.
  intros Hb. unfold byte_read.
  destruct (read_byte_bits (msb_bits b) rest (msb_bits_length b)) as [E _].
  rewrite E. split; [apply bits_value_msb_bits, Hb|].
  change 8%nat with (length (msb_bits b)).
  rewrite skipn_app, skipn_all, Nat.sub_diag. reflexivity.
Qed.

(** X6: whatever the command argument, [sht15_send_cmd] puts its
    low eight bits on the wire as one framed command, most significant bit
    first, reads one level (the acknowledge), returns [0] when the line was
    pulled low and [-EIO] when it was not, and leaves the instance data
    alone. *)
Theorem sht15_send_cmd_frames (cmd : Z) (s : machine) :
  let run := sht15_send_cmd cmd in
  fst (run s) = (if nak1 (data_in s) then - EIO else 0)
  /\ wire (emitted run s) = [WCmd (u8 cmd)]
  /\ 0 <= u8 cmd < 256
  /\ dat (snd (run s)) = dat s
  /\ data_in (snd (run s)) = tl (data_in s).
Proof.
  intros run. unfold run. rewrite send_cmd_run.
  split; [reflexivity|]. split; [|split; [apply u8_range|split; reflexivity]].
  rewrite (emitted_exact _ _ _ _ _ (send_cmd_run cmd s) eq_refl).
  exact (trans_wire _ _ _ (trans_send_cmd cmd (data_in s))).
Qed.

(** X7: [sht15_read_byte] takes the next eight levels of the data
    line, most significant bit first; levels that never come read as the
    pull-up, so an absent device reads as [0xFF].  It frames nothing, and the
    byte an honest device spells is the byte read. *)
Theorem sht15_read_byte_msb_first (s : machine) :
  let run := sht15_read_byte in
  fst (run s) = bits_value (firstn 8 (data_in s ++ repeat true 8))
  /\ 0 <= fst (run s) < 256
  /\ data_in (snd (run s)) = skipn 8 (data_in s)
  /\ dat (snd (run s)) = dat s
  /\ wire (emitted run s) = []
  /\ (data_in s = [] -> fst (run s) = 255)
  /\ (forall b rest, is_byte b -> data_in s = msb_bits b ++ rest ->
        fst (run s) = b /\ data_in (snd (run s)) = rest).
Proof.
  intros run. unfold run.
  pose proof (reads_read_byte s) as E.
  rewrite E, read_byte_rest. cbn [fst snd].
  split; [apply read_byte_res|].
  split.
  { rewrite read_byte_res.
    generalize (data_in s). intros ins.
    do 8 (destruct ins as [|[|] ins]; try (vm_compute; split; congruence)). }
  split; [reflexivity|]. split; [reflexivity|].
  split.
  { rewrite (emitted_exact _ _ _ _ _ E eq_refl).
    exact (trans_wire _ _ _ (trans_read_byte (data_in s))). }
  split.
  { intros ->. reflexivity. }
  intros b rest Hb ->.
  destruct (byte_read_msb_bits b rest Hb) as [E1 E2].
  rewrite <- byte_read_eq in E1. rewrite data_in_io. split; assumption.
Qed.

(** ** Reading the status register *)

Lemma crc8_reference_eq (d : sht15_data) (value : list Z) :
  sht15_crc8 d value (length value) = crc8_reference (val_status d) value.
Proof.
  unfold sht15_crc8, crc8_reference.
  rewrite sht15_crc8_loop_fold, sht15_reverse_nibble.
  now rewrite sht15_crc8_table_generated.
Qed.

Lemma crc8_reference_nibble (seed seed' : Z) (value : list Z) :
  Z.land seed 15 = Z.land seed' 15 ->
  crc8_reference seed value = crc8_reference seed' value.
Proof. intros E. unfold crc8_reference. now rewrite E. Qed.

Lemma crc8_reference_byte (seed : Z) (value : list Z) :
  is_byte (crc8_reference seed value).
Proof.
  pose proof (crc8_reference_eq (example_data seed false) value) as E.
  cbn [val_status example_data] in E. rewrite <- E.
  apply sht15_crc8_range.
Qed.

Lemma byte_read_reply (b c : Z) (rest : list bool) :
  is_byte b -> is_byte c ->
  byte_read (msb_bits b ++ msb_bits c ++ rest) = b
  /\ byte_read (skipn 8 (msb_bits b ++ msb_bits c ++ rest)) = c
  /\ skipn 8 (skipn 8 (msb_bits b ++ msb_bits c ++ rest)) = rest.
Proof.
  intros Hb Hc.
  destruct (byte_read_msb_bits b (msb_bits c ++ rest) Hb) as [E1 E2].
  destruct (byte_read_msb_bits c rest Hc) as [E3 E4].
  rewrite E2. auto.
Qed.

Lemma status_crc_ok_reply (d : sht15_data) (st st' : Z) (rest : list bool) :
  is_byte st -> is_byte st' ->
  status_crc_ok d (damaged_status_reply st st' rest)
  = (crc8_reference (val_status d) [SHT15_READ_STATUS; st']
     =? crc8_reference st [SHT15_READ_STATUS; st]).
Proof.
  intros Hs Hs'. unfold status_crc_ok, damaged_status_reply. cbn [tl].
  set (c := bitrev8 (crc8_reference st [SHT15_READ_STATUS; st])).
  assert (Hc : is_byte c) by apply bitrev8_byte, crc8_reference_byte.
  destruct (byte_read_reply st' c rest Hs' Hc) as [E1 [E2 _]].
  rewrite E1, E2. unfold c.
  rewrite sht15_reverse_bitrev8 by apply crc8_reference_byte.
  change 2%nat with (length [SHT15_READ_STATUS; st']).
  now rewrite crc8_reference_eq.
Qed.

Lemma crc8_reference_detects (seed st st' : Z) :
  is_byte st -> is_byte st' -> st' <> st ->
  crc8_reference seed [SHT15_READ_STATUS; st']
  <> crc8_reference seed [SHT15_READ_STATUS; st].
Proof.
  intros Hs Hs' Hne E. apply Hne.
  rewrite <- !(crc8_reference_eq (example_data seed false)) in E.
  unfold sht15_crc8 in E.
  cbn [length sht15_crc8_loop hd tl] in E.
  apply sht15_crc8_table_injective in E.
  - apply lxor_cancel_r in E. exact E.
  - apply lxor_byte; [exact Hs'|apply sht15_crc8_table_range].
  - apply lxor_byte; [exact Hs|apply sht15_crc8_table_range].
Qed.

Lemma crc8_reference_seed (seed seed' : Z) (value : list Z) :
  Forall is_byte value ->
  Z.land seed 15 <> Z.land seed' 15 ->
  crc8_reference seed value <> crc8_reference seed' value.
Proof.
  intros Hv Hne E. apply Hne.
  rewrite <- (crc8_reference_eq (example_data seed false)),
          <- (crc8_reference_eq (example_data seed' false)) in E.
  unfold sht15_crc8 in E. cbn [val_status example_data] in E.
  apply (crc8_loop_injective_crc value Hv) in E;
    try apply sht15_reverse_range.
  apply sht15_reverse_injective in E; [exact E | |];
    unfold is_byte; pose proof (land_15_range seed);
    pose proof (land_15_range seed'); lia.
Qed.

Lemma show_status_run (bit : Z) (s : machine) (r : Z) (s' : machine) :
  sht15_update_status s = (r, s') ->
  fst (sht15_show_status bit s)
  = (if negb (r =? 0) then AttrError r
     else AttrValue (notnot (Z.land (val_status (dat s')) bit))).
Proof.
  intros E. unfold sht15_show_status.
  rewrite (bind_run _ _ _ _ _ E). reflexivity.
Qed.

(** X8: when the status is due and the device answers the
    read-status command honestly (acknowledge, status byte and, with
    checksums on, the reversed CRC seeded with a status register whose low
    four bits are those of the mirror), the byte is accepted: the call
    returns 0, the mirror holds the byte, the cache is marked valid at the
    current tick, only the read-status command was framed, and every status
    attribute shows the bit of that byte. *)
Theorem sht15_update_status_accepts (s : machine) (st : Z) (rest : list bool) :
  status_due s = true ->
  is_byte st ->
  (checksumming (dat s) = true ->
   Z.land st 0x0F = Z.land (val_status (dat s)) 0x0F) ->
  data_in s = device_status_reply (checksumming (dat s)) st rest ->
  let run := sht15_update_status in
  fst (run s) = 0
  /\ val_status (dat (snd (run s))) = st
  /\ status_valid (dat (snd (run s))) = true
  /\ last_status (dat (snd (run s))) = jiffies s
  /\ (checksumming (dat s) = true -> checksum_ok (dat (snd (run s))) = true)
  /\ wire (emitted run s) = [WCmd SHT15_READ_STATUS]
  /\ forall bit,
       fst (sht15_show_status bit s) = AttrValue (notnot (Z.land st bit)).
Proof.
  intros Hdue Hst Hnib Hin. cbv zeta.
  destruct (update_status_run s) as (ins' & evs & E & T & _).
  rewrite Hdue in E, T.
  assert (Hret : status_refresh_ret (dat s) (data_in s) = 0
                 /\ status_refresh_wire (dat s) (data_in s)
                    = [WCmd SHT15_READ_STATUS]
                 /\ status_refresh_dat (dat s) (jiffies s) (data_in s)
                    = status_stored st (jiffies s)
                        (if checksumming (dat s)
                         then set_checksum_ok true (dat s) else dat s)).
  { unfold status_refresh_ret, status_refresh_wire, status_refresh_dat.
    rewrite Hin.
    change (nak1 (device_status_reply (checksumming (dat s)) st rest))
      with false.
    cbv iota. cbn [negb andb].
    destruct (checksumming (dat s)) eqn:C.
    - change (device_status_reply true st rest)
        with (damaged_status_reply st st rest).
      rewrite status_crc_ok_reply by assumption.
      rewrite (crc8_reference_nibble (val_status (dat s)) st)
        by (symmetry; apply Hnib; reflexivity).
      rewrite Z.eqb_refl. cbn [negb andb].
      unfold damaged_status_reply. cbn [tl].
      set (c := bitrev8 (crc8_reference st [SHT15_READ_STATUS; st])).
      assert (Hc : is_byte c) by apply bitrev8_byte, crc8_reference_byte.
      destruct (byte_read_reply st c rest Hst Hc) as [E1 _].
      rewrite E1. auto.
    - cbn [andb]. unfold device_status_reply. cbn [tl app].
      destruct (byte_read_msb_bits st rest Hst) as [E1 _].
      rewrite E1. auto. }
  destruct Hret as (Hr & Hw & Hd).
  rewrite Hr, Hd in E. rewrite Hw in T.
  rewrite (emitted_exact _ _ _ _ _ E (trace_set_dat_io _ _ _ _)).
  rewrite E. cbn [fst snd]. rewrite dat_set_dat.
  split; [reflexivity|].
  split; [reflexivity|]. split; [reflexivity|]. split; [reflexivity|].
  split.
  { intros C. rewrite C. reflexivity. }
  split; [exact (trans_wire _ _ _ T)|].
  intros bit. rewrite (show_status_run bit s _ _ E), dat_set_dat.
  reflexivity.
Qed.

Lemma sht15_update_status_accepts_witness :
  fst (sht15_update_status
         (stale_status_machine (device_status_reply true 64 []))) = 0
  /\ val_status (dat (snd (sht15_update_status
         (stale_status_machine (device_status_reply true 64 []))))) = 64.
Proof.
  destruct (sht15_update_status_accepts
              (stale_status_machine (device_status_reply true 64 []))
              64 []) as (A & B & _).
  - reflexivity.
  - unfold is_byte. lia.
  - intros _. reflexivity.
  - reflexivity.
  - split; [exact A | exact B].
Defined.

Lemma recovery_wire_head (prev : Z) (ins : list bool) :
  exists w, recovery_wire prev ins = WCmd SHT15_SOFT_RESET :: w.
Proof.
  unfold recovery_wire.
  destruct (nak1 ins), (prev =? 0), (nak1 (tl ins)); eexists; reflexivity.
Qed.

Lemma recovery_ret_cases (prev : Z) (ins : list bool) :
  recovery_ret prev ins = - EIO \/ recovery_ret prev ins = - EAGAIN.
Proof.
  unfold recovery_ret.
  destruct (nak1 ins), (prev =? 0), (nak1 (tl ins) || nak2 (tl ins)); auto.
Qed.

(** X9: with checksums on, a status byte that was damaged on
    its way (the checksum is that of another byte), or an undamaged one from
    a device whose status register differs from the mirror in the low four
    bits, is never accepted: the call fails with [-EIO] or [-EAGAIN], the
    cache stays as it was, the read-status command is followed by a soft
    reset, and the status attributes show the error. *)
Theorem sht15_update_status_rejects (s : machine) (st st' : Z)
        (rest : list bool) :
  status_due s = true ->
  checksumming (dat s) = true ->
  is_byte st -> is_byte st' ->
  (st' <> st /\ Z.land st 0x0F = Z.land (val_status (dat s)) 0x0F)
  \/ (st' = st /\ Z.land st 0x0F <> Z.land (val_status (dat s)) 0x0F) ->
  data_in s = damaged_status_reply st st' rest ->
  let run := sht15_update_status in
  (fst (run s) = - EIO \/ fst (run s) = - EAGAIN)
  /\ checksum_ok (dat (snd (run s))) = false
  /\ status_valid (dat (snd (run s))) = status_valid (dat s)
  /\ last_status (dat (snd (run s))) = last_status (dat s)
  /\ (exists w, wire (emitted run s)
                = WCmd SHT15_READ_STATUS :: WCmd SHT15_SOFT_RESET :: w)
  /\ forall bit, fst (sht15_show_status bit s) = AttrError (fst (run s)).
Proof.
  intros Hdue C Hst Hst' Hbad Hin. cbv zeta.
  destruct (update_status_run s) as (ins' & evs & E & T & _).
  rewrite Hdue in E, T.
  assert (Hcrc : status_crc_ok (dat s) (data_in s) = false).
  { rewrite Hin, status_crc_ok_reply by assumption.
    apply Z.eqb_neq.
    destruct Hbad as [[Hne Hnib]|[-> Hnib]].
    - rewrite (crc8_reference_nibble (val_status (dat s)) st)
        by (symmetry; exact Hnib).
      apply crc8_reference_detects; assumption.
    - apply crc8_reference_seed.
      + unfold is_byte in *.
        repeat (apply Forall_cons || apply Forall_nil); try assumption.
        vm_compute. split; [discriminate | reflexivity].
      + intros Heq. apply Hnib. symmetry. exact Heq. }
  unfold status_refresh_ret, status_refresh_dat, status_refresh_wire in E, T.
  rewrite Hcrc, C in E, T.
  assert (N : nak1 (data_in s) = false) by (rewrite Hin; reflexivity).
  rewrite N in E, T. cbn [negb andb] in E, T.
  destruct (recovery_wire_head (Z.land (val_status (dat s)) 7)
              (status_recovery_in (data_in s))) as [w Hw].
  rewrite Hw in T.
  pose proof (recovery_ret_cases (Z.land (val_status (dat s)) 7)
                (status_recovery_in (data_in s))) as Hr.
  pose proof (recovery_ret_nonzero (Z.land (val_status (dat s)) 7)
                (status_recovery_in (data_in s))) as Hnz.
  rewrite (emitted_exact _ _ _ _ _ E (trace_set_dat_io _ _ _ _)).
  split; [rewrite E; exact Hr|].
  split; [rewrite E; reflexivity|].
  split; [rewrite E; reflexivity|].
  split; [rewrite E; reflexivity|].
  split; [exists w; exact (trans_wire _ _ _ T)|].
  intros bit. rewrite (show_status_run bit s _ _ E). rewrite E. cbn [fst].
  apply Z.eqb_neq in Hnz. rewrite Hnz. reflexivity.
Qed.

Lemma sht15_update_status_rejects_witness :
  (fst (sht15_update_status
          (stale_status_machine (damaged_status_reply 64 65 []))) = - EIO
   \/ fst (sht15_update_status
          (stale_status_machine (damaged_status_reply 64 65 []))) = - EAGAIN)
  /\ status_valid (dat (snd (sht15_update_status
          (stale_status_machine (damaged_status_reply 64 65 []))))) = false.
Proof.
  destruct (sht15_update_status_rejects
              (stale_status_machine (damaged_status_reply 64 65 []))
              64 65 []) as (A & _ & B & _).
  - reflexivity.
  - reflexivity.
  - unfold is_byte. lia.
  - unfold is_byte. lia.
  - left. split; [lia | reflexivity].
  - reflexivity.
  - split; [exact A | exact B].
Defined.

Lemma status_refresh_ret_cases (d : sht15_data) (ins : list bool) :
  status_refresh_ret d ins = 0
  \/ status_refresh_ret d ins = - EIO
  \/ status_refresh_ret d ins = - EAGAIN.
Proof.
  unfold status_refresh_ret.
  destruct (nak1 ins); [auto|].
  destruct (checksumming d && negb (status_crc_ok d ins)); [|auto].
  destruct (recovery_ret_cases (Z.land (val_status d) 7)
              (status_recovery_in ins)); auto.
Qed.

Lemma status_refresh_dat_ok (d : sht15_data) (j : Z) (ins : list bool) :
  status_refresh_ret d ins = 0 ->
  status_valid (status_refresh_dat d j ins) = true
  /\ last_status (status_refresh_dat d j ins) = j
  /\ val_status (status_refresh_dat d j ins) = byte_read (tl ins).
Proof.
  unfold status_refresh_ret, status_refresh_dat.
  destruct (nak1 ins); [discriminate|].
  destruct (checksumming d); cbn [andb].
  - destruct (status_crc_ok d ins); cbn [negb].
    + intros _. repeat split.
    + intros H. exfalso. exact (recovery_ret_nonzero _ _ H).
  - intros _. repeat split.
Qed.

Lemma status_refresh_dat_failed (d : sht15_data) (j : Z) (ins : list bool) :
  status_refresh_ret d ins <> 0 ->
  status_valid (status_refresh_dat d j ins) = status_valid d
  /\ last_status (status_refresh_dat d j ins) = last_status d.
Proof.
  unfold status_refresh_ret, status_refresh_dat.
  destruct (nak1 ins); [auto|].
  destruct (checksumming d); cbn [andb].
  - destruct (status_crc_ok d ins); cbn [negb].
    + intros H. contradiction.
    + intros _. repeat split.
  - intros H. contradiction.
Qed.

(** X10: [sht15_update_status] returns [0], [-EIO] or
    [-EAGAIN].  When it returns [0] the status cache is valid (and stamped
    with the current tick if it was read); when it fails, a read had been due
    and the validity flag and the time stamp of the cache are as before. *)
Theorem sht15_update_status_result (s : machine) :
  let r := fst (sht15_update_status s) in
  let s' := snd (sht15_update_status s) in
  (r = 0 \/ r = - EIO \/ r = - EAGAIN)
  /\ (r = 0 -> status_valid (dat s') = true)
  /\ (r = 0 -> status_due s = true -> last_status (dat s') = jiffies s)
  /\ (r <> 0 ->
      status_due s = true
      /\ status_valid (dat s') = status_valid (dat s)
      /\ last_status (dat s') = last_status (dat s))
  /\ jiffies s' = jiffies s /\ kern s' = kern s.
Proof.
  cbv zeta.
  destruct (update_status_run s) as (ins' & evs & E & _ & _).
  rewrite E. cbn [fst snd]. rewrite dat_set_dat.
  destruct (status_due s) eqn:Hdue.
  - pose proof (status_refresh_ret_cases (dat s) (data_in s)) as Hc.
    split; [exact Hc|].
    split; [intros H; apply (status_refresh_dat_ok _ _ _ H)|].
    split; [intros H _; apply (status_refresh_dat_ok _ _ _ H)|].
    split; [|split; reflexivity].
    intros H. split; [reflexivity|].
    apply (status_refresh_dat_failed _ _ _ H).
  - split; [auto|].
    unfold status_due in Hdue. apply orb_false_elim in Hdue.
    destruct Hdue as [_ Hv]. apply negb_false_iff in Hv.
    split; [intros _; exact Hv|].
    split; [discriminate|].
    split; [intros H; contradiction|split; reflexivity].
Qed.

Lemma meas_outcome_ret_cases (wt prev old r m : Z) (w : list wire_item) :
  meas_outcome wt prev old r m w ->
  r = 0 \/ r = - EIO \/ r = - ETIME \/ r = - EAGAIN.
Proof.
  intros H. destruct H; auto.
  destruct (recovery_ret_cases prev ins); auto.
Qed.

Lemma refresh_outcome_ret_cases (k : kernel) (prev old r : Z) (marked : bool)
      (w : list wire_item) :
  refresh_outcome k prev old r marked w ->
  r = 0 \/ r = - EIO \/ r = - ETIME \/ r = - EAGAIN.
Proof.
  intros H. destruct H as [r m w O N | r m w O N | ];
    [apply (meas_outcome_ret_cases _ _ _ _ _ _ O)
    |apply (meas_outcome_ret_cases _ _ _ _ _ _ O) | auto].
Qed.

(** X11: [sht15_update_measurements] returns [0], [-EIO],
    [-ETIME] or [-EAGAIN].  When it returns [0] the measurement cache is
    valid (and stamped with the current tick if it was refreshed); when it
    fails, a refresh had been due and the validity flag and the time stamp
    are as before.  The status cache's flag and time stamp are never
    touched. *)
Theorem sht15_update_measurements_result (s : machine) :
  let r := fst (sht15_update_measurements s) in
  let s' := snd (sht15_update_measurements s) in
  (r = 0 \/ r = - EIO \/ r = - ETIME \/ r = - EAGAIN)
  /\ (r = 0 -> measurements_valid (dat s') = true)
  /\ (r = 0 -> meas_due s = true -> last_measurement (dat s') = jiffies s)
  /\ (r <> 0 ->
      meas_due s = true
      /\ measurements_valid (dat s') = measurements_valid (dat s)
      /\ last_measurement (dat s') = last_measurement (dat s))
  /\ status_valid (dat s') = status_valid (dat s)
  /\ last_status (dat s') = last_status (dat s)
  /\ jiffies s' = jiffies s /\ kern s' = kern s.
Proof.
  cbv zeta.
  pose proof (post_emitted _ _ _ (update_measurements_post s)) as H.
  cbv beta in H.
  destruct (meas_due s) eqn:Hdue.
  - destruct H as (Hk & Hj & Hsv & Hls & marked & w & _ & O & Hm).
    destruct (refresh_outcome_facts _ _ _ _ _ _ O) as (_ & _ & _ & Hmr & _).
    split; [apply (refresh_outcome_ret_cases _ _ _ _ _ _ O)|].
    split.
    { intros Hr. apply Hmr in Hr. subst marked. apply Hm. }
    split.
    { intros Hr _. apply Hmr in Hr. subst marked. rewrite <- Hj. apply Hm. }
    split.
    { intros Hr. split; [reflexivity|].
      destruct marked; [exfalso; apply Hr, Hmr; reflexivity | exact Hm]. }
    auto.
  - destruct H as (Hr & Hs & _). rewrite Hr, Hs.
    unfold meas_due in Hdue. apply orb_false_elim in Hdue.
    destruct Hdue as [_ Hv]. apply negb_false_iff in Hv.
    split; [auto|]. split; [intros _; exact Hv|].
    split; [discriminate|].
    split; [intros H; contradiction|].
    repeat split.
Qed.

Lemma time_after_later (j hz e : Z) :
  0 <= hz < 2147483648 -> 0 <= e < 2147483648 ->
  time_after (j + e) (j + hz) = (hz <? e).
Proof.
  intros Hz He. rewrite time_after_age.
  - replace (j + e - j) with e by lia. now rewrite Z.mod_small by lia.
  - exact Hz.
  - replace (j + e - j) with e by lia. rewrite Z.mod_small by lia. lia.
Qed.

Lemma show_temp_run (s : machine) (r : Z) (s' : machine) :
  sht15_update_measurements s = (r, s') ->
  fst (sht15_show_temp s)
  = (if negb (r =? 0) then AttrError r
     else AttrValue (sht15_calc_temp (dat s')))
  /\ fst (sht15_show_humidity s)
     = (if negb (r =? 0) then AttrError r
        else AttrValue (sht15_calc_humid (dat s'))).
Proof.
  intros E. unfold sht15_show_temp, sht15_show_humidity.
  rewrite !(bind_run _ _ _ _ _ E). split; reflexivity.
Qed.

(** X12: a status byte read at some tick is served from the
    cache, with no traffic on the bus, for [HZ] ticks, the last one included,
    and is due again from the tick after that; the tick counter may wrap in
    between. *)
Theorem sht15_status_cache_lifetime (s : machine) (e : Z) :
  0 <= HZ (kern s) < 2147483648 ->
  status_due s = true ->
  fst (sht15_update_status s) = 0 ->
  0 <= e < 2147483648 ->
  let s1 := advance e (snd (sht15_update_status s)) in
  status_due s1 = (HZ (kern s) <? e)
  /\ (e <= HZ (kern s) ->
      sht15_update_status s1 = (0, io (data_in s1) [EvLock; EvUnlock] s1)
      /\ wire (emitted sht15_update_status s1) = []
      /\ forall bit,
           fst (sht15_show_status bit s1)
           = AttrValue (notnot (Z.land (val_status (dat s1)) bit))).
Proof.
  intros Hz Hdue Hr He. cbv zeta.
  destruct (update_status_run s) as (ins' & evs & E & _ & _).
  rewrite Hdue in E. rewrite E in Hr |- *. cbn [fst snd] in Hr |- *.
  destruct (status_refresh_dat_ok _ (jiffies s) _ Hr) as (Hv & Hl & _).
  set (s' := set_dat _ _).
  assert (D : status_due (advance e s') = (HZ (kern s) <? e)).
  { unfold status_due, advance. cbn [jiffies dat kern].
    unfold s'. rewrite dat_set_dat, Hv, Hl, jiffies_set_dat, jiffies_io,
      kern_set_dat, kern_io.
    rewrite time_after_later by assumption. apply orb_false_r. }
  split; [exact D|].
  intros Hle.
  assert (D' : status_due (advance e s') = false)
    by (rewrite D; apply Z.ltb_ge; exact Hle).
  pose proof (update_status_fresh _ D') as F.
  split; [exact F|].
  split.
  { rewrite (emitted_exact _ _ _ _ _ F eq_refl). reflexivity. }
  intros bit. rewrite (show_status_run bit _ _ _ F). reflexivity.
Qed.

Lemma sht15_status_cache_lifetime_witness :
  status_due (advance 100 (snd (sht15_update_status honest_status_machine)))
  = (HZ (kern honest_status_machine) <? 100).
Proof.
  refine (proj1 (sht15_status_cache_lifetime honest_status_machine 100
                   _ _ _ _)).
  - vm_compute. split; [discriminate | reflexivity].
  - reflexivity.
  - vm_compute. reflexivity.
  - lia.
Defined.

(** X13: measurements refreshed at some tick are served from the
    cache, with no traffic on the bus, for [HZ] ticks, the last one included:
    both attributes then show the cached conversion; from the tick after
    that a refresh is due again. *)
Theorem sht15_measurement_cache_lifetime (s : machine) (e : Z) :
  0 <= HZ (kern s) < 2147483648 ->
  meas_due s = true ->
  fst (sht15_update_measurements s) = 0 ->
  0 <= e < 2147483648 ->
  let s1 := advance e (snd (sht15_update_measurements s)) in
  meas_due s1 = (HZ (kern s) <? e)
  /\ (e <= HZ (kern s) ->
      sht15_update_measurements s1 = (0, io (data_in s1) [EvLock; EvUnlock] s1)
      /\ wire (emitted sht15_update_measurements s1) = []
      /\ fst (sht15_show_temp s1) = AttrValue (sht15_calc_temp (dat s1))
      /\ fst (sht15_show_humidity s1) = AttrValue (sht15_calc_humid (dat s1))).
Proof.
  intros Hz Hdue Hr He. cbv zeta.
  pose proof (post_emitted _ _ _ (update_measurements_post s)) as H.
  cbv beta in H. rewrite Hdue in H.
  destruct H as (Hk & Hj & _ & _ & marked & w & _ & O & Hm).
  destruct (refresh_outcome_facts _ _ _ _ _ _ O) as (_ & _ & _ & Hmr & _).
  apply Hmr in Hr. subst marked. destruct Hm as [Hv Hl].
  set (s' := snd (sht15_update_measurements s)) in *.
  assert (D : meas_due (advance e s') = (HZ (kern s) <? e)).
  { unfold meas_due, advance. cbn [jiffies dat kern].
    rewrite Hv, Hl, Hk.
    rewrite time_after_later by assumption. apply orb_false_r. }
  split; [exact D|].
  intros Hle.
  assert (D' : meas_due (advance e s') = false)
    by (rewrite D; apply Z.ltb_ge; exact Hle).
  pose proof (update_measurements_fresh _ D') as F.
  destruct (show_temp_run _ _ _ F) as [St Sh].
  split; [exact F|].
  split.
  { rewrite (emitted_exact _ _ _ _ _ F eq_refl). reflexivity. }
  split; [exact St | exact Sh].
Qed.

Lemma sht15_measurement_cache_lifetime_witness :
  meas_due (advance 100 (snd (sht15_update_measurements refresh_machine)))
  = (HZ (kern refresh_machine) <? 100).
Proof.
  refine (proj1 (sht15_measurement_cache_lifetime refresh_machine 100
                   _ _ _ _)).
  - vm_compute. split; [discriminate | reflexivity].
  - reflexivity.
  - vm_compute. reflexivity.
  - lia.
Defined.

Section Logs.

Variable Q : event -> Prop.

Lemma logs_ret {A : Type} (a : A) : logs Q (ret a).
Proof. intros s. apply post_ret. constructor. Qed.

Lemma logs_bind {A B : Type} (m : M A) (f : A -> M B) :
  logs Q m -> (forall a, logs Q (f a)) -> logs Q (bind m f).
Proof.
  intros Hm Hf s. eapply post_bind; [apply Hm|].
  intros a s1 e1 H1. eapply post_conseq; [apply Hf|].
  cbv beta. intros _ _ e2 H2. apply Forall_app. auto.
Qed.

Lemma logs_emit (e : event) : Q e -> logs Q (emit e).
Proof. intros He s. apply post_emit. repeat constructor. exact He. Qed.

Lemma logs_get_data : logs Q get_data.
Proof. intros s. apply post_get_data. constructor. Qed.

Lemma logs_get_kernel : logs Q get_kernel.
Proof. intros s. apply post_get_kernel. constructor. Qed.

Lemma logs_get_jiffies : logs Q get_jiffies.
Proof. intros s. apply post_get_jiffies. constructor. Qed.

Lemma logs_modify_data (f : sht15_data -> sht15_data) :
  logs Q (modify_data f).
Proof. intros s. apply post_modify_data. constructor. Qed.

Ltac logs_tac :=
  repeat match goal with
         | |- forall _, logs _ _ => intro
         | |- logs _ (bind _ _) => apply logs_bind
         | |- logs _ (ret _) => apply logs_ret
         | |- logs _ get_data => apply logs_get_data
         | |- logs _ get_kernel => apply logs_get_kernel
         | |- logs _ get_jiffies => apply logs_get_jiffies
         | |- logs _ (modify_data _) => apply logs_modify_data
         | H : forall e, _ -> Q e |- logs _ (emit _) =>
             apply logs_emit; apply H; reflexivity
         | |- logs _ (if ?c then _ else _) => destruct c
         | H : logs Q ?m |- logs Q ?m => exact H
         | H : forall b, logs Q (?m b) |- logs Q (?m _) => apply H
         | H : forall b c, logs Q (?m b c) |- logs Q (?m _ _) => apply H
         end.

Section Bus.

Hypothesis Q_bus : forall e, bus_event e = true -> Q e.

Lemma logs_gpio_get_value (l : gpio_line) : logs Q (gpio_get_value l).
Proof.
  intros s.
  eapply (post_exact _ s _ _ [EvGet l (hd true (data_in s))]);
    [reflexivity | reflexivity |].
  repeat constructor. apply Q_bus. reflexivity.
Qed.

Lemma logs_connection_reset_loop (n : nat) :
  logs Q (sht15_connection_reset_loop n).
Proof.
  induction n as [|n IH]; cbn [sht15_connection_reset_loop].
  - apply logs_ret.
  - unfold gpio_set_value, ndelay. logs_tac.
Qed.

Lemma logs_connection_reset : logs Q sht15_connection_reset.
Proof.
  pose proof (logs_connection_reset_loop 9) as Hl.
  unfold sht15_connection_reset, gpio_direction_output, gpio_set_value, ndelay.
  logs_tac.
Qed.

Lemma logs_send_bit (v : Z) : logs Q (sht15_send_bit v).
Proof. unfold sht15_send_bit, gpio_set_value, ndelay. logs_tac. Qed.

Lemma logs_transmission_start : logs Q sht15_transmission_start.
Proof.
  unfold sht15_transmission_start, gpio_direction_output, gpio_set_value, ndelay.
  logs_tac.
Qed.

Lemma logs_send_byte_loop (n : nat) :
  forall byte, logs Q (sht15_send_byte_loop n byte).
Proof.
  induction n as [|n IH]; intros byte; cbn [sht15_send_byte_loop].
  - apply logs_ret.
  - pose proof logs_send_bit as Hb. logs_tac.
Qed.

Lemma logs_send_byte (byte : Z) : logs Q (sht15_send_byte byte).
Proof. apply logs_send_byte_loop. Qed.

Lemma logs_wait_for_response : logs Q sht15_wait_for_response.
Proof.
  pose proof logs_connection_reset as Hr.
  pose proof (logs_gpio_get_value gpio_data) as Hg.
  unfold sht15_wait_for_response, gpio_direction_input, gpio_set_value,
    ndelay, dev_err.
  logs_tac.
Qed.

Lemma logs_send_cmd (cmd : Z) : logs Q (sht15_send_cmd cmd).
Proof.
  pose proof logs_transmission_start as Hs.
  pose proof (logs_send_byte cmd) as Hb.
  pose proof logs_wait_for_response as Hw.
  unfold sht15_send_cmd. logs_tac.
Qed.

Lemma logs_soft_reset : logs Q sht15_soft_reset.
Proof.
  pose proof (logs_send_cmd SHT15_SOFT_RESET) as Hc.
  unfold sht15_soft_reset, msleep. logs_tac.
Qed.

Lemma logs_ack : logs Q sht15_ack.
Proof.
  unfold sht15_ack, gpio_direction_output, gpio_direction_input,
    gpio_set_value, ndelay.
  logs_tac.
Qed.

Lemma logs_end_transmission : logs Q sht15_end_transmission.
Proof.
  unfold sht15_end_transmission, gpio_direction_output, gpio_set_value, ndelay.
  logs_tac.
Qed.

Lemma logs_read_byte_loop (n : nat) :
  forall byte, logs Q (sht15_read_byte_loop n byte).
Proof.
  induction n as [|n IH]; intros byte; cbn [sht15_read_byte_loop].
  - apply logs_ret.
  - pose proof (logs_gpio_get_value gpio_data) as Hg.
    unfold gpio_set_value, ndelay. logs_tac.
Qed.

Lemma logs_read_byte : logs Q sht15_read_byte.
Proof. apply logs_read_byte_loop. Qed.

Lemma logs_send_status (status : Z) : logs Q (sht15_send_status status).
Proof.
  pose proof (logs_send_cmd SHT15_WRITE_STATUS) as Hc.
  pose proof (logs_send_byte status) as Hb.
  pose proof logs_wait_for_response as Hw.
  unfold sht15_send_status, gpio_direction_output, ndelay. logs_tac.
Qed.

Lemma logs_update_status_refresh : logs Q sht15_update_status_refresh.
Proof.
  pose proof (logs_send_cmd SHT15_READ_STATUS) as Hc.
  pose proof logs_read_byte as Hr.
  pose proof logs_ack as Ha.
  pose proof logs_end_transmission as He.
  pose proof logs_soft_reset as Hs.
  pose proof logs_send_status as Hw.
  unfold sht15_update_status_refresh, dev_err. logs_tac.
Qed.

Section Irq.

Hypothesis Q_irq : forall e, irq_event e = true -> Q e.

Lemma logs_schedule_work : logs Q schedule_work.
Proof.
  intros s.
  eapply (post_exact _ s tt _ [EvScheduleWork]); [reflexivity | reflexivity |].
  repeat constructor. apply Q_irq. reflexivity.
Qed.

Lemma logs_disable_irq : logs Q disable_irq_nosync.
Proof.
  intros s.
  eapply (post_exact _ s tt _ [EvDisableIrq]); [reflexivity | reflexivity |].
  repeat constructor. apply Q_irq. reflexivity.
Qed.

Lemma logs_interrupt_fired : logs Q sht15_interrupt_fired.
Proof.
  pose proof logs_schedule_work as Hs.
  pose proof logs_disable_irq as Hd.
  unfold sht15_interrupt_fired, atomic_inc_unchecked. logs_tac.
Qed.

Lemma logs_irq_delivery : logs Q irq_delivery.
Proof.
  intros s. unfold post, irq_delivery.
  destruct (irq_enabled s); [|apply (logs_ret false s)].
  destruct (irq_in s) as [|[|] rest]; [apply (logs_ret false s)| |].
  - destruct (logs_interrupt_fired (set_irq_in rest s)) as (evs & Ht & H).
    destruct (sht15_interrupt_fired (set_irq_in rest s)) as [u s1].
    exists evs. split; [exact Ht | exact H].
  - exists []. split; [cbn; now rewrite app_nil_r|]. constructor.
Qed.

Lemma logs_enable_irq : logs Q enable_irq.
Proof.
  unfold enable_irq. apply logs_bind.
  - intros s.
    eapply (post_exact _ s tt _ [EvEnableIrq]); [reflexivity | reflexivity |].
    repeat constructor. apply Q_irq. reflexivity.
  - intros _. apply logs_bind; [apply logs_irq_delivery|].
    intros _. apply logs_ret.
Qed.

Lemma logs_bh_read_data_ready : logs Q sht15_bh_read_data_ready.
Proof.
  pose proof logs_read_byte as Hr.
  pose proof logs_ack as Ha.
  pose proof logs_end_transmission as He.
  unfold sht15_bh_read_data_ready, wake_up. logs_tac.
Qed.

Lemma logs_bh_read_data : logs Q sht15_bh_read_data.
Proof.
  pose proof logs_bh_read_data_ready as Hr.
  pose proof logs_enable_irq as He.
  pose proof (logs_gpio_get_value gpio_data) as Hg.
  unfold sht15_bh_read_data, atomic_set_unchecked. logs_tac.
Qed.

Lemma logs_wait_event_loop (fuel : nat) : logs Q (wait_event_loop fuel).
Proof.
  induction fuel as [|fuel IH]; intros s; unfold post;
    cbn [wait_event_loop];
    destruct (sht15_state_eqb (state (dat s)) SHT15_READING_NOTHING);
    try apply (logs_ret 1 s); try apply (logs_ret 0 s).
  destruct (work_pending s).
  - assert (H : logs Q (sht15_bh_read_data ;; wait_event_loop fuel)).
    { apply logs_bind; [apply logs_bh_read_data|]. intros _. exact IH. }
    destruct (H (set_work_pending false s)) as (evs & Ht & HQ).
    exists evs. split; [exact Ht | exact HQ].
  - assert (H : logs Q (fired <- irq_delivery ;;
                        if fired then wait_event_loop fuel else ret 0)).
    { apply logs_bind; [apply logs_irq_delivery|].
      intros fired. destruct fired; [exact IH | apply logs_ret]. }
    exact (H s).
Qed.

Lemma logs_wait_event_timeout (t : Z) : logs Q (wait_event_timeout t).
Proof.
  unfold wait_event_timeout. apply logs_bind.
  - apply logs_emit. apply Q_irq. reflexivity.
  - intros _ s. apply logs_wait_event_loop.
Qed.

Lemma logs_measurement (command timeout_msecs : Z) :
  logs Q (sht15_measurement command timeout_msecs).
Proof.
  pose proof (logs_send_cmd command) as Hc.
  pose proof logs_enable_irq as He.
  pose proof logs_disable_irq as Hd.
  pose proof logs_schedule_work as Hw.
  pose proof (logs_gpio_get_value gpio_data) as Hg.
  pose proof logs_wait_event_timeout as Ht.
  pose proof logs_connection_reset as Hr.
  pose proof logs_soft_reset as Hs.
  pose proof logs_send_status as Hss.
  unfold sht15_measurement, gpio_direction_input, atomic_set_unchecked,
    dev_err.
  logs_tac.
Qed.

Lemma logs_update_measurements_refresh :
  logs Q sht15_update_measurements_refresh.
Proof.
  pose proof logs_measurement as Hm.
  unfold sht15_update_measurements_refresh. logs_tac.
Qed.

End Irq.

End Bus.

End Logs.

Lemma post_locked {A B : Type} (Q : event -> Prop) (body : M A) (g : A -> B)
      (s : machine) :
  logs Q body ->
  post (mutex_lock ;; r <- body ;; mutex_unlock ;; ret (g r)) s
       (fun _ _ evs => locked Q evs).
Proof.
  intros Hb. unfold mutex_lock, mutex_unlock.
  eapply (post_bind _ _ _ (fun _ _ e1 => e1 = [EvLock])).
  { apply post_emit. reflexivity. }
  intros _ s1 e1 ->.
  eapply post_bind; [apply Hb|].
  intros r s2 e2 H2. cbv beta in H2.
  eapply (post_bind _ _ _ (fun _ _ e3 => e3 = [EvUnlock])).
  { apply post_emit. reflexivity. }
  intros _ s3 e3 ->.
  apply post_ret. exists e2. rewrite app_nil_r. split; [reflexivity|exact H2].
Qed.

Lemma bus_not_irq (e : event) : bus_event e = true -> lock_event e = false.
Proof. destruct e; cbn; congruence. Qed.

Lemma irq_not_lock (e : event) : irq_event e = true -> lock_event e = false.
Proof. destruct e; cbn; congruence. Qed.

(** X14: every call of [sht15_update_status], [sht15_update_measurements]
    and [sht15_store_heater] (with an input that parses) takes the mutex
    first and releases it last, exactly once each, on every path, failures
    included.  In between, reading or writing the status register only
    drives and samples the GPIO lines (it never arms the interrupt, queues
    work or sleeps on the wait queue).  A store whose input does not parse
    returns before taking the mutex and logs nothing. *)
Theorem sht15_mutex_discipline (s : machine) (value count : Z) :
  locked (fun e => bus_event e = true) (emitted sht15_update_status s)
  /\ locked (fun e => bus_event e = true)
            (emitted (sht15_store_heater (Some value) count) s)
  /\ locked (fun e => lock_event e = false)
            (emitted sht15_update_measurements s)
  /\ emitted (sht15_store_heater None count) s = []
  /\ fst (sht15_store_heater None count s) = - EINVAL.
Proof.
  split; [|split; [|split; [|split]]].
  - apply (post_emitted sht15_update_status s (fun _ _ evs => locked _ evs)).
    unfold sht15_update_status.
    rewrite bind_get_kernel_post.
    apply (post_locked _ (j <- get_jiffies ;; data <- get_data ;;
                          if time_after j (last_status data + HZ (kern s))
                             || negb (status_valid data)
                          then sht15_update_status_refresh else ret 0)
                       (fun r => r)).
    pose proof (logs_update_status_refresh _ (fun e H => H)) as Hr.
    apply logs_bind; [apply logs_get_jiffies|]. intros j.
    apply logs_bind; [apply logs_get_data|]. intros data.
    destruct (_ || _); [exact Hr | apply logs_ret].
  - apply (post_emitted (sht15_store_heater (Some value) count) s
             (fun _ _ evs => locked _ evs)).
    unfold sht15_store_heater, mutex_lock, mutex_unlock.
    eapply (post_bind _ _ _ (fun _ _ e1 => e1 = [EvLock])).
    { apply post_emit. reflexivity. }
    intros _ s1 e1 ->. rewrite bind_get_data_post.
    eapply post_bind; [apply (logs_send_status _ (fun e H => H))|].
    intros r s2 e2 H2. cbv beta in H2.
    eapply (post_bind _ _ _ (fun _ _ e3 => e3 = [EvUnlock])).
    { apply post_emit. reflexivity. }
    intros _ s3 e3 ->.
    apply post_ret. exists e2. rewrite app_nil_r.
    split; [reflexivity|exact H2].
  - apply (post_emitted sht15_update_measurements s
             (fun _ _ evs => locked _ evs)).
    unfold sht15_update_measurements.
    rewrite bind_get_kernel_post.
    apply (post_locked _ (j <- get_jiffies ;; data <- get_data ;;
                          if time_after j (last_measurement data + HZ (kern s))
                             || negb (measurements_valid data)
                          then sht15_update_measurements_refresh else ret 0)
                       (fun r => r)).
    pose proof (logs_update_measurements_refresh _ bus_not_irq irq_not_lock)
      as Hr.
    apply logs_bind; [apply logs_get_jiffies|]. intros j.
    apply logs_bind; [apply logs_get_data|]. intros data.
    destruct (_ || _); [exact Hr | apply logs_ret].
  - apply (emitted_exact _ s (- EINVAL) s []); [reflexivity|].
    now rewrite app_nil_r.
  - reflexivity.
Qed.

Lemma emit_run (e : event) (d : sht15_data) (i : list bool)
      (evs : list event) (s : machine) :
  emit e (set_dat d (io i evs s)) = (tt, set_dat d (io i (evs ++ [e]) s)).
Proof. unfold emit, set_trace, set_dat, io. cbn. now rewrite app_assoc. Qed.

Lemma bh_read_data_ready_run (s : machine) :
  exists evs,
    sht15_bh_read_data_ready s
    = (tt, set_dat (bh_stored (dat s) (data_in s))
             (io (bh_rest (dat s) (data_in s)) evs s))
    /\ trans PIdle PIdle [] evs
    /\ exists pre, evs = pre ++ [EvWakeUp].
Proof.
  unfold sht15_bh_read_data_ready, bh_stored, bh_rest, bh_crc_ok, bh_value,
    bh_command, byte_read, wake_up.
  step. rewrite read_byte_rest.
  step. rewrite (proj2 (trans_ack _)).
  step. rewrite read_byte_rest.
  step.
  pose proof (trans_read_byte (data_in s)) as T1.
  destruct (trans_ack (skipn 8 (data_in s))) as [T2 _].
  pose proof (trans_read_byte (skipn 8 (data_in s))) as T3.
  destruct (checksumming (dat s)) eqn:C; cbv iota zeta.
  - rewrite bind_assoc. step. rewrite (proj2 (trans_ack _)).
    rewrite bind_assoc. step. rewrite read_byte_rest.
    step. step. rewrite (proj2 (trans_end_transmission _)).
    step. step. rewrite emit_run.
    eexists. split; [reflexivity|].
    destruct (trans_ack (skipn 8 (skipn 8 (data_in s)))) as [T4 _].
    pose proof (trans_read_byte (skipn 8 (skipn 8 (data_in s)))) as T5.
    destruct (trans_end_transmission
                (skipn 8 (skipn 8 (skipn 8 (data_in s))))) as [T6 _].
    split; [trans_r|]. eexists; reflexivity.
  - rewrite bind_ret. step. rewrite (proj2 (trans_end_transmission _)).
    step. step. rewrite emit_run.
    eexists. split; [reflexivity|].
    destruct (trans_end_transmission (skipn 8 (skipn 8 (data_in s))))
      as [T6 _].
    split; [trans_r|]. eexists; reflexivity.
Qed.

Lemma lor_bytes (hi lo : Z) :
  is_byte hi -> is_byte lo ->
  u16 (Z.lor (u16 (Z.shiftl hi 8)) lo) = 256 * hi + lo.
Proof.
  intros Hh Hl.
  assert (H : forallb (fun a => forallb (fun b =>
                u16 (Z.lor (u16 (Z.shiftl a 8)) b) =? 256 * a + b)
                (map Z.of_nat (seq 0 256))) (map Z.of_nat (seq 0 256)) = true)
    by (vm_compute; reflexivity).
  pose proof (forall_below _ 256 H hi Hh) as Hrow. cbv beta in Hrow.
  pose proof (forall_below _ 256 Hrow lo Hl) as Hc. cbv beta in Hc. lia.
Qed.

Lemma split_bytes (hi lo : Z) :
  is_byte hi -> is_byte lo ->
  u8 (Z.shiftr (256 * hi + lo) 8) = hi /\ u8 (256 * hi + lo) = lo.
Proof.
  unfold is_byte, u8. intros Hh Hl.
  rewrite Z.shiftr_div_pow2 by lia. change (2 ^ 8) with 256.
  split; Z.div_mod_to_equations; lia.
Qed.

Lemma bh_value_reply (hi lo : Z) (rest : list bool) :
  is_byte hi -> is_byte lo ->
  bh_value (msb_bits hi ++ msb_bits lo ++ rest) = 256 * hi + lo.
Proof.
  intros Hh Hl. unfold bh_value.
  destruct (byte_read_reply hi lo rest Hh Hl) as (E1 & E2 & _).
  rewrite E1, E2. apply lor_bytes; assumption.
Qed.

Lemma bh_crc_ok_reply (d : sht15_data) (seed hi lo : Z) (rest : list bool) :
  is_byte hi -> is_byte lo ->
  bh_crc_ok d (device_measurement_reply true seed (bh_command d) hi lo rest)
  = (crc8_reference (val_status d) [bh_command d; hi; lo]
     =? crc8_reference seed [bh_command d; hi; lo]).
Proof.
  intros Hh Hl. unfold bh_crc_ok, device_measurement_reply.
  rewrite bh_value_reply by assumption.
  destruct (split_bytes hi lo Hh Hl) as [E1 E2]. rewrite E1, E2.
  set (c := bitrev8 (crc8_reference seed [bh_command d; hi; lo])).
  assert (Hc : is_byte c) by apply bitrev8_byte, crc8_reference_byte.
  destruct (byte_read_reply hi lo (msb_bits c ++ rest) Hh Hl) as (_ & _ & E3).
  rewrite E3.
  destruct (byte_read_msb_bits c rest Hc) as [E4 _]. rewrite E4.
  unfold c. rewrite sht15_reverse_bitrev8 by apply crc8_reference_byte.
  change 3%nat with (length [bh_command d; hi; lo]).
  now rewrite crc8_reference_eq.
Qed.

Lemma bh_rest_reply (d : sht15_data) (seed hi lo : Z) (rest : list bool) :
  is_byte hi -> is_byte lo ->
  bh_rest d (device_measurement_reply (checksumming d) seed (bh_command d)
               hi lo rest)
  = rest.
Proof.
  intros Hh Hl. unfold bh_rest, device_measurement_reply.
  destruct (checksumming d).
  - set (c := bitrev8 (crc8_reference seed [bh_command d; hi; lo])).
    assert (Hc : is_byte c) by apply bitrev8_byte, crc8_reference_byte.
    destruct (byte_read_reply hi lo (msb_bits c ++ rest) Hh Hl)
      as (_ & _ & E3).
    rewrite E3. apply (byte_read_msb_bits c rest Hc).
  - cbn [app]. apply (byte_read_reply hi lo rest Hh Hl).
Qed.

(** X15: when the device spells a measurement honestly, the
    deferred read assembles the 16-bit value from the two bytes, most
    significant first, stores it in the field the state selects (temperature
    or humidity) and leaves the other one alone, accepts the checksum when
    checksums are on, returns the state to idle, wakes the waiter as its last
    action and frames nothing on the wire. *)
Theorem sht15_bh_read_data_ready_stores (s : machine) (seed hi lo : Z)
        (rest : list bool) :
  is_byte hi -> is_byte lo ->
  (checksumming (dat s) = true ->
   Z.land seed 0x0F = Z.land (val_status (dat s)) 0x0F) ->
  data_in s = device_measurement_reply (checksumming (dat s)) seed
                (bh_command (dat s)) hi lo rest ->
  let s' := snd (sht15_bh_read_data_ready s) in
  match state (dat s) with
  | SHT15_READING_TEMP =>
      val_temp (dat s') = 256 * hi + lo /\ val_humid (dat s') = val_humid (dat s)
  | SHT15_READING_HUMID =>
      val_humid (dat s') = 256 * hi + lo /\ val_temp (dat s') = val_temp (dat s)
  | SHT15_READING_NOTHING =>
      val_temp (dat s') = val_temp (dat s)
      /\ val_humid (dat s') = val_humid (dat s)
  end
  /\ state (dat s') = SHT15_READING_NOTHING
  /\ checksum_ok (dat s')
     = (if checksumming (dat s) then true else checksum_ok (dat s))
  /\ val_status (dat s') = val_status (dat s)
  /\ data_in s' = rest
  /\ wire (emitted sht15_bh_read_data_ready s) = []
  /\ exists pre, emitted sht15_bh_read_data_ready s = pre ++ [EvWakeUp].
Proof.
  intros Hh Hl Hnib Hin. cbv zeta.
  destruct (bh_read_data_ready_run s) as (evs & E & T & Hlast).
  rewrite (emitted_exact _ _ _ _ _ E (trace_set_dat_io _ _ _ _)).
  rewrite E. cbn [snd]. rewrite dat_set_dat, data_in_set_dat, data_in_io.
  rewrite Hin, bh_rest_reply by assumption.
  assert (V : bh_value (device_measurement_reply (checksumming (dat s)) seed
                          (bh_command (dat s)) hi lo rest) = 256 * hi + lo)
    by (apply bh_value_reply; assumption).
  assert (K : checksumming (dat s) = true ->
              bh_crc_ok (dat s)
                (device_measurement_reply (checksumming (dat s)) seed
                   (bh_command (dat s)) hi lo rest) = true).
  { intros C. rewrite C, bh_crc_ok_reply by assumption.
    rewrite (crc8_reference_nibble (val_status (dat s)) seed)
      by (symmetry; apply Hnib; exact C).
    apply Z.eqb_refl. }
  unfold bh_stored. rewrite V.
  split; [|split; [|split; [|split; [|split; [|split]]]]].
  - destruct (checksumming (dat s)), (state (dat s)) eqn:St;
      cbn [state set_checksum_ok]; rewrite ?St; split; reflexivity.
  - reflexivity.
  - destruct (checksumming (dat s)) eqn:C.
    + rewrite (K eq_refl).
      destruct (state (dat s)) eqn:St; cbn [state set_checksum_ok];
        rewrite ?St; reflexivity.
    + destruct (state (dat s)); reflexivity.
  - destruct (checksumming (dat s)), (state (dat s)) eqn:St;
      cbn [state set_checksum_ok]; rewrite ?St; reflexivity.
  - reflexivity.
  - exact (trans_wire _ _ _ T).
  - exact Hlast.
Qed.

Lemma sht15_bh_read_data_ready_stores_witness :
  val_temp (dat (snd (sht15_bh_read_data_ready
     (mk_machine example_kernel
        (mk_data 0 0 0 false true SHT15_READING_TEMP false false 0 0
                 3300000 true 0)
        1000
        (device_measurement_reply true 0 SHT15_MEASURE_TEMP 8 15 [])
        [] false false [])))) = 256 * 8 + 15.
Proof.
  refine (proj1 (proj1 (sht15_bh_read_data_ready_stores
     (mk_machine example_kernel
        (mk_data 0 0 0 false true SHT15_READING_TEMP false false 0 0
                 3300000 true 0)
        1000
        (device_measurement_reply true 0 SHT15_MEASURE_TEMP 8 15 [])
        [] false false []) 0 8 15 [] _ _ _ _))).
  - unfold is_byte. lia.
  - unfold is_byte. lia.
  - intros _. reflexivity.
  - reflexivity.
Defined.

(** ** A measurement that completes *)

Lemma state_eqb_idle (d : sht15_data) :
  state d <> SHT15_READING_NOTHING ->
  sht15_state_eqb (state d) SHT15_READING_NOTHING = false.
Proof. destruct (state d); [contradiction | reflexivity | reflexivity]. Qed.

(** The deferred read that finds the line low. *)
Lemma bh_read_data_low (s : machine) :
  hd true (data_in s) = false ->
  exists evs,
    sht15_bh_read_data s
    = (tt, set_dat (bh_stored (dat s) (tl (data_in s)))
             (io (bh_rest (dat s) (tl (data_in s))) evs s))
    /\ trans PIdle PIdle [] evs.
Proof.
  intros Hlow. unfold sht15_bh_read_data.
  rewrite bind_reads by reads_tac.
  destruct (gpio_get_value_res gpio_data (data_in s)) as (E1 & E2 & E3).
  rewrite E1, E2, E3, Hlow. cbv iota.
  destruct (bh_read_data_ready_run
              (io (tl (data_in s)) [EvGet gpio_data false] s))
    as (evs & E & T & _).
  rewrite E. norm_machine.
  eexists. split; [reflexivity|].
  apply trans_quiet_l; [apply trans_get_idle | exact T].
Qed.

(** While the caller waits, queued work that finds the line low completes
    the measurement. *)
Lemma wait_event_timeout_work (t : Z) (s : machine) :
  state (dat s) <> SHT15_READING_NOTHING ->
  work_pending s = true ->
  hd true (data_in s) = false ->
  exists evs,
    wait_event_timeout t s
    = (1, upd (bh_stored (dat s) (tl (data_in s)))
              (bh_rest (dat s) (tl (data_in s)))
              (irq_in s) (irq_enabled s) false evs s)
    /\ trans PIdle PIdle [WWait t] evs.
Proof.
  intros Hst Hwp Hlow.
  destruct s as [k d j ins irqs en wp tr].
  cbn [dat work_pending data_in irq_in irq_enabled] in *. subst wp.
  unfold wait_event_timeout, bind, emit, set_trace.
  cbn [kern dat jiffies data_in irq_in irq_enabled work_pending trace].
  replace (2 * length irqs + 2)%nat with (S (2 * length irqs + 1)) by lia.
  cbn [wait_event_loop dat work_pending].
  rewrite (state_eqb_idle d Hst).
  unfold set_work_pending.
  cbn [kern dat jiffies data_in irq_in irq_enabled trace].
  match goal with
  | |- exists _, bind _ _ ?S = _ /\ _ =>
      destruct (bh_read_data_low S Hlow) as (evs & E & T);
      rewrite (bind_run _ _ _ _ _ E)
  end.
  cbn [dat data_in] in *.
  assert (Hidle : forall n S',
             state (dat S') = SHT15_READING_NOTHING ->
             wait_event_loop n S' = (1, S')).
  { intros n S' HS. destruct n; cbn [wait_event_loop]; rewrite HS;
      reflexivity. }
  rewrite Hidle by reflexivity.
  exists ([EvWait t] ++ evs). split.
  - unfold upd, set_dat, io.
    cbn [kern dat jiffies data_in irq_in irq_enabled work_pending trace].
    rewrite <- app_assoc. reflexivity.
  - apply (trans_cons PIdle PIdle PIdle (WWait t) [] [EvWait t] evs);
      [apply trans_wait | exact T].
Qed.

Lemma irq_delivery_fires (s : machine) (q : list bool) :
  state (dat s) <> SHT15_READING_NOTHING ->
  irq_enabled s = true ->
  irq_in s = true :: q ->
  irq_delivery s
  = (true,
     upd (set_interrupt_handled (int32 (interrupt_handled (dat s) + 1)) (dat s))
         (data_in s) q false true [EvDisableIrq; EvScheduleWork] s).
Proof.
  intros Hst Hen Hq.
  destruct s as [k d j ins irqs en wp tr].
  cbn [dat irq_enabled irq_in] in *. subst en irqs.
  unfold irq_delivery. cbn [irq_enabled irq_in].
  unfold sht15_interrupt_fired, bind, disable_irq_nosync, atomic_inc_unchecked,
    modify_data, get_data, schedule_work, set_irq_in, set_trace,
    set_irq_enabled, set_dat, set_work_pending, upd.
  cbn [kern dat jiffies data_in irq_in irq_enabled work_pending trace].
  cbn [state set_interrupt_handled].
  rewrite (state_eqb_idle d Hst). cbn [negb].
  cbn [kern dat jiffies data_in irq_in irq_enabled work_pending trace].
  now rewrite <- app_assoc.
Qed.

Lemma enable_irq_quiet (s : machine) :
  hd false (irq_in s) = false ->
  enable_irq s =
  (tt, upd (dat s) (data_in s) (tl (irq_in s)) true (work_pending s)
           [EvEnableIrq] s).
Proof.
  intros H. destruct s as [k d j ins irqs en wp tr].
  cbn [irq_in] in H.
  unfold enable_irq, bind, irq_delivery, set_trace, set_irq_enabled, upd,
    set_irq_in.
  cbn [kern dat jiffies data_in irq_in irq_enabled work_pending trace].
  destruct irqs as [|[|] q]; [reflexivity | discriminate | reflexivity].
Qed.

(** While the caller waits, the interrupt fires, queues the work, and the
    work finds the line low. *)
Lemma wait_event_timeout_irq (t : Z) (s : machine) (q : list bool) :
  state (dat s) <> SHT15_READING_NOTHING ->
  work_pending s = false ->
  irq_enabled s = true ->
  irq_in s = true :: q ->
  hd true (data_in s) = false ->
  let d' := set_interrupt_handled (int32 (interrupt_handled (dat s) + 1))
                                  (dat s) in
  exists evs,
    wait_event_timeout t s
    = (1, upd (bh_stored d' (tl (data_in s))) (bh_rest d' (tl (data_in s)))
              q false false evs s)
    /\ trans PIdle PIdle [WWait t] evs.
Proof.
  intros Hst Hwp Hen Hq Hlow d'.
  pose proof (irq_delivery_fires s q Hst Hen Hq) as Ef.
  destruct s as [k d j ins irqs en wp tr].
  cbn [dat work_pending data_in irq_in irq_enabled] in *.
  subst wp en irqs.
  unfold wait_event_timeout, bind at 1, emit, set_trace.
  cbn [kern dat jiffies data_in irq_in irq_enabled work_pending trace length].
  replace (2 * S (length q) + 2)%nat with (S (S (2 * length q + 2))) by lia.
  cbn [wait_event_loop dat work_pending].
  rewrite (state_eqb_idle d Hst).
  set (S0 := mk_machine k d j ins (true :: q) true false (tr ++ [EvWait t])).
  assert (Ef0 : irq_delivery S0
                = (true, upd d' ins q false true
                           [EvDisableIrq; EvScheduleWork] S0)).
  { apply (irq_delivery_fires S0 q Hst eq_refl eq_refl). }
  rewrite (bind_run _ _ _ _ _ Ef0). cbv iota.
  cbn [wait_event_loop]. rewrite dat_upd, work_pending_upd.
  assert (Hst' : state d' <> SHT15_READING_NOTHING) by exact Hst.
  rewrite (state_eqb_idle d' Hst').
  assert (Ew : set_work_pending false
                 (upd d' ins q false true [EvDisableIrq; EvScheduleWork] S0)
               = upd d' ins q false false [EvDisableIrq; EvScheduleWork] S0)
    by reflexivity.
  rewrite Ew.
  match goal with
  | |- exists _, bind _ _ ?S = _ /\ _ =>
      destruct (bh_read_data_low S Hlow) as (evs & E & T);
      rewrite (bind_run _ _ _ _ _ E)
  end.
  rewrite dat_upd, data_in_upd in *.
  assert (Hidle : forall n S',
             state (dat S') = SHT15_READING_NOTHING ->
             wait_event_loop n S' = (1, S')).
  { intros n S' HS. destruct n; cbn [wait_event_loop]; rewrite HS;
      reflexivity. }
  rewrite Hidle by reflexivity.
  exists (([EvWait t] ++ [EvDisableIrq; EvScheduleWork]) ++ evs). split.
  - rewrite to_upd. norm_upd. unfold upd, S0.
    cbn [kern dat jiffies data_in irq_in irq_enabled work_pending trace].
    rewrite <- !app_assoc. reflexivity.
  - apply (trans_cons PIdle PIdle PIdle (WWait t) []
             ([EvWait t] ++ [EvDisableIrq; EvScheduleWork]) evs); [|exact T].
    apply trans_quiet_r; [apply trans_wait|].
    apply (trans_app PIdle PIdle PIdle [] [] [EvDisableIrq] [EvScheduleWork]);
      [apply (trans_quiet_event _ EvDisableIrq); exact I
      |apply (trans_quiet_event _ EvScheduleWork); exact I].
Qed.

Lemma schedule_work_run (s : machine) :
  schedule_work s =
  (tt, upd (dat s) (data_in s) (irq_in s) (irq_enabled s) true
           [EvScheduleWork] s).
Proof. reflexivity. Qed.

Lemma bh_stored_fields (d : sht15_data) (ins : list bool) :
  state (bh_stored d ins) = SHT15_READING_NOTHING
  /\ checksumming (bh_stored d ins) = checksumming d
  /\ val_status (bh_stored d ins) = val_status d
  /\ interrupt_handled (bh_stored d ins) = interrupt_handled d
  /\ checksum_ok (bh_stored d ins)
     = (if checksumming d then bh_crc_ok d ins else checksum_ok d)
  /\ val_temp (bh_stored d ins)
     = match state d with
       | SHT15_READING_TEMP => bh_value ins
       | _ => val_temp d
       end
  /\ val_humid (bh_stored d ins)
     = match state d with
       | SHT15_READING_HUMID => bh_value ins
       | _ => val_humid d
       end
  /\ same_cache d (bh_stored d ins).
Proof.
  unfold bh_stored, same_cache.
  generalize (bh_crc_ok d ins), (bh_value ins). intros c v.
  destruct d as [vt vh vs ck cs st mv sv lm ls su suv ih].
  destruct cs, st; cbn; repeat split.
Qed.

(** A measurement the device has ready when the driver looks. *)
Lemma measurement_polled_run (command timeout_msecs : Z) (s : machine) :
  (u8 command =? SHT15_WRITE_STATUS) = false ->
  state (dat s) <> SHT15_READING_NOTHING ->
  work_pending s = false ->
  nak1 (data_in s) = false ->
  hd true (tl (data_in s)) = false ->
  hd true (tl (tl (data_in s))) = false ->
  hd false (irq_in s) = false ->
  let d0 := set_interrupt_handled 0 (dat s) in
  let ins3 := tl (tl (tl (data_in s))) in
  checksumming (dat s) && negb (checksum_ok (bh_stored d0 ins3)) = false ->
  exists evs,
    sht15_measurement command timeout_msecs s
    = (0, upd (bh_stored d0 ins3) (bh_rest d0 ins3) (tl (irq_in s))
              false false evs s)
    /\ trans PIdle PIdle
             [WCmd (u8 command);
              WWait (msecs_to_jiffies (kern s) timeout_msecs)] evs.
Proof.
  intros Hcmd Hst Hwp Hack Hlow1 Hlow2 Hirq d0 ins3 Hcrc.
  unfold sht15_measurement. step.
  rewrite send_cmd_res, send_cmd_rest.
  unfold nak1 in Hack. rewrite Hack.
  change (negb (0 =? 0)) with false. cbv iota.
  unfold gpio_direction_input, atomic_set_unchecked. step. step.
  rewrite to_upd.
  match goal with
  | |- exists _, bind enable_irq _ ?S = _ /\ _ =>
      rewrite (bind_run _ _ _ _ _ (enable_irq_quiet S Hirq))
  end.
  norm_upd.
  rewrite bind_reads by reads_tac. norm_upd.
  destruct (gpio_get_value_res gpio_data (tl (data_in s))) as (E1 & E2 & E3).
  rewrite E1, E2, E3, Hlow1.
  change (negb false) with true. cbv iota.
  rewrite bind_assoc.
  match goal with
  | |- exists _, bind disable_irq_nosync _ ?S = _ /\ _ =>
      rewrite (bind_run _ _ _ _ _ (disable_irq_run S))
  end.
  norm_upd.
  rewrite bind_assoc, bind_get_data. norm_upd.
  change (interrupt_handled (set_interrupt_handled 0 (dat s)) =? 0) with true.
  cbv iota.
  match goal with
  | |- exists _, bind schedule_work _ ?S = _ /\ _ =>
      rewrite (bind_run _ _ _ _ _ (schedule_work_run S))
  end.
  norm_upd.
  rewrite bind_get_kernel. norm_upd.
  match goal with
  | |- exists _, bind (wait_event_timeout ?t) _ ?S = _ /\ _ =>
      destruct (wait_event_timeout_work t S Hst eq_refl Hlow2)
        as (evs & E & T);
      rewrite (bind_run _ _ _ _ _ E)
  end.
  norm_upd.
  change (1 =? 0) with false. cbv iota.
  rewrite bind_get_data. norm_upd.
  fold d0 ins3.
  assert (Hc : checksumming (bh_stored d0 ins3) = checksumming (dat s)).
  { destruct (bh_stored_fields d0 ins3) as (_ & Hc & _). exact Hc. }
  rewrite Hc, Hcrc. unfold ret.
  eexists. split; [reflexivity|].
  pose proof (trans_send_cmd command (data_in s)) as Tc.
  rewrite Hack, Hcmd in Tc. cbn [negb andb] in Tc.
  repeat rewrite <- app_assoc.
  apply (trans_cons _ _ _ _ _ _ _ Tc).
  repeat (apply trans_quiet_l;
          [first [ apply (trans_quiet_event _ (EvDirIn gpio_data)); exact I
                 | apply (trans_quiet_event _ EvEnableIrq); exact I
                 | apply (trans_quiet_event _ EvDisableIrq); exact I
                 | apply (trans_quiet_event _ EvScheduleWork); exact I
                 | apply trans_get_idle ]|]).
  exact T.
Qed.

Lemma interrupt_handled_once (d : sht15_data) :
  set_interrupt_handled
    (int32 (interrupt_handled (set_interrupt_handled 0 d) + 1))
    (set_interrupt_handled 0 d)
  = set_interrupt_handled 1 d.
Proof. reflexivity. Qed.

(** A measurement whose completion is signalled by the interrupt while the
    caller waits. *)
Lemma measurement_irq_run (command timeout_msecs : Z) (s : machine)
      (q : list bool) :
  (u8 command =? SHT15_WRITE_STATUS) = false ->
  state (dat s) <> SHT15_READING_NOTHING ->
  work_pending s = false ->
  nak1 (data_in s) = false ->
  hd true (tl (data_in s)) = true ->
  hd true (tl (tl (data_in s))) = false ->
  hd false (irq_in s) = false ->
  tl (irq_in s) = true :: q ->
  let d1 := set_interrupt_handled 1 (dat s) in
  let ins3 := tl (tl (tl (data_in s))) in
  checksumming (dat s) && negb (checksum_ok (bh_stored d1 ins3)) = false ->
  exists evs,
    sht15_measurement command timeout_msecs s
    = (0, upd (bh_stored d1 ins3) (bh_rest d1 ins3) q false false evs s)
    /\ trans PIdle PIdle
             [WCmd (u8 command);
              WWait (msecs_to_jiffies (kern s) timeout_msecs)] evs.
Proof.
  intros Hcmd Hst Hwp Hack Hhigh Hlow2 Hirq Hq d1 ins3 Hcrc.
  unfold sht15_measurement. step.
  rewrite send_cmd_res, send_cmd_rest.
  unfold nak1 in Hack. rewrite Hack.
  change (negb (0 =? 0)) with false. cbv iota.
  unfold gpio_direction_input, atomic_set_unchecked. step. step.
  rewrite to_upd.
  match goal with
  | |- exists _, bind enable_irq _ ?S = _ /\ _ =>
      rewrite (bind_run _ _ _ _ _ (enable_irq_quiet S Hirq))
  end.
  norm_upd.
  rewrite bind_reads by reads_tac. norm_upd.
  destruct (gpio_get_value_res gpio_data (tl (data_in s))) as (E1 & E2 & E3).
  rewrite E1, E2, E3, Hhigh.
  change (negb true) with false. cbv iota.
  rewrite bind_ret, bind_get_kernel. norm_upd.
  rewrite Hq.
  match goal with
  | |- exists _, bind (wait_event_timeout ?t) _ ?S = _ /\ _ =>
      destruct (wait_event_timeout_irq t S q Hst Hwp eq_refl eq_refl Hlow2)
        as (evs & E & T);
      rewrite (bind_run _ _ _ _ _ E)
  end.
  norm_upd. rewrite interrupt_handled_once.
  change (1 =? 0) with false. cbv iota.
  rewrite bind_get_data. norm_upd.
  fold d1 ins3.
  assert (Hc : checksumming (bh_stored d1 ins3) = checksumming (dat s)).
  { destruct (bh_stored_fields d1 ins3) as (_ & Hc & _). exact Hc. }
  rewrite Hc, Hcrc. unfold ret.
  eexists. split; [reflexivity|].
  pose proof (trans_send_cmd command (data_in s)) as Tc.
  rewrite Hack, Hcmd in Tc. cbn [negb andb] in Tc.
  repeat rewrite <- app_assoc.
  apply (trans_cons _ _ _ _ _ _ _ Tc).
  repeat (apply trans_quiet_l;
          [first [ apply (trans_quiet_event _ (EvDirIn gpio_data)); exact I
                 | apply (trans_quiet_event _ EvEnableIrq); exact I
                 | apply trans_get_idle ]|]).
  exact T.
Qed.

Lemma measurement_honest_run (command timeout_msecs : Z) (s : machine)
      (ready : bool) (seed hi lo : Z) (q rest : list bool) :
  (u8 command =? SHT15_WRITE_STATUS) = false ->
  state (dat s) <> SHT15_READING_NOTHING ->
  bh_command (dat s) = u8 command ->
  work_pending s = false ->
  is_byte hi -> is_byte lo ->
  (checksumming (dat s) = true ->
   Z.land seed 0x0F = Z.land (val_status (dat s)) 0x0F) ->
  data_in s = measurement_levels ready
                (device_measurement_reply (checksumming (dat s)) seed
                   (u8 command) hi lo rest) ->
  irq_in s = irq_levels ready q ->
  exists evs D,
    sht15_measurement command timeout_msecs s
    = (0, upd D rest q false false evs s)
    /\ trans PIdle PIdle
         [WCmd (u8 command);
          WWait (msecs_to_jiffies (kern s) timeout_msecs)] evs
    /\ state D = SHT15_READING_NOTHING
    /\ checksumming D = checksumming (dat s)
    /\ val_status D = val_status (dat s)
    /\ interrupt_handled D = (if ready then 0 else 1)
    /\ (checksumming (dat s) = true -> checksum_ok D = true)
    /\ val_temp D = match state (dat s) with
                    | SHT15_READING_TEMP => 256 * hi + lo
                    | _ => val_temp (dat s)
                    end
    /\ val_humid D = match state (dat s) with
                     | SHT15_READING_HUMID => 256 * hi + lo
                     | _ => val_humid (dat s)
                     end
    /\ same_cache (dat s) D.
Proof.
  intros Hcmd Hst Hbc Hwp Hh Hl Hnib Hin Hq.
  unfold measurement_levels in Hin. unfold irq_levels in Hq.
  set (h := if ready then 0 else 1).
  set (d := set_interrupt_handled h (dat s)).
  set (reply := device_measurement_reply (checksumming (dat s)) seed
                  (u8 command) hi lo rest) in *.
  assert (Hreply : reply = device_measurement_reply (checksumming d) seed
                             (bh_command d) hi lo rest)
    by (unfold reply, d, bh_command; cbn [checksumming state set_interrupt_handled];
        fold (bh_command (dat s)); now rewrite Hbc).
  assert (Hins3 : tl (tl (tl (data_in s))) = reply) by (rewrite Hin; reflexivity).
  assert (V : bh_value reply = 256 * hi + lo)
    by (apply bh_value_reply; assumption).
  assert (R : bh_rest d reply = rest)
    by (rewrite Hreply; apply bh_rest_reply; assumption).
  assert (K : checksumming (dat s) = true -> bh_crc_ok d reply = true).
  { intros C. rewrite Hreply.
    change (checksumming d) with (checksumming (dat s)). rewrite C.
    rewrite bh_crc_ok_reply by assumption.
    change (val_status d) with (val_status (dat s)).
    rewrite (crc8_reference_nibble (val_status (dat s)) seed)
      by (symmetry; apply Hnib; exact C).
    apply Z.eqb_refl. }
  destruct (bh_stored_fields d reply)
    as (F1 & F2 & F3 & F4 & F5 & F6 & F7 & F8).
  change (checksumming d) with (checksumming (dat s)) in F2, F5.
  change (val_status d) with (val_status (dat s)) in F3.
  change (interrupt_handled d) with h in F4.
  change (state d) with (state (dat s)) in F6, F7.
  change (val_temp d) with (val_temp (dat s)) in F6.
  change (val_humid d) with (val_humid (dat s)) in F7.
  change (checksum_ok d) with (checksum_ok (dat s)) in F5.
  rewrite V in F6, F7.
  assert (Hcrc : checksumming (dat s) && negb (checksum_ok (bh_stored d reply))
                 = false).
  { rewrite F5. destruct (checksumming (dat s)) eqn:C; [|reflexivity].
    rewrite (K eq_refl). reflexivity. }
  assert (Hrun : exists evs,
             sht15_measurement command timeout_msecs s
             = (0, upd (bh_stored d reply) rest q false false evs s)
             /\ trans PIdle PIdle
                  [WCmd (u8 command);
                   WWait (msecs_to_jiffies (kern s) timeout_msecs)] evs).
  { rewrite <- R, <- Hins3. unfold d, h. rewrite <- Hins3 in Hcrc.
    unfold d, h in Hcrc. destruct ready.
    - replace q with (tl (irq_in s)) by (now rewrite Hq).
      apply measurement_polled_run; try assumption;
        rewrite ?Hin, ?Hq; reflexivity.
    - apply measurement_irq_run; try assumption;
        rewrite ?Hin, ?Hq; reflexivity. }
  destruct Hrun as (evs & E & T).
  exists evs, (bh_stored d reply).
  split; [exact E|]. split; [exact T|]. split; [exact F1|].
  split; [exact F2|]. split; [exact F3|]. split; [exact F4|].
  split. { intros C. rewrite F5, C. apply K, C. }
  split; [exact F6|]. split; [exact F7|].
  exact F8.
Qed.

(** X16: a measurement whose command is acknowledged
    and which the device completes honestly returns 0, whether the device is
    ready when the driver looks (the work is queued at once) or signals
    completion by the interrupt while the caller waits.  The value is stored
    in the field the state selects, the state is idle again, the interrupt is
    left disabled, no work is left queued, and the wire carried the command
    and one wait. *)
Theorem sht15_measurement_completes (command timeout_msecs : Z) (s : machine)
        (ready : bool) (seed hi lo : Z) (q rest : list bool) :
  (u8 command =? SHT15_WRITE_STATUS) = false ->
  state (dat s) <> SHT15_READING_NOTHING ->
  bh_command (dat s) = u8 command ->
  work_pending s = false ->
  is_byte hi -> is_byte lo ->
  (checksumming (dat s) = true ->
   Z.land seed 0x0F = Z.land (val_status (dat s)) 0x0F) ->
  data_in s = measurement_levels ready
                (device_measurement_reply (checksumming (dat s)) seed
                   (u8 command) hi lo rest) ->
  irq_in s = irq_levels ready q ->
  let run := sht15_measurement command timeout_msecs in
  let s' := snd (run s) in
  fst (run s) = 0
  /\ val_temp (dat s') = match state (dat s) with
                         | SHT15_READING_TEMP => 256 * hi + lo
                         | _ => val_temp (dat s)
                         end
  /\ val_humid (dat s') = match state (dat s) with
                          | SHT15_READING_HUMID => 256 * hi + lo
                          | _ => val_humid (dat s)
                          end
  /\ state (dat s') = SHT15_READING_NOTHING
  /\ (checksumming (dat s) = true -> checksum_ok (dat s') = true)
  /\ val_status (dat s') = val_status (dat s)
  /\ interrupt_handled (dat s') = (if ready then 0 else 1)
  /\ irq_enabled s' = false
  /\ work_pending s' = false
  /\ data_in s' = rest
  /\ irq_in s' = q
  /\ wire (emitted run s)
     = [WCmd (u8 command); WWait (msecs_to_jiffies (kern s) timeout_msecs)].
Proof.
  intros Hcmd Hst Hbc Hwp Hh Hl Hnib Hin Hq. cbv zeta.
  destruct (measurement_honest_run command timeout_msecs s ready seed hi lo
              q rest Hcmd Hst Hbc Hwp Hh Hl Hnib Hin Hq)
    as (evs & D & E & T & F1 & F2 & F3 & F4 & F5 & F6 & F7 & F8).
  rewrite (emitted_exact _ _ _ _ _ E (trace_upd _ _ _ _ _ _ _)).
  rewrite E. cbn [fst snd]. norm_upd.
  split; [reflexivity|]. split; [exact F6|]. split; [exact F7|].
  split; [exact F1|]. split; [exact F5|]. split; [exact F3|].
  split; [exact F4|].
  split; [reflexivity|]. split; [reflexivity|].
  split; [reflexivity|]. split; [reflexivity|].
  exact (trans_wire _ _ _ T).
Qed.

Lemma sht15_measurement_completes_witness :
  fst (sht15_measurement SHT15_MEASURE_TEMP 400 completing_machine) = 0
  /\ val_temp (dat (snd (sht15_measurement SHT15_MEASURE_TEMP 400
                           completing_machine))) = 256 * 8 + 15.
Proof.
  destruct (sht15_measurement_completes SHT15_MEASURE_TEMP 400
              completing_machine false 0 8 15 [] []) as (A & B & _).
  - reflexivity.
  - discriminate.
  - reflexivity.
  - reflexivity.
  - unfold is_byte. lia.
  - unfold is_byte. lia.
  - intros _. reflexivity.
  - reflexivity.
  - reflexivity.
  - split; [exact A | exact B].
Defined.

Lemma work_pending_set_dat (d : sht15_data) (s : machine) :
  work_pending (set_dat d s) = work_pending s.
Proof. reflexivity. Qed.

Lemma irq_in_set_dat (d : sht15_data) (s : machine) :
  irq_in (set_dat d s) = irq_in s.
Proof. reflexivity. Qed.

Lemma upd_set_dat d1 i1 q1 en1 wp1 e1 d0 (s : machine) :
  upd d1 i1 q1 en1 wp1 e1 (set_dat d0 s) = upd d1 i1 q1 en1 wp1 e1 s.
Proof. reflexivity. Qed.

Lemma jiffies_upd d1 i1 q1 en1 wp1 e1 (s : machine) :
  jiffies (upd d1 i1 q1 en1 wp1 e1 s) = jiffies s.
Proof. reflexivity. Qed.

Lemma refresh_honest_run (s : machine) (seed : Z) (r1 r2 : bool)
      (hh hl th tl : Z) (q rest : list bool) :
  work_pending s = false ->
  is_byte hh -> is_byte hl -> is_byte th -> is_byte tl ->
  (checksumming (dat s) = true ->
   Z.land seed 0x0F = Z.land (val_status (dat s)) 0x0F) ->
  data_in s = refresh_levels (checksumming (dat s)) seed r1 r2 hh hl th tl
                rest ->
  irq_in s = irq_levels r1 (irq_levels r2 q) ->
  exists evs D,
    sht15_update_measurements_refresh s
    = (0, upd D rest q false false evs s)
    /\ trans PIdle PIdle
         [WCmd SHT15_MEASURE_RH; WWait (msecs_to_jiffies (kern s) 160);
          WCmd SHT15_MEASURE_TEMP; WWait (msecs_to_jiffies (kern s) 400)] evs
    /\ val_humid D = 256 * hh + hl
    /\ val_temp D = 256 * th + tl
    /\ measurements_valid D = true
    /\ last_measurement D = jiffies s
    /\ state D = SHT15_READING_NOTHING
    /\ val_status D = val_status (dat s)
    /\ supply_uV D = supply_uV (dat s)
    /\ status_valid D = status_valid (dat s)
    /\ last_status D = last_status (dat s).
Proof.
  intros Hwp Hhh Hhl Hth Htl Hnib Hin Hq.
  unfold refresh_levels in Hin.
  unfold sht15_update_measurements_refresh.
  rewrite bind_modify_data.
  set (S0 := set_dat (set_state SHT15_READING_HUMID (dat s)) s).
  destruct (measurement_honest_run SHT15_MEASURE_RH 160 S0 r1 seed hh hl
              (irq_levels r2 q)
              (measurement_levels r2
                 (device_measurement_reply (checksumming (dat s)) seed
                    SHT15_MEASURE_TEMP th tl rest)))
    as (evs1 & D1 & E1 & T1 & A1 & A2 & A3 & _ & _ & A6 & A7 & A8).
  { reflexivity. }
  { discriminate. }
  { reflexivity. }
  { exact Hwp. }
  { exact Hhh. }
  { exact Hhl. }
  { exact Hnib. }
  { exact Hin. }
  { exact Hq. }
  rewrite (bind_run _ _ _ _ _ E1).
  change (negb (0 =? 0)) with false. cbv iota.
  rewrite bind_modify_data. unfold S0. rewrite upd_set_dat.
  rewrite set_dat_upd, dat_upd.
  change (checksumming (dat S0)) with (checksumming (dat s)) in A2.
  change (val_status (dat S0)) with (val_status (dat s)) in A3.
  change (kern S0) with (kern s) in T1.
  set (S1 := upd (set_state SHT15_READING_TEMP D1) _ _ _ _ _ s).
  destruct (measurement_honest_run SHT15_MEASURE_TEMP 400 S1 r2 seed th tl
              q rest)
    as (evs2 & D2 & E2 & T2 & B1 & B2 & B3 & _ & _ & B6 & B7 & B8).
  { reflexivity. }
  { discriminate. }
  { reflexivity. }
  { reflexivity. }
  { exact Hth. }
  { exact Htl. }
  { unfold S1. rewrite dat_upd.
    change (checksumming (set_state SHT15_READING_TEMP D1))
      with (checksumming D1).
    change (val_status (set_state SHT15_READING_TEMP D1))
      with (val_status D1).
    rewrite A2, A3. exact Hnib. }
  { unfold S1. rewrite dat_upd, data_in_upd.
    change (checksumming (set_state SHT15_READING_TEMP D1))
      with (checksumming D1).
    rewrite A2. reflexivity. }
  { reflexivity. }
  rewrite (bind_run _ _ _ _ _ E2).
  change (negb (0 =? 0)) with false. cbv iota.
  unfold S1. rewrite upd_upd.
  rewrite bind_modify_data, set_dat_upd, dat_upd.
  rewrite bind_get_jiffies, jiffies_upd.
  rewrite bind_modify_data, set_dat_upd, dat_upd.
  unfold ret.
  unfold S1 in B6, B7, B8, T2. rewrite dat_upd in B6, B7, B8.
  rewrite kern_upd in T2.
  cbn [state set_state val_temp val_humid] in A6, A7, B6, B7.
  destruct A8 as (_ & _ & C3 & _ & C5 & C6 & _).
  destruct B8 as (_ & _ & G3 & _ & G5 & G6 & _).
  cbn [status_valid last_status supply_uV set_state dat S0 set_dat] in C3, C5, C6, G3, G5, G6.
  do 2 eexists. split; [reflexivity|].
  split; [apply (trans_app _ _ _ _ _ _ _ T1 T2)|].
  cbn [val_humid val_temp measurements_valid last_measurement state val_status
       supply_uV status_valid last_status
       set_last_measurement set_measurements_valid].
  assert (A7' : val_humid D1 = 256 * hh + hl) by exact A7.
  assert (B3' : val_status D2 = val_status D1) by exact B3.
  repeat split; congruence.
Qed.

Lemma upd_io d1 i1 q1 en1 wp1 e1 i0 e0 (s : machine) :
  upd d1 i1 q1 en1 wp1 e1 (io i0 e0 s) = upd d1 i1 q1 en1 wp1 (e0 ++ e1) s.
Proof. unfold upd, io. cbn. now rewrite app_assoc. Qed.

Lemma emit_upd (e : event) d1 i1 q1 en1 wp1 e1 (s : machine) :
  emit e (upd d1 i1 q1 en1 wp1 e1 s)
  = (tt, upd d1 i1 q1 en1 wp1 (e1 ++ [e]) s).
Proof. unfold emit, set_trace, upd. cbn. now rewrite app_assoc. Qed.

Lemma calc_temp_fields (d d' : sht15_data) :
  val_temp d' = val_temp d -> val_status d' = val_status d ->
  supply_uV d' = supply_uV d ->
  sht15_calc_temp d' = sht15_calc_temp d.
Proof. intros E1 E2 E3. unfold sht15_calc_temp. now rewrite E1, E2, E3. Qed.

Lemma calc_humid_fields (d d' : sht15_data) :
  val_temp d' = val_temp d -> val_humid d' = val_humid d ->
  val_status d' = val_status d -> supply_uV d' = supply_uV d ->
  sht15_calc_humid d' = sht15_calc_humid d.
Proof.
  intros E1 E2 E3 E4. unfold sht15_calc_humid.
  rewrite (calc_temp_fields d d' E1 E3 E4). now rewrite E2, E3.
Qed.

Lemma update_measurements_honest_run (s : machine) (seed : Z) (r1 r2 : bool)
      (hh hl th tl : Z) (q rest : list bool) :
  meas_due s = true ->
  work_pending s = false ->
  is_byte hh -> is_byte hl -> is_byte th -> is_byte tl ->
  (checksumming (dat s) = true ->
   Z.land seed 0x0F = Z.land (val_status (dat s)) 0x0F) ->
  data_in s = refresh_levels (checksumming (dat s)) seed r1 r2 hh hl th tl
                rest ->
  irq_in s = irq_levels r1 (irq_levels r2 q) ->
  exists evs D,
    sht15_update_measurements s = (0, upd D rest q false false evs s)
    /\ trans PIdle PIdle
         [WCmd SHT15_MEASURE_RH; WWait (msecs_to_jiffies (kern s) 160);
          WCmd SHT15_MEASURE_TEMP; WWait (msecs_to_jiffies (kern s) 400)] evs
    /\ val_humid D = 256 * hh + hl
    /\ val_temp D = 256 * th + tl
    /\ measurements_valid D = true
    /\ last_measurement D = jiffies s
    /\ state D = SHT15_READING_NOTHING
    /\ val_status D = val_status (dat s)
    /\ supply_uV D = supply_uV (dat s)
    /\ status_valid D = status_valid (dat s)
    /\ last_status D = last_status (dat s).
Proof.
  intros Hdue Hwp Hhh Hhl Hth Htl Hnib Hin Hq.
  unfold sht15_update_measurements, mutex_lock, mutex_unlock.
  unfold meas_due in Hdue.
  do 4 step. rewrite Hdue.
  destruct (refresh_honest_run (io (data_in s) [EvLock] s) seed r1 r2
              hh hl th tl q rest)
    as (evs & D & E & T & F).
  { exact Hwp. }
  { exact Hhh. }
  { exact Hhl. }
  { exact Hth. }
  { exact Htl. }
  { exact Hnib. }
  { exact Hin. }
  { exact Hq. }
  rewrite (bind_run _ _ _ _ _ E). rewrite upd_io.
  rewrite (bind_run _ _ _ _ _ (emit_upd EvUnlock _ _ _ _ _ _ _)).
  unfold ret.
  exists (([EvLock] ++ evs) ++ [EvUnlock]), D.
  split; [reflexivity|]. split; [|exact F].
  apply trans_quiet_r; [|apply (trans_quiet_event _ EvUnlock); exact I].
  apply trans_quiet_l; [apply (trans_quiet_event _ EvLock); exact I|].
  exact T.
Qed.

(** X17: when a refresh is due and the device answers both
    measurements honestly, [sht15_update_measurements] returns 0, the cache
    holds the two 16-bit values the device sent, stamped with the current
    tick, and the temperature and humidity attributes show the conversion of
    exactly these values with the session's status and supply voltage.  The
    wire carried the humidity command, a wait of 160 ms, the temperature
    command and a wait of 400 ms. *)
Theorem sht15_show_measurements (s : machine) (seed : Z) (r1 r2 : bool)
        (hh hl th tl : Z) (q rest : list bool) :
  meas_due s = true ->
  work_pending s = false ->
  is_byte hh -> is_byte hl -> is_byte th -> is_byte tl ->
  (checksumming (dat s) = true ->
   Z.land seed 0x0F = Z.land (val_status (dat s)) 0x0F) ->
  data_in s = refresh_levels (checksumming (dat s)) seed r1 r2 hh hl th tl
                rest ->
  irq_in s = irq_levels r1 (irq_levels r2 q) ->
  let d' := dat (snd (sht15_update_measurements s)) in
  let shown := set_val_humid (256 * hh + hl)
                 (set_val_temp (256 * th + tl) (dat s)) in
  fst (sht15_update_measurements s) = 0
  /\ val_humid d' = 256 * hh + hl
  /\ val_temp d' = 256 * th + tl
  /\ measurements_valid d' = true
  /\ last_measurement d' = jiffies s
  /\ state d' = SHT15_READING_NOTHING
  /\ fst (sht15_show_temp s) = AttrValue (sht15_calc_temp shown)
  /\ fst (sht15_show_humidity s) = AttrValue (sht15_calc_humid shown)
  /\ wire (emitted sht15_update_measurements s)
     = [WCmd SHT15_MEASURE_RH; WWait (msecs_to_jiffies (kern s) 160);
        WCmd SHT15_MEASURE_TEMP; WWait (msecs_to_jiffies (kern s) 400)].
Proof.
  intros Hdue Hwp Hhh Hhl Hth Htl Hnib Hin Hq. cbv zeta.
  destruct (update_measurements_honest_run s seed r1 r2 hh hl th tl q rest
              Hdue Hwp Hhh Hhl Hth Htl Hnib Hin Hq)
    as (evs & D & E & T & F1 & F2 & F3 & F4 & F5 & F6 & F7 & _).
  destruct (show_temp_run s _ _ E) as [St Sh].
  rewrite St, Sh.
  rewrite (emitted_exact _ _ _ _ _ E (trace_upd _ _ _ _ _ _ _)).
  rewrite E. cbn [fst snd]. rewrite dat_upd.
  change (negb (0 =? 0)) with false. cbv iota.
  split; [reflexivity|]. split; [exact F1|]. split; [exact F2|].
  split; [exact F3|]. split; [exact F4|]. split; [exact F5|].
  split.
  { f_equal. apply calc_temp_fields;
      [rewrite F2; reflexivity | rewrite F6; reflexivity
      | rewrite F7; reflexivity]. }
  split.
  { f_equal. apply calc_humid_fields;
      [rewrite F2; reflexivity | rewrite F1; reflexivity
      | rewrite F6; reflexivity | rewrite F7; reflexivity]. }
  exact (trans_wire _ _ _ T).
Qed.

Lemma sht15_show_measurements_witness :
  fst (sht15_update_measurements honest_refresh_machine) = 0
  /\ val_humid (dat (snd (sht15_update_measurements honest_refresh_machine)))
     = 256 * 3 + 32
  /\ val_temp (dat (snd (sht15_update_measurements honest_refresh_machine)))
     = 256 * 8 + 15.
Proof.
  destruct (sht15_show_measurements honest_refresh_machine 0 true false
              3 32 8 15 [] []) as (A & B & C & _).
  - reflexivity.
  - reflexivity.
  - unfold is_byte. lia.
  - unfold is_byte. lia.
  - unfold is_byte. lia.
  - unfold is_byte. lia.
  - intros _. reflexivity.
  - reflexivity.
  - reflexivity.
  - split; [exact A | split; [exact B | exact C]].
Defined.

Lemma pbind_kdo {B : Type} (c : kcall) (f : unit -> P B) (p : platform) :
  pbind (kdo c) f p = f tt (set_klog (klog p ++ [c]) p).
Proof. reflexivity. Qed.

Lemma pbind_pret {A B : Type} (a : A) (f : A -> P B) (p : platform) :
  pbind (pret a) f p = f a p.
Proof. reflexivity. Qed.

Lemma pbind_get_reg {B : Type} (f : Z -> P B) (p : platform) :
  pbind get_reg f p = f (reg p) p.
Proof. reflexivity. Qed.

Lemma pbind_lift {A B : Type} (m : M A) (f : A -> P B) (p : platform) :
  pbind (lift m) f p
  = f (fst (m (mach p))) (set_mach (snd (m (mach p))) p).
Proof. unfold pbind, lift. destruct (m (mach p)). reflexivity. Qed.

Lemma pbind_assoc {A B C : Type} (m : P A) (f : A -> P B) (g : B -> P C)
      (p : platform) :
  pbind (pbind m f) g p = pbind m (fun a => pbind (f a) g) p.
Proof. unfold pbind. destruct (m p). reflexivity. Qed.

Lemma pbind_if {A B : Type} (c : bool) (m1 m2 : P A) (f : A -> P B)
      (p : platform) :
  pbind (if c then m1 else m2) f p
  = if c then pbind m1 f p else pbind m2 f p.
Proof. destruct c; reflexivity. Qed.

Lemma klog_set_mach (m : machine) (p : platform) :
  klog (set_mach m p) = klog p.
Proof. reflexivity. Qed.

Lemma klog_set_klog (l : list kcall) (p : platform) :
  klog (set_klog l p) = l.
Proof. reflexivity. Qed.

Lemma klog_set_reg (r : Z) (p : platform) : klog (set_reg r p) = klog p.
Proof. reflexivity. Qed.

Lemma reg_set_mach (m : machine) (p : platform) : reg (set_mach m p) = reg p.
Proof. reflexivity. Qed.

Lemma reg_set_klog (l : list kcall) (p : platform) :
  reg (set_klog l p) = reg p.
Proof. reflexivity. Qed.

Lemma reg_set_reg (r : Z) (p : platform) : reg (set_reg r p) = r.
Proof. reflexivity. Qed.

Ltac pstep :=
  repeat first
    [ rewrite pbind_assoc
    | rewrite pbind_kdo
    | rewrite pbind_pret
    | rewrite pbind_get_reg
    | rewrite pbind_lift
    | rewrite klog_set_mach | rewrite klog_set_klog | rewrite klog_set_reg
    | rewrite reg_set_mach | rewrite reg_set_klog | rewrite reg_set_reg ].

(** The error labels, run from a platform whose log is [l]. *)
Lemma err_free_data_run (r : Z) (p : platform) :
  err_free_data r p = (r, set_klog (klog p ++ [Release ResData]) p).
Proof. reflexivity. Qed.

Lemma release_regulator_run (p : platform) :
  release_regulator p
  = (tt, if IS_ERR (reg p) then p
         else set_klog (klog p ++ [Release ResNotifier; Release ResRegulatorOn;
                                   Release ResRegulator]) p).
Proof.
  unfold release_regulator. pstep.
  destruct (IS_ERR (reg p)); cbn [negb].
  - reflexivity.
  - pstep. unfold kdo. rewrite klog_set_klog.
    unfold set_klog. cbn [mach reg volt supply_work_pending klog].
    now rewrite <- !app_assoc.
Qed.

Lemma pbind_put_reg {B : Type} (r : Z) (f : unit -> P B) (p : platform) :
  pbind (put_reg r) f p = f tt (set_reg r p).
Proof. reflexivity. Qed.

Lemma set_klog_set_klog (l l' : list kcall) (p : platform) :
  set_klog l (set_klog l' p) = set_klog l p.
Proof. reflexivity. Qed.

Lemma err_release_reg_run (r : Z) (p : platform) :
  err_release_reg r p
  = (r, set_klog (klog p ++ regulator_releases (reg p) ++ [Release ResData])
                 p).
Proof.
  unfold err_release_reg, pbind. rewrite release_regulator_run.
  unfold regulator_releases.
  destruct (IS_ERR (reg p)); rewrite err_free_data_run.
  - reflexivity.
  - rewrite klog_set_klog, set_klog_set_klog.
    now rewrite <- !app_assoc.
Qed.

Lemma err_release_gpio_sck_run (r : Z) (p : platform) :
  err_release_gpio_sck r p
  = (r, set_klog (klog p ++ Release (ResGpio gpio_sck)
                  :: regulator_releases (reg p) ++ [Release ResData]) p).
Proof.
  unfold err_release_gpio_sck. rewrite pbind_kdo, err_release_reg_run.
  rewrite klog_set_klog, reg_set_klog, set_klog_set_klog.
  now rewrite <- !app_assoc.
Qed.

Lemma err_release_gpio_data_run (r : Z) (p : platform) :
  err_release_gpio_data r p
  = (r, set_klog (klog p ++ Release (ResGpio gpio_data)
                  :: Release (ResGpio gpio_sck)
                  :: regulator_releases (reg p) ++ [Release ResData]) p).
Proof.
  unfold err_release_gpio_data. rewrite pbind_kdo, err_release_gpio_sck_run.
  rewrite klog_set_klog, reg_set_klog, set_klog_set_klog.
  now rewrite <- !app_assoc.
Qed.

Lemma err_release_irq_run (r : Z) (p : platform) :
  err_release_irq r p
  = (r, set_klog (klog p ++ Release ResIrq
                  :: Release (ResGpio gpio_data)
                  :: Release (ResGpio gpio_sck)
                  :: regulator_releases (reg p) ++ [Release ResData]) p).
Proof.
  unfold err_release_irq. rewrite pbind_kdo, err_release_gpio_data_run.
  rewrite klog_set_klog, reg_set_klog, set_klog_set_klog.
  now rewrite <- !app_assoc.
Qed.

Lemma err_release_sysfs_group_run (r : Z) (p : platform) :
  err_release_sysfs_group r p
  = (r, set_klog (klog p ++ Release ResSysfsGroup
                  :: Release ResIrq
                  :: Release (ResGpio gpio_data)
                  :: Release (ResGpio gpio_sck)
                  :: regulator_releases (reg p) ++ [Release ResData]) p).
Proof.
  unfold err_release_sysfs_group. rewrite pbind_kdo, err_release_irq_run.
  rewrite klog_set_klog, reg_set_klog, set_klog_set_klog.
  now rewrite <- !app_assoc.
Qed.

Ltac pnorm :=
  unfold set_klog, set_mach, set_reg;
  cbn [mach reg volt supply_work_pending klog fst snd].

Ltac probe_step :=
  first
    [ rewrite pbind_assoc
    | rewrite pbind_kdo; pnorm
    | rewrite pbind_pret
    | rewrite pbind_get_reg; pnorm
    | rewrite pbind_put_reg; pnorm
    | match goal with
      | |- context [pbind (lift ?m) ?f ?p] =>
          rewrite (pbind_lift m f p); pnorm;
          match goal with
          | |- context [m ?s] =>
              let a := fresh "a" in
              let m' := fresh "m" in
              let E := fresh "R" in
              destruct (m s) as [a m'] eqn:E; pnorm
          end
      end
    | rewrite err_free_data_run; pnorm
    | rewrite err_release_reg_run; pnorm
    | rewrite err_release_gpio_sck_run; pnorm
    | rewrite err_release_gpio_data_run; pnorm
    | rewrite err_release_irq_run; pnorm
    | rewrite err_release_sysfs_group_run; pnorm
    | match goal with
      | |- context [pbind (if negb (?x =? 0) then _ else _) _ _] =>
          let E := fresh "E" in destruct (x =? 0) eqn:E; cbn [negb]
      | |- context [pbind (if ?x =? 0 then _ else _) _ _] =>
          let E := fresh "E" in destruct (x =? 0) eqn:E
      | |- context [pbind (if negb (IS_ERR ?x) then _ else _) _ _] =>
          let E := fresh "E" in destruct (IS_ERR x) eqn:E; cbn [negb]
      | |- context [pbind (if ?c then _ else _) _ _] => destruct c
      end
    | match goal with
      | |- exists _ _, (if negb (?x =? 0) then _ else _) _ = _ /\ _ =>
          let E := fresh "E" in destruct (x =? 0) eqn:E; cbn [negb]
      | |- exists _ _, (if negb (?x =? 0) then _ else _) = _ /\ _ =>
          let E := fresh "E" in destruct (x =? 0) eqn:E; cbn [negb]
      | |- exists _ _, (if ?x =? 0 then _ else _) = _ /\ _ =>
          let E := fresh "E" in destruct (x =? 0) eqn:E
      | |- exists _ _, (if negb (IS_ERR ?x) then _ else _) _ = _ /\ _ =>
          let E := fresh "E" in destruct (IS_ERR x) eqn:E; cbn [negb]
      | |- exists _ _, (if negb (IS_ERR ?x) then _ else _) = _ /\ _ =>
          let E := fresh "E" in destruct (IS_ERR x) eqn:E; cbn [negb]
      | |- exists _ _, (if IS_ERR ?x then _ else _) _ = _ /\ _ =>
          let E := fresh "E" in destruct (IS_ERR x) eqn:E
      | |- exists _ _, (if ?c then _ else _) = _ /\ _ => destruct c
      | |- exists _ _, (if ?c then _ else _) _ = _ /\ _ => destruct c
      end ].

Ltac probe_leaf :=
  cbn [klog app reg];
  unfold regulator_releases, probe_holds;
  repeat match goal with
         | H : IS_ERR ?x = _ |- context [IS_ERR ?x] => rewrite H
         end;
  repeat match goal with
         | |- _ /\ _ => split
         | |- _ -> _ => intro
         end;
  first [ reflexivity
        | exfalso;
          repeat match goal with
                 | H : (_ =? _) = true |- _ => apply Z.eqb_eq in H
                 | H : (_ =? _) = false |- _ => apply Z.eqb_neq in H
                 | H : IS_ERR _ = true |- _ =>
                     unfold IS_ERR in H; apply andb_prop in H;
                     destruct H as [? ?]
                 end;
          first [ lia | congruence | discriminate ] ].

Lemma probe_run (k : kernel_answers) (p : platform) :
  klog p = [] ->
  (IS_ERR (regulator_ptr k) = false -> regulator_enable_ret k = 0) ->
  exists r p',
    sht15_probe k p = (r, p')
    /\ (r <> 0 -> unwinds (klog p') [] = Some [])
    /\ (r = 0 -> unwinds (klog p') [] = Some (probe_holds k))
    /\ (r = 0 -> reg p' = regulator_ptr k)
    /\ (kzalloc_ok k = false -> r = - ENOMEM /\ klog p' = [])
    /\ (kzalloc_ok k = true -> platform_data k = None -> r = - EINVAL).
Proof.
  intros Hl Hen. destruct p as [m0 rg0 v0 w0 l0]. cbn [klog] in Hl. subst l0.
  unfold sht15_probe, sht15_probe_regulator, sht15_probe_lines.
  destruct (kzalloc_ok k) eqn:Hk; cbn [negb].
  2:{ repeat probe_step. do 2 eexists. split; [reflexivity|]. probe_leaf. }
  repeat probe_step.
  destruct (platform_data k) as [pd|] eqn:Hpd.
  2:{ repeat probe_step. do 2 eexists. split; [reflexivity|]. probe_leaf. }
  repeat probe_step.
  all: do 2 eexists; (split; [reflexivity|]).
  all: try (specialize (Hen eq_refl)).
  all: probe_leaf.
Qed.

(** X18: whatever the kernel answers and the device does, a
    probe that fails has released everything it had acquired, each resource
    once and in the reverse order of acquisition; a probe that succeeds holds
    the instance data, the regulator with its enable count and notifier when
    there is a regulator, both GPIOs, the interrupt, the sysfs group and the
    hwmon device.  (The result of [regulator_enable] is not looked at: the
    statement supposes it succeeded.)  Without memory the probe fails with
    [-ENOMEM] and without platform data with [-EINVAL]. *)
Theorem sht15_probe_unwinds (k : kernel_answers) (p : platform) :
  klog p = [] ->
  (IS_ERR (regulator_ptr k) = false -> regulator_enable_ret k = 0) ->
  let r := fst (sht15_probe k p) in
  let p' := snd (sht15_probe k p) in
  (r <> 0 -> unwinds (klog p') [] = Some [])
  /\ (r = 0 -> unwinds (klog p') [] = Some (probe_holds k))
  /\ (r = 0 -> reg p' = regulator_ptr k)
  /\ (kzalloc_ok k = false -> r = - ENOMEM /\ klog p' = [])
  /\ (kzalloc_ok k = true -> platform_data k = None -> r = - EINVAL).
Proof.
  intros Hl Hen. cbv zeta.
  destruct (probe_run k p Hl Hen) as (r & p' & E & H).
  rewrite E. exact H.
Qed.

Lemma sht15_probe_unwinds_witness :
  fst (sht15_probe gpio_busy_answers (fresh_platform (blank []))) <> 0
  /\ unwinds (klog (snd (sht15_probe gpio_busy_answers
                           (fresh_platform (blank []))))) [] = Some [].
Proof.
  destruct (sht15_probe_unwinds gpio_busy_answers (fresh_platform (blank [])))
    as (A & _).
  - reflexivity.
  - intros _. reflexivity.
  - assert (N : fst (sht15_probe gpio_busy_answers (fresh_platform (blank [])))
                <> 0) by (vm_compute; discriminate).
    split; [exact N | exact (A N)].
Defined.



Lemma pbind_lift_run {A B : Type} (m : M A) (f : A -> P B) (p : platform)
      (a : A) (s' : machine) :
  m (mach p) = (a, s') -> pbind (lift m) f p = f a (set_mach s' p).
Proof. intros E. rewrite pbind_lift, E. reflexivity. Qed.

Lemma emit_io (e : event) (s : machine) :
  emit e s = (tt, io (data_in s) [e] s).
Proof. reflexivity. Qed.









Lemma modify_data_run (f : sht15_data -> sht15_data) (s : machine) :
  modify_data f s = (tt, set_dat (f (dat s)) s).
Proof. reflexivity. Qed.

Lemma set_dat_to_upd (d : sht15_data) (s : machine) :
  set_dat d s
  = upd d (data_in s) (irq_in s) (irq_enabled s) (work_pending s) [] s.
Proof. unfold upd, set_dat. now rewrite app_nil_r. Qed.

Lemma request_irq_installed_run (s : machine) :
  state (dat s) = SHT15_READING_NOTHING ->
  exists h q en evs,
    request_irq_installed s
    = (tt, upd (set_interrupt_handled h (dat s)) (data_in s) q en
               (work_pending s) evs s)
    /\ trans PIdle PIdle [] evs.
Proof.
  intros Hst. destruct s as [k d j ins irqs en wp tr]. cbn [dat] in Hst.
  unfold request_irq_installed, bind, irq_delivery, set_irq_enabled.
  cbn [kern dat jiffies data_in irq_in irq_enabled work_pending trace].
  destruct irqs as [|[|] irqs].
  - exists (interrupt_handled d), [], true, []. split; [|apply trans_nil].
    unfold ret, upd. cbn. rewrite app_nil_r. now destruct d.
  - exists (int32 (interrupt_handled d + 1)), irqs, false, [EvDisableIrq].
    split; [|apply (trans_quiet_event _ EvDisableIrq); exact I].
    unfold sht15_interrupt_fired, bind, disable_irq_nosync,
      atomic_inc_unchecked, modify_data, get_data, set_irq_in, set_trace,
      set_irq_enabled, set_dat, upd.
    cbn [kern dat jiffies data_in irq_in irq_enabled work_pending trace].
    cbn [state set_interrupt_handled]. rewrite Hst. reflexivity.
  - exists (interrupt_handled d), irqs, true, []. split; [|apply trans_nil].
    unfold ret, upd, set_irq_in. cbn. rewrite app_nil_r. now destruct d.
Qed.

Lemma connection_reset_run (s : machine) :
  sht15_connection_reset s
  = (tt, io (data_in s) (evs_of sht15_connection_reset (data_in s)) s).
Proof.
  rewrite (reads_connection_reset s).
  now rewrite (proj2 (trans_connection_reset _)).
Qed.

Lemma probe_lines_good_run (k : kernel_answers) (status : Z) (p : platform) :
  answers_good k ->
  state (dat (mach p)) = SHT15_READING_NOTHING ->
  u8 status = status ->
  exists p',
    sht15_probe_lines k status p
    = (if probe_acked status (data_in (mach p)) then 0 else - EIO, p')
    /\ (probe_acked status (data_in (mach p)) = true ->
        exists h q evs rest,
          mach p'
          = upd (set_val_status status
                   (set_interrupt_handled h (dat (mach p))))
                rest q false (work_pending (mach p)) evs (mach p)
          /\ trans PIdle PIdle (probe_wire status) evs).
Proof.
  intros (Hz & Hn & Hs & Hd & Hi & Hy & Hh) Hst Hu.
  destruct p as [m0 rg v sw l]. cbn [mach] in *.
  unfold sht15_probe_lines. rewrite Hs, Hd, Hi, Hy, Hh.
  change (negb (0 =? 0)) with false. cbv iota.
  rewrite pbind_kdo. pnorm.
  unfold gpio_direction_output at 1.
  rewrite (pbind_lift_run _ _ _ _ _ (emit_io _ _)). pnorm.
  rewrite !pbind_kdo. pnorm.
  destruct (request_irq_installed_run (io (data_in m0)
              [EvDirOut gpio_sck false] m0)) as (h & q & en & e0 & R0 & T0).
  { exact Hst. }
  rewrite (pbind_lift_run _ _ (mk_platform _ _ _ _ _) _ _ R0). pnorm.
  rewrite (pbind_lift_run _ _ _ _ _ (disable_irq_run _)). pnorm.
  rewrite (pbind_lift_run _ _ _ _ _ (connection_reset_run _)). pnorm.
  change (work_pending (io (data_in m0) [EvDirOut gpio_sck false] m0))
    with (work_pending m0).
  repeat rewrite ?upd_upd, ?io_upd, ?upd_io, ?dat_io, ?data_in_io,
    ?data_in_upd, ?dat_upd, ?work_pending_upd, ?irq_in_upd.
  set (ins := data_in m0).
  match goal with
  | |- context [upd ?d ins ?q ?e ?w ?evs m0] =>
      pose proof (soft_reset_run (upd d ins q e w evs m0)) as R1
  end.
  rewrite ?data_in_upd, ?dat_upd, !io_upd, ?set_dat_upd in R1.
  unfold probe_acked. fold ins.
  destruct (hd true ins) eqn:Ha.
  - rewrite (pbind_lift_run _ _ (mk_platform _ _ _ _ _) _ _ R1).
    change (negb (- EIO =? 0)) with true. cbv iota.
    rewrite err_release_irq_run. cbn [negb andb].
    eexists. split; [reflexivity | discriminate].
  - rewrite (pbind_lift_run _ _ (mk_platform _ _ _ _ _) _ _ R1).
    change (negb (0 =? 0)) with false. cbv iota. pnorm.
    cbn [negb andb].
    assert (T1 : trans PIdle PIdle
                   [WCmd SHT15_SOFT_RESET; WSleep SHT15_TSRST]
                   (([EvDirOut gpio_sck false]
                     ++ (e0 ++ [EvDisableIrq])
                     ++ evs_of sht15_connection_reset ins)
                    ++ evs_of (sht15_send_cmd SHT15_SOFT_RESET) ins
                    ++ [EvMsleep SHT15_TSRST])).
    { apply (trans_app _ PIdle _ [] _);
        [|apply (proj2 (trans_soft_reset ins))].
      apply (trans_app _ PIdle _ [] []).
      - intros b Hsb Hpb. destruct b as [sck d0 ph0]. cbn in Hsb, Hpb.
        subst. cbn. auto.
      - apply (trans_app _ PIdle _ [] []);
          [|apply (proj1 (trans_connection_reset ins))].
        apply (trans_app _ PIdle _ [] []); [exact T0|].
        apply (trans_quiet_event _ EvDisableIrq). exact I. }
    destruct (status =? 0) eqn:E0; cbn [negb orb].
    + apply Z.eqb_eq in E0. subst status.
      rewrite pbind_pret. change (negb (0 =? 0)) with false. cbv iota.
      rewrite !pbind_kdo. pnorm. unfold pret.
      eexists. split; [reflexivity|]. intros _. cbn [mach].
      eexists h, q, _, (tl ins). split; [|exact T1].
      now destruct m0.
    + match goal with
      | |- context [upd ?d (tl ins) ?q ?e ?w ?evs m0] =>
          pose proof (send_status_run status (upd d (tl ins) q e w evs m0))
            as R2
      end.
      rewrite ?data_in_upd, ?dat_upd, !io_upd, ?set_dat_upd in R2.
      rewrite (pbind_lift_run _ _ (mk_platform _ _ _ _ _) _ _ R2). pnorm.
      destruct (nak1 (tl ins) || nak2 (tl ins)) eqn:En.
      * change (negb (- EIO =? 0)) with true. cbv iota.
        rewrite err_release_irq_run. cbn [negb].
        eexists. split; [reflexivity | discriminate].
      * change (negb (0 =? 0)) with false. cbv iota.
        rewrite !pbind_kdo. pnorm. unfold pret. cbn [negb].
        eexists. split; [reflexivity|]. intros _. cbn [mach].
        apply orb_false_elim in En. destruct En as [En1 En2].
        rewrite En1.
        eexists h, q, _, (tl (tl (tl ins))). split.
        -- now destruct m0.
        -- unfold probe_wire. rewrite E0.
           apply (trans_app _ PIdle _ _ _ _ _ T1).
           pose proof (trans_send_status_wire status (tl ins)) as T2.
           rewrite En1, Hu in T2. exact T2.
Qed.

Lemma probe_status_byte (pd : sht15_platform_data) :
  u8 (probe_status pd) = probe_status pd.
Proof.
  unfold probe_status. destruct (no_otp_reload pd), (low_resolution pd);
    reflexivity.
Qed.

Lemma probe_good_run (k : kernel_answers) (pd : sht15_platform_data)
      (p : platform) :
  answers_good k -> platform_data k = Some pd ->
  exists p',
    sht15_probe k p
    = (if probe_acked (probe_status pd) (data_in (mach p)) then 0 else - EIO,
       p')
    /\ (probe_acked (probe_status pd) (data_in (mach p)) = true ->
        exists h q evs rest,
          mach p' = upd (probe_data k pd h) rest q false
                        (work_pending (mach p)) evs (mach p)
          /\ trans PIdle PIdle (probe_wire (probe_status pd)) evs).
Proof.
  intros Hg Hpd.
  pose proof Hg as (Hz & Hn & _).
  destruct p as [m0 rg v sw l].
  unfold sht15_probe. rewrite Hz, Hpd. cbn [negb].
  rewrite pbind_kdo. pnorm.
  rewrite (pbind_lift_run _ _ _ _ _ (modify_data_run _ _)). pnorm.
  rewrite (pbind_lift_run _ _ _ _ _ (modify_data_run _ _)). pnorm.
  repeat rewrite set_dat_to_upd. norm_upd.
  cbn [app set_supply_uV zeroed_data val_temp val_humid val_status checksum_ok
       checksumming state measurements_valid status_valid last_measurement
       last_status supply_uV supply_uV_valid interrupt_handled].
  assert (Fin : forall (P1 : platform) d1,
    mach P1 = upd d1 (data_in m0) (irq_in m0) (irq_enabled m0)
                  (work_pending m0) [] m0 ->
    (forall h, set_val_status (probe_status pd) (set_interrupt_handled h d1)
               = probe_data k pd h) ->
    exists p',
      sht15_probe_lines k (probe_status pd) P1
      = (if probe_acked (probe_status pd) (data_in m0) then 0 else - EIO, p')
      /\ (probe_acked (probe_status pd) (data_in m0) = true ->
          exists h q evs rest,
            mach p' = upd (probe_data k pd h) rest q false
                          (work_pending m0) evs m0
            /\ trans PIdle PIdle (probe_wire (probe_status pd)) evs)).
  { intros P1 d1 HP1 Hd1.
    assert (Hst : state (dat (mach P1)) = SHT15_READING_NOTHING).
    { rewrite HP1, dat_upd.
      pose proof (f_equal state (Hd1 0)) as Hs. exact Hs. }
    destruct (probe_lines_good_run k (probe_status pd) P1 Hg Hst
                (probe_status_byte pd)) as (p' & E & F).
    rewrite HP1, data_in_upd in E, F.
    exists p'. split; [exact E|]. intros Ha.
    destruct (F Ha) as (h & q & evs & rest & Hm & Ht).
    exists h, q, evs, rest. split; [|exact Ht].
    rewrite Hm, dat_upd, work_pending_upd, upd_upd, Hd1. reflexivity. }
  assert (Reg : forall (P0 : platform) d0,
    mach P0 = upd d0 (data_in m0) (irq_in m0) (irq_enabled m0)
                  (work_pending m0) [] m0 ->
    d0 = mk_data 0 0 0 false (checksum pd) SHT15_READING_NOTHING false false
                 0 0 (int32 (supply_mv pd * 1000)) false 0 ->
    exists p',
      pbind (sht15_probe_regulator k)
            (fun r => if negb (r =? 0) then err_free_data r
                      else sht15_probe_lines k (probe_status pd)) P0
      = (if probe_acked (probe_status pd) (data_in m0) then 0 else - EIO, p')
      /\ (probe_acked (probe_status pd) (data_in m0) = true ->
          exists h q evs rest,
            mach p' = upd (probe_data k pd h) rest q false
                          (work_pending m0) evs m0
            /\ trans PIdle PIdle (probe_wire (probe_status pd)) evs)).
  { intros P0 d0 HP0 Hd0. destruct P0 as [m1 rg1 v1 sw1 l1].
    cbn [mach] in HP0. subst m1 d0.
    unfold sht15_probe_regulator.
    rewrite pbind_assoc, pbind_put_reg. pnorm.
    destruct (IS_ERR (regulator_ptr k)) eqn:Er; cbn [negb].
    - rewrite pbind_pret. change (negb (0 =? 0)) with false. cbv iota.
      eapply Fin; [reflexivity|]. intros h.
      unfold probe_data, probe_supply. rewrite Er. reflexivity.
    - rewrite (Hn eq_refl). change (negb (0 =? 0)) with false. cbv iota.
      rewrite !pbind_assoc, pbind_kdo. pnorm. cbv zeta.
      destruct (regulator_voltage k =? 0) eqn:Ev; cbn [negb].
      + rewrite !pbind_assoc, pbind_pret.
        destruct (regulator_enable_ret k =? 0).
        * repeat first [rewrite pbind_assoc | rewrite pbind_kdo
                      | rewrite pbind_pret]; pnorm.
          change (negb (0 =? 0)) with false. cbv iota.
          eapply Fin; [reflexivity|]. intros h.
          unfold probe_data, probe_supply. rewrite Er, Ev. reflexivity.
        * repeat first [rewrite pbind_assoc | rewrite pbind_kdo
                      | rewrite pbind_pret]; pnorm.
          change (negb (0 =? 0)) with false. cbv iota.
          eapply Fin; [reflexivity|]. intros h.
          unfold probe_data, probe_supply. rewrite Er, Ev. reflexivity.
      + rewrite !pbind_assoc.
        rewrite (pbind_lift_run _ _ (mk_platform _ _ _ _ _) _ _
                   (modify_data_run _ _)). pnorm.
        rewrite set_dat_upd, dat_upd.
        destruct (regulator_enable_ret k =? 0).
        * repeat first [rewrite pbind_assoc | rewrite pbind_kdo
                      | rewrite pbind_pret]; pnorm.
          change (negb (0 =? 0)) with false. cbv iota.
          eapply Fin; [reflexivity|]. intros h.
          unfold probe_data, probe_supply. rewrite Er, Ev. reflexivity.
        * repeat first [rewrite pbind_assoc | rewrite pbind_kdo
                      | rewrite pbind_pret]; pnorm.
          change (negb (0 =? 0)) with false. cbv iota.
          eapply Fin; [reflexivity|]. intros h.
          unfold probe_data, probe_supply. rewrite Er, Ev. reflexivity. }
  clear Fin.
  destruct (checksum pd) eqn:Ec.
  - rewrite (pbind_lift_run _ _ (mk_platform _ _ _ _ _) _ _
               (modify_data_run _ _)). pnorm.
    rewrite set_dat_upd, dat_upd.
    eapply Reg; reflexivity.
  - rewrite pbind_pret. eapply Reg; reflexivity.
Qed.

(** X20: when the kernel grants every resource, the probe
    succeeds exactly when the device acknowledges the soft reset and, if the
    platform data ask for a non-zero status, the write-status command and
    its payload; otherwise it fails with [-EIO].  A successful probe leaves
    the status mirror at the byte built from the platform data (bit 1 for
    no OTP reload, bit 0 for low resolution), checksums as the platform data
    say, the supply voltage of the regulator when there is one and it reports
    a non-zero voltage and of the platform data otherwise, both caches
    invalid, the state idle and the interrupt disabled; on the wire it put
    the soft reset, the pause of 11 ms and, for a non-zero status, the
    write-status command with that byte. *)
Theorem sht15_probe_configures (k : kernel_answers)
        (pd : sht15_platform_data) (p : platform) :
  answers_good k ->
  platform_data k = Some pd ->
  let r := fst (sht15_probe k p) in
  let p' := snd (sht15_probe k p) in
  let d := dat (mach p') in
  r = (if probe_acked (probe_status pd) (data_in (mach p))
       then 0 else - EIO)
  /\ (r = 0 ->
      val_status d = probe_status pd
      /\ checksumming d = checksum pd
      /\ supply_uV d = probe_supply k pd
      /\ status_valid d = false
      /\ measurements_valid d = false
      /\ state d = SHT15_READING_NOTHING
      /\ irq_enabled (mach p') = false
      /\ exists evs,
           trace (mach p') = trace (mach p) ++ evs
           /\ wire evs = probe_wire (probe_status pd)).
Proof.
  intros Hg Hpd. cbv zeta.
  destruct (probe_good_run k pd p Hg Hpd) as (p' & E & F).
  rewrite E. cbn [fst snd]. split; [reflexivity|].
  intros Hr.
  destruct (probe_acked (probe_status pd) (data_in (mach p)));
    [|discriminate Hr].
  destruct (F eq_refl) as (h & q & evs & rest & Hm & Ht).
  rewrite Hm, dat_upd, irq_enabled_upd, trace_upd.
  repeat split.
  exists evs. split; [reflexivity|].
  exact (trans_wire _ _ _ Ht).
Qed.

Lemma sht15_probe_configures_witness :
  let k := good_answers in
  let p := fresh_platform (blank [false; false; false]) in
  fst (sht15_probe k p) = 0
  /\ val_status (dat (mach (snd (sht15_probe k p)))) = 1
  /\ supply_uV (dat (mach (snd (sht15_probe k p)))) = 3300000.
Proof.
  cbv zeta.
  assert (Hg : answers_good good_answers)
    by (repeat split; intros; reflexivity).
  pose proof (sht15_probe_configures good_answers
                (mk_pdata 3300 true false true)
                (fresh_platform (blank [false; false; false])) Hg eq_refl)
    as [Hr Hc].
  cbv zeta in Hr, Hc.
  change (data_in (mach (fresh_platform (blank [false; false; false]))))
    with [false; false; false] in Hr.
  change (probe_acked (probe_status (mk_pdata 3300 true false true))
                      [false; false; false]) with true in Hr.
  cbv iota in Hr.
  split; [exact Hr|].
  destruct (Hc Hr) as (Hv & _ & Hs & _).
  split; [exact Hv | exact Hs].
Defined.

(** X21: the regulator notifier answers [NOTIFY_OK] and queues the
    supply work for every event; only a voltage-change event clears
    [supply_uV_valid], and the notifier itself leaves [supply_uV] alone.
    When the work then runs, [supply_uV] becomes the voltage the regulator
    has at that time, so that the temperature shown for the cached raw value
    is computed with the new voltage; the work does not set
    [supply_uV_valid] again.  Neither of them touches the bus, the cached
    readings or the resources held. *)
Theorem sht15_voltage_change_refreshes (event v : Z) (p : platform) :
  let r := fst (sht15_invalidate_voltage event p) in
  let p1 := snd (sht15_invalidate_voltage event p) in
  let p2 := snd (run_supply_work (set_volt v p1)) in
  r = NOTIFY_OK
  /\ supply_work_pending p1 = true
  /\ supply_uV (dat (mach p1)) = supply_uV (dat (mach p))
  /\ supply_uV_valid (dat (mach p1))
     = (if event =? REGULATOR_EVENT_VOLTAGE_CHANGE then false
        else supply_uV_valid (dat (mach p)))
  /\ supply_work_pending p2 = false
  /\ supply_uV (dat (mach p2)) = v
  /\ supply_uV_valid (dat (mach p2)) = supply_uV_valid (dat (mach p1))
  /\ sht15_calc_temp (dat (mach p2))
     = sht15_calc_temp (set_supply_uV v (dat (mach p)))
  /\ val_temp (dat (mach p2)) = val_temp (dat (mach p))
  /\ val_humid (dat (mach p2)) = val_humid (dat (mach p))
  /\ trace (mach p2) = trace (mach p)
  /\ klog p2 = klog p.
Proof.
  cbv zeta. destruct p as [m rg v0 sw l]. destruct m as [kn d j i q en wp tr].
  unfold sht15_invalidate_voltage, run_supply_work, sht15_update_voltage,
    set_volt, queue_supply_work, get_volt, pbind, pret, lift, modify_data,
    set_mach, set_supply_work_pending, set_dat.
  destruct (event =? REGULATOR_EVENT_VOLTAGE_CHANGE);
    cbn [mach reg volt supply_work_pending klog fst snd dat kern jiffies
         data_in irq_in irq_enabled work_pending trace];
    destruct d; repeat split.
Qed.

Ltac init_red :=
  cbv beta iota zeta
      delta [negb fst snd app sht15_unregister_from nth sht_drivers].

Ltac init_failed :=
  match goal with
  | E : (?x =? 0) = false |- _ => rewrite ?E
  end;
  init_red;
  repeat split;
  try (let H := fresh "H" in
       intro H; exfalso;
       match goal with
       | E : (?x =? 0) = false |- _ => apply Z.eqb_neq in E; exact (E H)
       end);
  match goal with
  | E : (?x =? 0) = false |- _ => rewrite ?E
  end;
  reflexivity.

(** X22: [sht15_init] registers the five drivers in the order of
    [sht_drivers] and returns 0, or, at the first registration that fails,
    unregisters the drivers registered so far, the last one first, and
    returns the result of the failed registration: afterwards either all
    five drivers are registered or none is.  [sht15_exit] after a successful
    [sht15_init] unregisters all five in reverse order and leaves none. *)
Theorem sht15_init_all_or_nothing (register : sht_driver -> Z) :
  let r := fst (sht15_init register) in
  let log := snd (sht15_init register) in
  r = first_failure register sht_drivers
  /\ (r = 0 -> log = map DriverRegister sht_drivers)
  /\ registered log [] = Some (if r =? 0 then rev sht_drivers else [])
  /\ (r = 0 -> registered (log ++ sht15_exit) [] = Some []).
Proof.
  cbv zeta. unfold sht15_init, sht15_exit.
  cbv beta iota zeta delta [sht15_init_loop sht_drivers length nth
                            first_failure].
  destruct (register DrvSht10 =? 0) eqn:E0; init_red; [|init_failed].
  destruct (register DrvSht11 =? 0) eqn:E1; init_red; [|init_failed].
  destruct (register DrvSht15 =? 0) eqn:E2; init_red; [|init_failed].
  destruct (register DrvSht71 =? 0) eqn:E3; init_red; [|init_failed].
  destruct (register DrvSht75 =? 0) eqn:E4; init_red; [|init_failed].
  init_red. repeat split; reflexivity.
Qed.

(** *** C5 *)










